(** * A shallow embedding of the devpath-cli analysis pipeline

    The embedded code:
    - [utils/tech-detector.js] (detectLanguages, detectFrameworks, detectTools)
      and [utils/code-quality.js] (analyzeCodeQuality and its checks);
    - [services/aws-recommender.js]: analyzeProject, checkIfWsl, convertPath,
      scanDirectory, getAwsRecommendations, identifyProjectCharacteristics,
      recommendAwsServices, and the second analyzer (analyzeProject with
      getLanguageNameFromExtension, detectFrameworksFromFiles,
      detectDatabaseTech, detectFrameworks, detectTools, analyzeCodeQuality);
    - [commands/aws-services.js]: the listing of the recommendations;
    - [services/analyzer.js]: analyzeStructure.

    Strings are Rocq [string]s of ASCII characters.  Node's [path] module is
    the POSIX one (the host the code runs on under WSL or Linux), except in
    [convertPath], whose host may also be Windows, with [path.win32]. *)

From Stdlib Require Import String Ascii List Bool Arith Lia ZArith.
From Stdlib Require Import Sorting.Permutation Sorting.Sorted.
Import ListNotations.
Open Scope string_scope.
Open Scope list_scope.
Open Scope nat_scope.

(* ================================================================= *)
(** ** Strings: the few JavaScript string methods the code uses *)

Module JsString.

Definition chars (s : string) : list ascii := list_ascii_of_string s.
Definition of_chars (l : list ascii) : string := string_of_list_ascii l.

(** [String.prototype.toLowerCase] on ASCII. *)
Definition lower_char (c : ascii) : ascii :=
  let n := nat_of_ascii c in
  if (65 <=? n) && (n <=? 90) then ascii_of_nat (n + 32) else c.

Definition upper_char (c : ascii) : ascii :=
  let n := nat_of_ascii c in
  if (97 <=? n) && (n <=? 122) then ascii_of_nat (n - 32) else c.

Fixpoint toLowerCase (s : string) : string :=
  match s with
  | EmptyString => EmptyString
  | String c r => String (lower_char c) (toLowerCase r)
  end.

(** [s.startsWith(p)]. *)
Fixpoint startsWith (s p : string) : bool :=
  match p, s with
  | EmptyString, _ => true
  | String c p', String d s' => Ascii.eqb c d && startsWith s' p'
  | String _ _, EmptyString => false
  end.

(** [s.includes(p)]. *)
Fixpoint includes (s p : string) : bool :=
  startsWith s p ||
  match s with
  | EmptyString => false
  | String _ s' => includes s' p
  end.

(** [s.endsWith(p)]. *)
Definition endsWith (s p : string) : bool :=
  startsWith (of_chars (rev (chars s))) (of_chars (rev (chars p))).

(** [s.replace(/c/g, d)]. *)
Fixpoint replace_all (c d : ascii) (s : string) : string :=
  match s with
  | EmptyString => EmptyString
  | String x r => String (if Ascii.eqb x c then d else x) (replace_all c d r)
  end.

(** [s.split(sep)] for a one-character separator. *)
Fixpoint split (sep : ascii) (s : string) : list string :=
  match s with
  | EmptyString => [EmptyString]
  | String c r =>
      if Ascii.eqb c sep then EmptyString :: split sep r
      else match split sep r with
           | w :: ws => String c w :: ws
           | [] => [String c EmptyString]
           end
  end.

(** [s.substring(n)] and [s.slice(a, b)]. *)
Definition drop (n : nat) (s : string) : string := of_chars (skipn n (chars s)).
Definition slice (a b : nat) (s : string) : string := substring a (b - a) s.

End JsString.

Definition slash : ascii := "/".
Definition dot : ascii := ".".
Definition backslash : ascii := "\".
Definition newline : ascii := "010".

(* ================================================================= *)
(** ** Node's [path] module (POSIX) *)

Module NodePath.
Import JsString.

(** [path.extname], following the right-to-left scan of Node's
    implementation: [startDot], [startPart], [end], [matchedSlash] and
    [preDotState] are the variables of the loop, [-1] is [None]. *)
Record ext_state := ExtSt {
  startDot : option nat;
  startPart : nat;
  endIdx : option nat;
  matchedSlash : bool;
  preDotState : Z
}.

(** The loop body, for the characters at indices [length cs] down to 0
    (the head of the list is the character at index [length cs']). *)
Fixpoint extname_loop (cs : list ascii) (st : ext_state) : ext_state :=
  match cs with
  | [] => st
  | c :: cs' =>
      let i := length cs' in
      if Ascii.eqb c slash then
        if negb (matchedSlash st) then
          ExtSt (startDot st) (i + 1) (endIdx st) (matchedSlash st) (preDotState st)
        else extname_loop cs' st
      else
        let st1 :=
          match endIdx st with
          | None => ExtSt (startDot st) (startPart st) (Some (i + 1)) false (preDotState st)
          | Some _ => st
          end in
        let st2 :=
          if Ascii.eqb c dot then
            match startDot st1 with
            | None => ExtSt (Some i) (startPart st1) (endIdx st1) (matchedSlash st1) (preDotState st1)
            | Some _ =>
                if negb (Z.eqb (preDotState st1) 1)
                then ExtSt (startDot st1) (startPart st1) (endIdx st1) (matchedSlash st1) 1%Z
                else st1
            end
          else
            match startDot st1 with
            | Some _ => ExtSt (startDot st1) (startPart st1) (endIdx st1) (matchedSlash st1) (-1)%Z
            | None => st1
            end in
        extname_loop cs' st2
  end.

Definition extname (p : string) : string :=
  let st := extname_loop (rev (chars p)) (ExtSt None 0 None true 0%Z) in
  match startDot st, endIdx st with
  | Some sd, Some e =>
      if Z.eqb (preDotState st) 0 then ""
      else if Z.eqb (preDotState st) 1 && Nat.eqb (S sd) e
              && Nat.eqb sd (startPart st + 1) then ""
      else slice sd e p
  | _, _ => ""
  end.

(** [path.basename] (without the extension argument). *)
Fixpoint basename_loop (cs : list ascii) (start : nat) (endi : option nat)
    (matched : bool) : nat * option nat :=
  match cs with
  | [] => (start, endi)
  | c :: cs' =>
      let i := length cs' in
      if Ascii.eqb c slash then
        if negb matched then (i + 1, endi) else basename_loop cs' start endi matched
      else match endi with
           | None => basename_loop cs' start (Some (i + 1)) false
           | Some _ => basename_loop cs' start endi matched
           end
  end.

Definition basename (p : string) : string :=
  match basename_loop (rev (chars p)) 0 None true with
  | (_, None) => ""
  | (start, Some e) => slice start e p
  end.

(** [path.dirname]: the loop runs over indices [length - 1] down to 1. *)
Fixpoint dirname_loop (cs : list ascii) (matched : bool) : option nat :=
  match cs with
  | [] | [_] => None
  | c :: cs' =>
      let i := length cs' in
      if Ascii.eqb c slash then
        if negb matched then Some i else dirname_loop cs' matched
      else dirname_loop cs' false
  end.

Definition dirname (p : string) : string :=
  match p with
  | EmptyString => "."
  | String c _ =>
      let hasRoot := Ascii.eqb c slash in
      match dirname_loop (rev (chars p)) true with
      | None => if hasRoot then "/" else "."
      | Some e => if hasRoot && Nat.eqb e 1 then "//" else slice 0 e p
      end
  end.

(** [normalizeString(path, allowAboveRoot, '/')]: the segments between
    separators, skipping empty and [.] segments; [..] drops the last kept
    segment unless that one is [..] itself, and is kept only when
    [allowAboveRoot].  [stack] holds the kept segments, last one first. *)
Fixpoint normalize_segments (allowAboveRoot : bool) (stack : list string)
    (segs : list string) : list string :=
  match segs with
  | [] => stack
  | seg :: segs' =>
      if String.eqb seg "" || String.eqb seg "." then
        normalize_segments allowAboveRoot stack segs'
      else if String.eqb seg ".." then
        match stack with
        | top :: stack' =>
            if negb (String.eqb top "..") then normalize_segments allowAboveRoot stack' segs'
            else if allowAboveRoot then normalize_segments allowAboveRoot (".." :: stack) segs'
            else normalize_segments allowAboveRoot stack segs'
        | [] =>
            if allowAboveRoot then normalize_segments allowAboveRoot [".."] segs'
            else normalize_segments allowAboveRoot [] segs'
        end
      else normalize_segments allowAboveRoot (seg :: stack) segs'
  end.

(** [path.normalize] (POSIX). *)
Definition normalize (p : string) : string :=
  match p with
  | EmptyString => "."
  | String c _ =>
      let isAbsolute := Ascii.eqb c slash in
      let trailingSeparator := endsWith p "/" in
      let res := String.concat "/" (rev (normalize_segments (negb isAbsolute) [] (split slash p))) in
      if String.eqb res "" then
        if isAbsolute then "/" else if trailingSeparator then "./" else "."
      else ((if isAbsolute then "/" else "") ++ res ++ (if trailingSeparator then "/" else ""))%string
  end.

End NodePath.
Import NodePath.

(* ================================================================= *)
(** ** Node's [path] module on Windows: [path.win32.normalize] *)

Module NodePathWin32.
Import JsString NodePath.

(** [isPathSeparator]: [/] or [\]. *)
Definition isPathSeparator (c : ascii) : bool := Ascii.eqb c slash || Ascii.eqb c backslash.

(** [isWindowsDeviceRoot]: an ASCII letter. *)
Definition isWindowsDeviceRoot (c : ascii) : bool :=
  let n := nat_of_ascii c in
  ((65 <=? n) && (n <=? 90)) || ((97 <=? n) && (n <=? 122)).

(** The segments between separators, either separator counting. *)
Fixpoint split_seps (s : string) : list string :=
  match s with
  | EmptyString => [EmptyString]
  | String c r =>
      if isPathSeparator c then EmptyString :: split_seps r
      else match split_seps r with
           | w :: ws => String c w :: ws
           | [] => [String c EmptyString]
           end
  end.

(** [normalizeString(path, allowAboveRoot, '\\', isPathSeparator)]: the
    segment rules of the POSIX one, joined with [\]. *)
Definition normalizeString (p : string) (allowAboveRoot : bool) : string :=
  String.concat "\" (rev (normalize_segments allowAboveRoot [] (split_seps p))).

(** The length of the longest prefix of [cs] whose characters satisfy [f]:
    a [while (j < len && f(path[j])) j++] loop run from the head of [cs]. *)
Fixpoint run_length (f : ascii -> bool) (cs : list ascii) : nat :=
  match cs with
  | c :: r => if f c then S (run_length f r) else 0
  | [] => 0
  end.

(** The root the code matches before the tail: either a finished result
    (a bare UNC root) or [rootEnd], [device] and [isAbsolute]. *)
Inductive root :=
| RootDone (result : string)
| Root (rootEnd : nat) (device : option string) (isAbsolute : bool).

Definition not_sep (c : ascii) : bool := negb (isPathSeparator c).

(** The root matching of [win32.normalize] for a path of at least two
    characters [c0 c1 ...]. *)
Definition match_root (path : string) (cs : list ascii) (c0 c1 : ascii) : root :=
  let len := length cs in
  if isPathSeparator c0 then
    if isPathSeparator c1 then
      (* possible UNC root *)
      let j := 2 + run_length not_sep (skipn 2 cs) in
      if (j <? len) && negb (j =? 2) then
        let firstPart := slice 2 j path in
        let last := j in
        let j := last + run_length isPathSeparator (skipn last cs) in
        if (j <? len) && negb (j =? last) then
          let last := j in
          let j := last + run_length not_sep (skipn last cs) in
          if j =? len then
            RootDone ("\\" ++ firstPart ++ "\" ++ drop last path ++ "\")%string
          else if negb (j =? last) then
            Root j (Some ("\\" ++ firstPart ++ "\" ++ slice last j path)%string) true
          else Root 0 None true
        else Root 0 None true
      else Root 0 None true
    else Root 1 None true
  else if isWindowsDeviceRoot c0 && Ascii.eqb c1 ":" then
    match cs with
    | _ :: _ :: c2 :: _ =>
        if isPathSeparator c2 then Root 3 (Some (slice 0 2 path)) true
        else Root 2 (Some (slice 0 2 path)) false
    | _ => Root 2 (Some (slice 0 2 path)) false
    end
  else Root 0 None false.

(** [path.win32.normalize(path)]. *)
Definition normalize (path : string) : string :=
  let cs := chars path in
  let len := length cs in
  match cs with
  | [] => "."
  | [c] => if Ascii.eqb c slash then "\" else path
  | c0 :: c1 :: _ =>
      match match_root path cs c0 c1 with
      | RootDone result => result
      | Root rootEnd device isAbsolute =>
          let tail := if rootEnd <? len then normalizeString (drop rootEnd path) (negb isAbsolute)
                      else "" in
          let tail := if String.eqb tail "" && negb isAbsolute then "." else tail in
          let tail := if negb (String.eqb tail "") &&
                         match nth_error cs (len - 1) with
                         | Some c => isPathSeparator c
                         | None => false
                         end
                      then (tail ++ "\")%string else tail in
          match device with
          | None => if isAbsolute then ("\" ++ tail)%string else tail
          | Some d => if isAbsolute then (d ++ "\" ++ tail)%string else (d ++ tail)%string
          end
      end
  end.

End NodePathWin32.

(* ================================================================= *)
(** ** detectLanguages (utils/tech-detector.js) *)

Module TechDetector.
Import JsString NodePath.

Record Language := MkLanguage {
  lang_name : string;
  lang_count : nat;
  lang_extension : string
}.

(** The [extensions] object: its keys are non-empty results of [extname],
    which all start with a dot, so none of them is a property of
    [Object.prototype] and [Object.entries] lists them in insertion order.
    It is an association list in that order. *)
Fixpoint bump (ext : string) (acc : list (string * nat)) : list (string * nat) :=
  match acc with
  | [] => [(ext, 0 + 1)]
  | (k, n) :: r => if String.eqb k ext then (k, S n) :: r else (k, n) :: bump ext r
  end.

(** One step of [files.forEach(file => ...)]. *)
Definition count_step (acc : list (string * nat)) (file : string) : list (string * nat) :=
  let ext := toLowerCase (extname file) in
  if String.eqb ext "" then acc else bump ext acc.

Definition count_extensions (files : list string) : list (string * nat) :=
  fold_left count_step files [].

Definition extensionMap : list (string * string) :=
  [(".js", "JavaScript"); (".jsx", "JavaScript (React)"); (".ts", "TypeScript");
   (".tsx", "TypeScript (React)"); (".html", "HTML"); (".css", "CSS");
   (".scss", "SCSS"); (".sass", "Sass"); (".less", "Less"); (".py", "Python");
   (".rb", "Ruby"); (".java", "Java"); (".php", "PHP"); (".go", "Go");
   (".rs", "Rust"); (".c", "C"); (".cpp", "C++"); (".cs", "C#");
   (".swift", "Swift"); (".kt", "Kotlin"); (".sh", "Shell");
   (".md", "Markdown"); (".json", "JSON"); (".yml", "YAML"); (".yaml", "YAML");
   (".xml", "XML"); (".sql", "SQL")].

Fixpoint lookup {A} (k : string) (m : list (string * A)) : option A :=
  match m with
  | [] => None
  | (k', v) :: r => if String.eqb k' k then Some v else lookup k r
  end.
Arguments lookup {A} k m : simpl never.

(** [Object.entries(extensions).forEach(...)]: keep the known extensions. *)
Definition known_languages (exts : list (string * nat)) : list Language :=
  flat_map (fun '(ext, count) =>
              match lookup ext extensionMap with
              | Some name => [MkLanguage name count ext]
              | None => []
              end) exts.

(** [languages.sort((a, b) => b.count - a.count)]: [Array.prototype.sort]
    is stable, so the result is the stable sort by descending count,
    computed here by insertion. *)
Fixpoint insert_by_count (x : Language) (l : list Language) : list Language :=
  match l with
  | [] => [x]
  | y :: r => if lang_count y <=? lang_count x then x :: y :: r
              else y :: insert_by_count x r
  end.

Fixpoint sort_by_count (l : list Language) : list Language :=
  match l with
  | [] => []
  | x :: r => insert_by_count x (sort_by_count r)
  end.

Definition detectLanguages (files : list string) : list Language :=
  sort_by_count (known_languages (count_extensions files)).

End TechDetector.

(** Notions the statements about [detectLanguages] are written in. *)
Module LanguagesSpec.
Import JsString NodePath TechDetector.

Definition ext_of (file : string) : string := toLowerCase (extname file).

Definition count_ext (e : string) (files : list string) : nat :=
  length (filter (fun f => String.eqb (ext_of f) e) files).

Definition mem (x : string) (l : list string) : bool := existsb (String.eqb x) l.
Arguments mem : simpl never.

(** The non-empty strings of a list, each once, in order of first occurrence. *)
Fixpoint first_occ_from (seen : list string) (l : list string) : list string :=
  match l with
  | [] => []
  | x :: r =>
      if String.eqb x "" || mem x seen then first_occ_from seen r
      else x :: first_occ_from (x :: seen) r
  end.

Definition first_occurrences (files : list string) : list string :=
  first_occ_from [] (map ext_of files).

Definition known (e : string) : bool :=
  match lookup e extensionMap with Some _ => true | None => false end.

(** The order the spec asks for: descending count, equal counts by
    ascending extension string. *)
Definition ordered_by_count_then_extension (R : list Language) : Prop :=
  forall i j a b, i < j -> nth_error R i = Some a -> nth_error R j = Some b ->
    lang_count b <= lang_count a /\
    (lang_count a = lang_count b -> String.ltb (lang_extension a) (lang_extension b) = true).

End LanguagesSpec.

(* ================================================================= *)
(** ** detectFrameworks and detectTools (utils/tech-detector.js) *)

Module Detectors.
Import JsString NodePath TechDetector.

(** The two sub-objects of a parsed [package.json]; a missing sub-object
    is the empty one ([packageJson.dependencies || {}]). *)
Record Manifest := MkManifest {
  dependencies : list (string * string);
  devDependencies : list (string * string)
}.

(** [allDeps[dep]] where [allDeps = {...dependencies, ...devDependencies}]:
    a key of [devDependencies] overrides the same key of [dependencies]. *)
Definition allDeps (m : Manifest) (dep : string) : option string :=
  match lookup dep (devDependencies m) with
  | Some v => Some v
  | None => lookup dep (dependencies m)
  end.

(** JavaScript truthiness of a looked-up version: [undefined] and [""] are
    falsy. *)
Definition truthy (v : option string) : bool :=
  match v with Some s => negb (String.eqb s "") | None => false end.

(** A framework or tool entry: [{name, version}] from the manifest,
    [{name}] from a file pattern ([version] is then [undefined]). *)
Record Entry := MkEntry { e_name : string; e_version : option string }.

(** [if (!list.some(x => x.name === name)) list.push({ name })]. *)
Definition push_if_absent (name : string) (acc : list Entry) : list Entry :=
  if existsb (fun e => String.eqb (e_name e) name) acc then acc
  else acc ++ [MkEntry name None].

Definition frameworkRules : list (string * list string) :=
  [("React", ["react"; "react-dom"]); ("Angular", ["@angular/core"]);
   ("Vue.js", ["vue"]); ("Express", ["express"]); ("Next.js", ["next"]);
   ("Gatsby", ["gatsby"]); ("NestJS", ["@nestjs/core"]); ("Svelte", ["svelte"]);
   ("Electron", ["electron"]); ("AWS CDK", ["aws-cdk-lib"])].

Definition frameworkFilePatterns : list (string * string) :=
  [("angular.json", "Angular"); ("vue.config.js", "Vue.js");
   ("next.config.js", "Next.js"); ("gatsby-config.js", "Gatsby");
   ("svelte.config.js", "Svelte"); ("electron-builder.yml", "Electron");
   ("cdk.json", "AWS CDK")].

(** [rule.deps.map(dep => allDeps[dep]).find(v => v)]. *)
Definition first_truthy (vs : list (option string)) : option string :=
  match find truthy vs with Some v => v | None => None end.

Definition framework_from_manifest (m : Manifest) (rule : string * list string) : list Entry :=
  let '(name, deps) := rule in
  if existsb (fun dep => truthy (allDeps m dep)) deps
  then [MkEntry name (first_truthy (map (allDeps m) deps))]
  else [].

Definition framework_from_pattern (files : list string) (acc : list Entry)
    (pat : string * string) : list Entry :=
  let '(pattern, name) := pat in
  if existsb (fun file => endsWith file pattern) files then push_if_absent name acc else acc.

Definition detectFrameworks (files : list string) (packageJson : option Manifest) : list Entry :=
  let fw0 := match packageJson with
             | Some m => flat_map (framework_from_manifest m) frameworkRules
             | None => []
             end in
  let fw1 := fold_left (framework_from_pattern files) frameworkFilePatterns fw0 in
  if existsb (fun f => String.eqb (e_name f) "React") fw1 then fw1
  else if existsb (fun file => endsWith file ".jsx" || endsWith file ".tsx") files
       then fw1 ++ [MkEntry "React" None]
       else fw1.

Definition toolRules : list (string * list string) :=
  [("Webpack", ["webpack"]); ("Babel", ["@babel/core"]); ("ESLint", ["eslint"]);
   ("Jest", ["jest"]); ("Mocha", ["mocha"]); ("Chai", ["chai"]);
   ("TypeScript", ["typescript"]); ("Prettier", ["prettier"]);
   ("Sass", ["sass"; "node-sass"]); ("Lodash", ["lodash"]); ("Axios", ["axios"]);
   ("Redux", ["redux"]); ("GraphQL", ["graphql"]); ("Sequelize", ["sequelize"]);
   ("Mongoose", ["mongoose"]); ("Commander.js", ["commander"]); ("dotenv", ["dotenv"])].

Definition toolFilePatterns : list (string * string) :=
  [(".eslintrc", "ESLint"); (".prettierrc", "Prettier");
   ("webpack.config.js", "Webpack"); ("babel.config.js", "Babel");
   ("jest.config.js", "Jest"); ("tsconfig.json", "TypeScript"); (".env", "dotenv")].

(** [const foundDep = rule.deps.find(dep => allDeps[dep])]. *)
Definition tool_from_manifest (m : Manifest) (rule : string * list string) : list Entry :=
  let '(name, deps) := rule in
  match find (fun dep => truthy (allDeps m dep)) deps with
  | Some foundDep => [MkEntry name (allDeps m foundDep)]
  | None => []
  end.

Definition tool_from_pattern (files : list string) (acc : list Entry)
    (pat : string * string) : list Entry :=
  let '(pattern, name) := pat in
  if existsb (fun file => includes file pattern) files then push_if_absent name acc else acc.

Definition detectTools (files : list string) (packageJson : option Manifest) : list Entry :=
  let tools0 := match packageJson with
                | Some m => flat_map (tool_from_manifest m) toolRules
                | None => []
                end in
  fold_left (tool_from_pattern files) toolFilePatterns tools0.

End Detectors.

(* ================================================================= *)
(** ** analyzeCodeQuality (utils/code-quality.js) *)

Module CodeQuality.
Import JsString NodePath TechDetector Detectors.

(** [{type, severity, message}]. *)
Record Insight := MkInsight {
  i_type : string;
  i_severity : string;
  i_message : string
}.

(** Decimal rendering of a number in a template literal. *)
Fixpoint digits (fuel n : nat) (acc : string) : string :=
  match fuel with
  | 0 => acc
  | S fuel' =>
      let acc' := String (ascii_of_nat (48 + n mod 10)) acc in
      if n <? 10 then acc' else digits fuel' (n / 10) acc'
  end.

Definition string_of_nat (n : nat) : string := digits (S n) n "".

(** The content of [projectPath/file] as [fs.readFile] returns it, [None]
    when the read fails. *)
Definition FileSystem := string -> option string.

Definition checkProjectStructure (files : list string) : list Insight :=
  let hasReadme := existsb (fun f => String.eqb (toLowerCase (basename f)) "readme.md") files in
  let hasGitignore := existsb (fun f => String.eqb (basename f) ".gitignore") files in
  let srcFiles := filter (fun f => negb (includes f "node_modules")) files in
  let hasStructure := existsb (fun f => includes f "/src/" || includes f "/lib/" || includes f "/app/") srcFiles in
  (if hasReadme then [] else
     [MkInsight "structure" "medium" "Project is missing a README.md file. Adding documentation helps others understand your project."]) ++
  (if hasGitignore then [] else
     [MkInsight "structure" "medium" "Project is missing a .gitignore file. This helps prevent committing unnecessary files."]) ++
  (if negb hasStructure && (5 <? length srcFiles) then
     [MkInsight "structure" "low" "Consider organizing your code into directories (like src/, lib/, or components/) for better maintainability."]
   else []).

Definition has_tool (tools : list Entry) (names : list string) : bool :=
  existsb (fun t => existsb (String.eqb (e_name t)) names) tools.

Definition checkCodeIssues (files : list string) (tools : list Entry) : list Insight :=
  let hasLinter := has_tool tools ["ESLint"; "TSLint"] in
  let hasTestFramework := has_tool tools ["Jest"; "Mocha"; "Jasmine"] in
  let hasTestFiles := existsb (fun f => includes f ".test." || includes f ".spec." ||
                                        includes f "/test/" || includes f "/tests/") files in
  (if hasLinter then [] else
     [MkInsight "quality" "medium" "Consider adding a linter like ESLint to enforce code quality standards."]) ++
  (if hasTestFramework then [] else
     [MkInsight "quality" "medium" "No testing framework detected. Consider adding tests with Jest, Mocha, or another testing library."]) ++
  (if negb hasTestFiles && (3 <? length files) then
     [MkInsight "quality" "medium" "No test files detected. Adding tests helps ensure your code works as expected."]
   else []).

(** [content.split('\n').length]. *)
Definition line_count (content : string) : nat := length (split newline content).

Definition large_file_insight (file : string) (lines : nat) : Insight :=
  MkInsight "best-practice" "medium"
    ("File " ++ file ++ " has " ++ string_of_nat lines ++
     " lines. Consider breaking it into smaller modules.")%string.

(** The [for (const file of jsFiles.slice(0, 10))] loop: the insights it
    pushes, and the files it reads, in order.  A failed read is caught and
    skipped. *)
Fixpoint size_loop (fs : FileSystem) (todo : list string) : list Insight * list string :=
  match todo with
  | [] => ([], [])
  | file :: rest =>
      let '(ins, reads) := size_loop fs rest in
      let here := match fs file with
                  | Some content =>
                      let lines := line_count content in
                      if 300 <? lines then [large_file_insight file lines] else []
                  | None => []
                  end in
      (here ++ ins, file :: reads)
  end.

Definition is_js_file (file : string) : bool :=
  String.eqb (extname file) ".js" || String.eqb (extname file) ".jsx".

(** [checkBestPractices]: its insights and the files it reads. *)
Definition checkBestPractices (fs : FileSystem) (files : list string) (tools : list Entry)
    : list Insight * list string :=
  let hasLockFile := existsb (fun f => String.eqb (basename f) "package-lock.json" ||
                                       String.eqb (basename f) "yarn.lock") files in
  let lock := if negb hasLockFile && existsb (fun f => String.eqb (basename f) "package.json") files
              then [MkInsight "best-practice" "low" "No lock file (package-lock.json or yarn.lock) found. Lock files help ensure consistent installations."]
              else [] in
  let hasEnvConfig := existsb (fun f => String.eqb (basename f) ".env" ||
                                        String.eqb (basename f) ".env.example") files in
  let usesDotenv := has_tool tools ["dotenv"] in
  let env := if usesDotenv && negb hasEnvConfig
             then [MkInsight "best-practice" "low" "You're using dotenv but no .env or .env.example file was found. Consider adding an example file for documentation."]
             else [] in
  let jsFiles := filter is_js_file files in
  let '(sized, reads) := size_loop fs (firstn 10 jsFiles) in
  (lock ++ env ++ sized, reads).

Definition analyzeCodeQuality (fs : FileSystem) (files : list string) (tools : list Entry)
    : list Insight :=
  checkProjectStructure files ++ checkCodeIssues files tools ++
  fst (checkBestPractices fs files tools).

End CodeQuality.

(* ================================================================= *)
(** ** scanDirectory (services/aws-recommender.js) *)

Module Scanner.
Import JsString.

(** An entry of [fs.readdir(dir, { withFileTypes: true })]: its name and
    [entry.isDirectory()] (false for a symbolic link, even to a directory). *)
Record Dirent := MkDirent { d_name : string; d_isDir : bool }.

(** The file system seen from the scanned root: the entries of the directory
    reached by a path of names, or [None] when [readdir] rejects.  Any such
    function is allowed, so the tree may be infinite, which is what a
    directory cycle unfolds to. *)
Definition Tree := list string -> option (list Dirent).

Definition skipped (name : string) : bool :=
  String.eqb name "node_modules" || String.eqb name "dist" ||
  String.eqb name "build" || String.eqb name ".git".

(** [path.relative(basePath, fullPath).replace(/\\/g, '/')] for the entry
    [name] of the directory [rel] below [basePath]. *)
Definition render (rel : list string) (name : string) : string :=
  replace_all backslash slash (String.concat "/" (rel ++ [name])).

(** The directories read, with the depth of the call that read them. *)
Definition Trace := list (list string * nat).

(** The [for (const entry of entries)] loop of [scanDirectory]: [call name]
    is the recursive [scanDirectory] on the subdirectory [name]. *)
Fixpoint entries_loop (call : string -> list string * Trace) (rel : list string)
    (es : list Dirent) : list string * Trace :=
  match es with
  | [] => ([], [])
  | entry :: es' =>
      let '(here, r1) :=
        if d_isDir entry then
          if skipped (d_name entry) then ([], [])   (* continue *)
          else call (d_name entry)
        else ([render rel (d_name entry)], []) in
      let '(rest, r2) := entries_loop call rel es' in
      (here ++ rest, r1 ++ r2)
  end.

(** [scanDirectory(dirPath, maxDepth, currentDepth, basePath)], with
    [dirPath] the directory [rel] below [basePath].  The result is the files
    found and the [readdir] calls made.  The structural argument [budget] is
    only there for Rocq; [scanDirectory] starts it at [maxDepth + 1], which
    the guard [currentDepth > maxDepth] always reaches first. *)
Fixpoint scan_go (fs : Tree) (maxDepth budget currentDepth : nat) (rel : list string)
    : list string * Trace :=
  if maxDepth <? currentDepth then ([], []) else
  match budget with
  | 0 => ([], [])
  | S budget' =>
      match fs rel with
      | None => ([], [(rel, currentDepth)])   (* error logged, [] returned *)
      | Some entries =>
          let '(files, reads) :=
            entries_loop (fun name => scan_go fs maxDepth budget' (S currentDepth) (rel ++ [name]))
                         rel entries in
          (files, (rel, currentDepth) :: reads)
      end
  end.

Definition scanDirectory (fs : Tree) (maxDepth : nat) : list string * Trace :=
  scan_go fs maxDepth (S maxDepth) 0 [].

(** The directories reachable from the root through directory entries. *)
Inductive reachable (fs : Tree) : list string -> Prop :=
| reach_root : reachable fs []
| reach_sub rel d es :
    reachable fs rel -> fs rel = Some es -> In (MkDirent d true) es ->
    reachable fs (rel ++ [d]).

(** A project with [node_modules/x.js], [src/b.js] and [a.js]. *)
Definition demo_tree : Tree := fun rel =>
  match rel with
  | [] => Some [MkDirent "node_modules" true; MkDirent "src" true; MkDirent "a.js" false]
  | [d] => if String.eqb d "node_modules" then Some [MkDirent "x.js" false]
           else if String.eqb d "src" then Some [MkDirent "b.js" false]
           else None
  | _ => None
  end.

(** A directory that contains itself (through a cycle) and one file. *)
Definition self_loop : Tree := fun _ => Some [MkDirent "loop" true; MkDirent "f.js" false].

End Scanner.

(* ================================================================= *)
(** ** Thrown errors *)

(** A computation of an [async] function: it resolves to a value or it
    rejects (throws) with an [Error] whose [message] is given. *)
Module JsExc.

Inductive Exc (A : Type) : Type :=
| Ok (a : A)
| Throw (message : string).
Arguments Ok {A} a.
Arguments Throw {A} message.

Definition bind {A B} (m : Exc A) (k : A -> Exc B) : Exc B :=
  match m with
  | Ok a => k a
  | Throw e => Throw e
  end.

(** [try { m } catch (error) { h(error.message) }]. *)
Definition catch {A} (m : Exc A) (h : string -> Exc A) : Exc A :=
  match m with
  | Ok a => Ok a
  | Throw e => h e
  end.

Notation "'let*' x ':=' m 'in' k" := (bind m (fun x => k))
  (at level 200, x name, m at level 100, k at level 200).

End JsExc.

(* ================================================================= *)
(** ** [src/services/aws-recommender.js]: [analyzeProject] *)

Module AwsRecommender.
Import JsString JsExc.

Definition toUpperCase (s : string) : string := of_chars (map upper_char (chars s)).

(** [checkIfWsl()], for the host whose [os.release()] is [release]. *)
Definition checkIfWsl (release : string) : bool :=
  let r := toLowerCase release in
  includes r "microsoft" || includes r "wsl".

Definition is_letter (c : ascii) : bool :=
  let n := nat_of_ascii c in
  ((65 <=? n) && (n <=? 90)) || ((97 <=? n) && (n <=? 122)).

Definition is_lower (c : ascii) : bool :=
  let n := nat_of_ascii c in (97 <=? n) && (n <=? 122).

(** [/^[A-Za-z]:\\/.test(p)]. *)
Definition drive_pattern (p : string) : bool :=
  match p with
  | String c (String k (String b _)) => is_letter c && Ascii.eqb k ":" && Ascii.eqb b backslash
  | _ => false
  end.

(** [/^\/mnt\/[a-z]\//.test(p)]. *)
Definition mnt_pattern (p : string) : bool :=
  match p with
  | String a1 (String a2 (String a3 (String a4 (String a5 (String c (String a7 _)))))) =>
      Ascii.eqb a1 "/" && Ascii.eqb a2 "m" && Ascii.eqb a3 "n" && Ascii.eqb a4 "t" &&
      Ascii.eqb a5 "/" && is_lower c && Ascii.eqb a7 "/"
  | _ => false
  end.

(** The [path] module of the host: [path.posix] on Linux (WSL included),
    [path.win32] on Windows. *)
Inductive Platform := Posix | Win32.

Definition path_normalize (platform : Platform) : string -> string :=
  match platform with
  | Posix => NodePath.normalize
  | Win32 => NodePathWin32.normalize
  end.

(** [convertPath(inputPath)] on a host whose [path] module is that of
    [platform]; [isWsl] is [checkIfWsl()]. *)
Definition convertPath (platform : Platform) (isWsl : bool) (inputPath : string) : string :=
  let normalizedPath := path_normalize platform inputPath in
  if isWsl && drive_pattern normalizedPath then
    let driveLetter := toLowerCase (substring 0 1 normalizedPath) in
    let pathWithoutDrive := replace_all backslash slash (drop 2 normalizedPath) in
    ("/mnt/" ++ driveLetter ++ pathWithoutDrive)%string
  else if negb isWsl && mnt_pattern normalizedPath then
    let driveLetter := toUpperCase (substring 5 1 normalizedPath) in
    let pathWithoutDrive := replace_all slash backslash (drop 7 normalizedPath) in
    (driveLetter ++ ":" ++ pathWithoutDrive)%string
  else normalizedPath.

(** [{ languages, frameworks, tools }]. *)
Record TechStack := MkTechStack {
  languages : list TechDetector.Language;
  frameworks : list Detectors.Entry;
  tools : list Detectors.Entry
}.

Record AnalysisResult := MkAnalysisResult {
  structure : string;
  techStack : TechStack;
  codeQuality : list CodeQuality.Insight
}.

(** The outcome of [fs.stat(p)]: a directory, something else, or a rejection
    with its [error.code] (if any) and [error.message]. *)
Inductive Stat :=
| StatDir
| StatNotDir
| StatError (code : option string) (message : string).

(** The host: its [path] module, [os.release()] and [fs.stat]. *)
Record Host := MkHost {
  platform : Platform;
  release : string;
  stat : string -> Stat
}.

(** [options.depth]: a number (from [getAwsRecommendations]) or the
    string commander gives for [--depth]. *)
Inductive DepthValue :=
| DepthNumber (n : nat)
| DepthString (s : string).

Record Options := MkOptions {
  github : option string;
  depth : option DepthValue
}.

(** The functions [analyzeProject] calls after the path check; each may
    resolve or reject in any way. *)
Record Stages := MkStages {
  cloneRepository : string -> Exc string;
  scanDirectory : string -> DepthValue -> Exc (list string);
  analyzeStructure : string -> list string -> Exc string;
  detectTechStack : string -> list string -> Exc TechStack;
  analyzeCodeQuality : string -> list string -> TechStack -> Exc (list CodeQuality.Insight)
}.

(** [if (options.github)]: a non-empty string is truthy. *)
Definition github_given (options : Options) : bool :=
  match github options with
  | Some g => negb (String.eqb g "")
  | None => false
  end.

(** [options.depth || 3]: [0], [""] and [undefined] are falsy; any other
    value, the string ["0"] included, is passed on as it is. *)
Definition depth_or_3 (options : Options) : DepthValue :=
  match depth options with
  | Some (DepthNumber (S d)) => DepthNumber (S d)
  | Some (DepthString (String c r)) => DepthString (String c r)
  | _ => DepthNumber 3
  end.

Definition wsl_help : string :=
  String newline (String newline
    "If you're trying to access a Windows path from WSL, use the format: /mnt/c/path/to/project instead of C:\path\to\project").

Definition generic_help : string :=
  String newline (String newline
    "Make sure the path exists and you have permission to access it.").

(** [error.code === 'ENOENT']. *)
Definition is_enoent (code : option string) : bool :=
  match code with
  | Some c => String.eqb c "ENOENT"
  | None => false
  end.

(** The inner [catch (error)] of the directory check. *)
Definition stat_handler (host : Host) (projectPath : string) (code : option string)
    (message : string) : Exc unit :=
  if is_enoent code then
    let isWsl := checkIfWsl (release host) in
    let errorMsg := ("Cannot access directory: " ++ projectPath ++ ". The directory does not exist.")%string in
    let helpMsg := if isWsl then wsl_help else generic_help in
    Throw (errorMsg ++ helpMsg)%string
  else Throw ("Cannot access directory: " ++ projectPath ++ ". Error: " ++ message)%string.

(** The inner [try]: [fs.stat] and the [isDirectory()] check, whose [Error]
    has no [code]. *)
Definition checkDirectory (host : Host) (projectPath : string) : Exc unit :=
  match stat host projectPath with
  | StatDir => Ok tt
  | StatNotDir => stat_handler host projectPath None ("Path is not a directory: " ++ projectPath)%string
  | StatError code message => stat_handler host projectPath code message
  end.

(** The body of the outer [try]. *)
Definition try_body (st : Stages) (host : Host) (options : Options) (projectPath : string)
    : Exc AnalysisResult :=
  let projectPath := convertPath (platform host) (checkIfWsl (release host)) projectPath in
  let* _ := checkDirectory host projectPath in
  let* files := scanDirectory st projectPath (depth_or_3 options) in
  let* structure := analyzeStructure st projectPath files in
  let* techStack := detectTechStack st projectPath files in
  let* codeQuality := analyzeCodeQuality st projectPath files techStack in
  Ok (MkAnalysisResult structure techStack codeQuality).

(** The value returned by the outer [catch (error)]. *)
Definition degraded (message : string) : AnalysisResult :=
  MkAnalysisResult "Error analyzing project structure."
    (MkTechStack [] [] [])
    [CodeQuality.MkInsight "error" "high" ("Error analyzing project: " ++ message)%string].

Definition analyzeProject (st : Stages) (host : Host) (options : Options)
    (projectPath : string) : Exc AnalysisResult :=
  let* projectPath :=
    if github_given options then
      match github options with
      | Some g => cloneRepository st g
      | None => Ok projectPath
      end
    else Ok projectPath in
  catch (try_body st host options projectPath) (fun message => Ok (degraded message)).

(** A Linux host (not WSL) on which nothing exists. *)
Definition linux_empty_host : Host :=
  MkHost Posix "6.8.0-45-generic" (fun _ => StatError (Some "ENOENT") "ENOENT: no such file or directory").

(** A WSL host on which every path is a directory. *)
Definition wsl_host : Host :=
  MkHost Posix "5.15.153.1-microsoft-standard-WSL2" (fun _ => StatDir).

(** Stages that all resolve, except the scan, which rejects. *)
Definition failing_scan_stages : Stages :=
  MkStages (fun url => Ok url) (fun _ _ => Throw "EACCES: permission denied")
    (fun _ _ => Ok "") (fun _ _ => Ok (MkTechStack [] [] [])) (fun _ _ _ => Ok []).

Definition local_options : Options := MkOptions None None.

End AwsRecommender.

(* ================================================================= *)
(** ** [devpath-cli/src/services/analyzer.js]: [analyzeStructure] *)

Module StructureSummary.
Import JsString JsExc.

(** The properties a plain object [{}] inherits from [Object.prototype]:
    all are truthy, none is an array. *)
Definition object_prototype_keys : list string :=
  ["constructor"; "__proto__"; "toString"; "toLocaleString"; "valueOf";
   "hasOwnProperty"; "isPrototypeOf"; "propertyIsEnumerable";
   "__defineGetter__"; "__defineSetter__"; "__lookupGetter__"; "__lookupSetter__"].

(** A value read from [directories[dir]]. *)
Inductive JsValue :=
| JArray (items : list string)
| JInherited (name : string).

(** The object [directories]: its own properties in insertion order. *)
Definition Directories := list (string * list string).

Fixpoint own (k : string) (d : Directories) : option (list string) :=
  match d with
  | [] => None
  | (k', v) :: d' => if String.eqb k k' then Some v else own k d'
  end.

(** [directories[k]]: an own property, else the prototype chain. *)
Definition get (d : Directories) (k : string) : option JsValue :=
  match own k d with
  | Some v => Some (JArray v)
  | None =>
      if existsb (String.eqb k) object_prototype_keys then Some (JInherited k) else None
  end.

(** [directories[k] = v]: in place for an own property, else appended. *)
Fixpoint set (d : Directories) (k : string) (v : list string) : Directories :=
  match d with
  | [] => [(k, v)]
  | (k', v') :: d' => if String.eqb k k' then (k', v) :: d' else (k', v') :: set d' k v
  end.

(** The body of [files.forEach(file => ...)]. *)
Definition group_file (directories : Directories) (file : string) : Exc Directories :=
  let dir := dirname file in
  let directories :=
    match get directories dir with
    | Some _ => directories
    | None => set directories dir []
    end in
  match get directories dir with
  | Some (JArray items) => Ok (set directories dir (items ++ [basename file]))
  | _ => Throw "directories[dir].push is not a function"
  end.

Fixpoint group_files (directories : Directories) (files : list string) : Exc Directories :=
  match files with
  | [] => Ok directories
  | file :: files' =>
      let* directories := group_file directories file in
      group_files directories files'
  end.

(** [Array.prototype.sort()] on strings: ascending code units. *)
Fixpoint insert_string (x : string) (l : list string) : list string :=
  match l with
  | [] => [x]
  | y :: l' => if String.leb x y then x :: y :: l' else y :: insert_string x l'
  end.

Definition sort_strings (l : list string) : list string := fold_right insert_string [] l.

Definition render_group (directories : Directories) (dir : string) : string :=
  let heading :=
    if String.eqb dir "." then String.append "Root directory:" (String newline "")
    else (dir ++ "/:" ++ String newline "")%string in
  let items :=
    match own dir directories with
    | Some v => v
    | None => []
    end in
  (heading ++ String.concat "" (map (fun file => "  - " ++ file ++ String newline "") (sort_strings items))
   ++ String newline "")%string.

Definition analyzeStructure (files : list string) : Exc string :=
  let* directories := group_files [] files in
  Ok (String.concat "" (map (render_group directories) (sort_strings (map fst directories)))).

End StructureSummary.

(* ================================================================= *)
(** ** [src/services/aws-recommender.js]: the recommendations *)

Module AwsServices.
Import JsString.

(** [parseInt(s)] (no radix) on an ASCII string: leading white space, an
    optional sign, a [0x]/[0X] prefix selecting base 16, then the longest
    run of digits of the base.  [None] is [NaN]. *)
Definition is_js_space (c : ascii) : bool :=
  let n := nat_of_ascii c in (9 <=? n) && (n <=? 13) || (n =? 32).

Fixpoint trim_start (cs : list ascii) : list ascii :=
  match cs with
  | c :: cs' => if is_js_space c then trim_start cs' else cs
  | [] => []
  end.

Definition digit_value (c : ascii) : nat :=
  let n := nat_of_ascii c in
  if (48 <=? n) && (n <=? 57) then n - 48
  else if (97 <=? n) && (n <=? 122) then n - 87
  else if (65 <=? n) && (n <=? 90) then n - 55
  else 36.

(** The digits of base [radix] at the head of [cs]. *)
Fixpoint digit_run (radix : nat) (cs : list ascii) : list nat :=
  match cs with
  | c :: cs' => if digit_value c <? radix then digit_value c :: digit_run radix cs' else []
  | [] => []
  end.

Definition digits_value (radix : nat) (ds : list nat) : Z :=
  fold_left (fun acc d => (acc * Z.of_nat radix + Z.of_nat d)%Z) ds 0%Z.

Definition parseInt (s : string) : option Z :=
  let cs := trim_start (chars s) in
  let '(sign, cs) :=
    match cs with
    | c :: cs' =>
        if Ascii.eqb c "-" then ((-1)%Z, cs')
        else if Ascii.eqb c "+" then (1%Z, cs')
        else (1%Z, cs)
    | [] => (1%Z, cs)
    end in
  let '(radix, cs) :=
    match cs with
    | c :: x :: cs' =>
        if Ascii.eqb c "0" && (Ascii.eqb x "x" || Ascii.eqb x "X") then (16, cs') else (10, cs)
    | _ => (10, cs)
    end in
  match digit_run radix cs with
  | [] => None
  | ds => Some (sign * digits_value radix ds)%Z
  end.

(** The characteristics object, its fields in the source's order. *)
Record Characteristics := MkCharacteristics {
  isWebApp : bool; isServerless : bool; hasDatabase : bool; isStaticSite : bool;
  isContainerized : bool; hasCICD : bool; isDataProcessing : bool; isAI : bool;
  isIoT : bool; isBackendAPI : bool; isFullStack : bool; isAuthentication : bool;
  isFileStorage : bool; isMediaProcessing : bool; isMonitoring : bool;
  isDevOps : bool; isInfraAsCode : bool
}.

(** What [identifyProjectCharacteristics] reads of the analysis: the
    [name]s of [techStack.frameworks] and [techStack.tools], [None] for a
    field that is missing or not an array.  A falsy [analysis] or
    [analysis.techStack] is [None] as a whole. *)
Record TechNames := MkTechNames {
  frameworkNames : option (list string);
  toolNames : option (list string)
}.

(** [names.some(name => list.includes(name))]. *)
Definition some_in (names list : list string) : bool :=
  existsb (fun name => existsb (String.eqb name) list) names.

(** A check on the lowercased names of an array field, [false] when the
    field is not an array. *)
Definition check (field : option (list string)) (p : list string -> bool) : bool :=
  match field with
  | Some l => p (map toLowerCase l)
  | None => false
  end.

Definition identifyProjectCharacteristics (analysis : option TechNames) : Characteristics :=
  match analysis with
  | None =>
      MkCharacteristics false false false false false false false false false
                        false false false false false false false false
  | Some t =>
      let fw := frameworkNames t in
      let tl := toolNames t in
      MkCharacteristics
        (check fw (fun n => some_in n ["react"; "vue.js"; "angular"; "next.js"; "gatsby"]))
        (check tl (fun n => existsb (fun name => includes name "serverless" || includes name "lambda" ||
                                                 includes name "netlify" || includes name "vercel") n))
        (check tl (fun n => some_in n ["sequelize"; "mongoose"; "typeorm"; "prisma"]))
        (check fw (fun n => some_in n ["gatsby"; "eleventy"; "jekyll"]))
        (check tl (fun n => some_in n ["docker"; "kubernetes"; "docker-compose"]))
        (check tl (fun n => some_in n ["jenkins"; "travis"; "circleci"; "github actions"]))
        false
        (check tl (fun n => some_in n ["tensorflow"; "pytorch"; "scikit-learn"; "huggingface"]))
        false
        (check fw (fun n => some_in n ["express"; "nestjs"; "koa"; "fastify"]))
        (check fw (fun n => some_in n ["next.js"; "nuxt.js"; "sapper"]))
        (check tl (fun n => some_in n ["passport"; "auth0"; "jwt"; "oauth"]))
        (check tl (fun n => some_in n ["multer"; "aws-sdk"; "firebase-storage"]))
        false
        false
        (check tl (fun n => some_in n ["terraform"; "ansible"; "puppet"; "chef"]))
        (check fw (fun n => some_in n ["aws cdk"; "terraform"; "cloudformation"]))
  end.

Record Service := MkService {
  s_name : string; s_description : string; s_url : string; s_useCase : string
}.

Definition lambda := MkService "AWS Lambda" "Run code without provisioning or managing servers"
  "https://aws.amazon.com/lambda/" "Serverless functions, event-driven applications".
Definition ecs := MkService "Amazon ECS" "Highly secure, reliable, and scalable way to run containers"
  "https://aws.amazon.com/ecs/" "Docker container orchestration".
Definition eks := MkService "Amazon EKS" "The most trusted way to run Kubernetes"
  "https://aws.amazon.com/eks/" "Kubernetes container orchestration".
Definition beanstalk := MkService "AWS Elastic Beanstalk"
  "Easy-to-use service for deploying and scaling web applications"
  "https://aws.amazon.com/elasticbeanstalk/" "Web applications with minimal infrastructure management".
Definition amplify := MkService "AWS Amplify Hosting"
  "Fully managed CI/CD and hosting service for static websites and web apps"
  "https://aws.amazon.com/amplify/hosting/" "Static websites and single page applications".
Definition s3 := MkService "Amazon S3" "Object storage built to store and retrieve any amount of data"
  "https://aws.amazon.com/s3/" "File storage, static website hosting, data backup".
Definition glacier := MkService "Amazon S3 Glacier" "Low-cost archive storage in the cloud"
  "https://aws.amazon.com/glacier/" "Long-term data archiving and backup".
Definition rds := MkService "Amazon RDS" "Set up, operate, and scale a relational database in the cloud"
  "https://aws.amazon.com/rds/" "Relational databases like MySQL, PostgreSQL, SQL Server".
Definition dynamodb := MkService "Amazon DynamoDB" "Fast and flexible NoSQL database service"
  "https://aws.amazon.com/dynamodb/"
  "NoSQL database for applications with high-throughput, low-latency requirements".
Definition apiGateway := MkService "Amazon API Gateway"
  "Create, publish, maintain, monitor, and secure APIs at any scale"
  "https://aws.amazon.com/api-gateway/" "RESTful APIs and WebSocket APIs".
Definition cloudFront := MkService "Amazon CloudFront"
  "Fast, highly secure and programmable content delivery network (CDN)"
  "https://aws.amazon.com/cloudfront/" "Content delivery with low latency and high transfer speeds".
Definition codePipeline := MkService "AWS CodePipeline"
  "Continuous integration and continuous delivery service"
  "https://aws.amazon.com/codepipeline/" "Automated build, test, and deploy processes".
Definition codeBuild := MkService "AWS CodeBuild"
  "Fully managed build service that compiles source code, runs tests, and produces ready-to-deploy software packages"
  "https://aws.amazon.com/codebuild/" "Automated build and test".
Definition cloudFormation := MkService "AWS CloudFormation"
  "Create and manage a collection of AWS resources as code"
  "https://aws.amazon.com/cloudformation/" "Infrastructure as code for AWS resources".
Definition cognito := MkService "Amazon Cognito"
  "Simple and secure user sign-up, sign-in, and access control"
  "https://aws.amazon.com/cognito/" "User authentication and authorization".
Definition iam := MkService "AWS IAM" "Securely manage access to AWS services and resources"
  "https://aws.amazon.com/iam/" "Access management for AWS resources".
Definition eventBridge := MkService "Amazon EventBridge"
  "Serverless event bus that connects application data from your own apps, SaaS, and AWS services"
  "https://aws.amazon.com/eventbridge/" "Event-driven architectures".
Definition stepFunctions := MkService "AWS Step Functions"
  "Visual workflow service to coordinate distributed applications and microservices"
  "https://aws.amazon.com/step-functions/" "Orchestrating serverless workflows".
Definition athena := MkService "Amazon Athena"
  "Interactive query service to analyze data in Amazon S3 using standard SQL"
  "https://aws.amazon.com/athena/" "Ad-hoc queries on data stored in S3".
Definition sageMaker := MkService "Amazon SageMaker"
  "Build, train, and deploy machine learning models at scale"
  "https://aws.amazon.com/sagemaker/" "Machine learning model development and deployment".
Definition cloudWatch := MkService "AWS CloudWatch"
  "Observe and monitor resources and applications on AWS and on-premises"
  "https://aws.amazon.com/cloudwatch/" "Monitoring, logging, and alerting".

(** The [options] of [recommendAwsServices]: [category] and [limit] as the
    command line gives them (strings), [None] when absent. *)
Record RecOptions := MkRecOptions {
  category : option string;
  limit : option string
}.

(** [options.category ? options.category.toLowerCase() : null]. *)
Definition categoryFilter (options : RecOptions) : option string :=
  match category options with
  | Some c => if String.eqb c "" then None else Some (toLowerCase c)
  | None => None
  end.

(** [!categoryFilter || categoryFilter === name]. *)
Definition selected (filter : option string) (name : string) : bool :=
  match filter with
  | None => true
  | Some f => String.eqb f name
  end.

Definition when (b : bool) (l : list Service) : list Service := if b then l else [].

(** The [recommendations] object after the eleven category blocks, its
    keys in the source's order. *)
Definition filled (c : Characteristics) (filter : option string) : list (string * list Service) :=
  let sel := selected filter in
  [("compute", when (sel "compute")
      (when (isServerless c) [lambda] ++ when (isContainerized c) [ecs; eks] ++
       when (isWebApp c || isBackendAPI c) [beanstalk] ++ when (isStaticSite c) [amplify]));
   ("storage", when (sel "storage")
      (when (isFileStorage c) [s3] ++ when (isMediaProcessing c) [glacier]));
   ("database", when (sel "database") (when (hasDatabase c) [rds; dynamodb]));
   ("networking", when (sel "networking") (when (isWebApp c || isBackendAPI c) [apiGateway; cloudFront]));
   ("devTools", when (sel "devtools")
      (when (hasCICD c) [codePipeline; codeBuild] ++ when (isInfraAsCode c) [cloudFormation]));
   ("security", when (sel "security") (when (isAuthentication c) [cognito] ++ [iam]));
   ("integration", when (sel "integration") (when (isServerless c) [eventBridge; stepFunctions]));
   ("analytics", when (sel "analytics") (when (isDataProcessing c) [athena]));
   ("aiml", when (sel "aiml") (when (isAI c) [sageMaker]));
   ("iot", []);
   ("management", when (sel "management") [cloudWatch])].

(** [arr.slice(0, end)]. *)
Definition slice0 {A} (end_ : Z) (l : list A) : list A :=
  let len := Z.of_nat (length l) in
  firstn (Z.to_nat (if (end_ <? 0)%Z then Z.max (len + end_) 0 else Z.min end_ len)) l.

(** [parseInt(options.limit) || 3]: [NaN] and [0] are falsy. *)
Definition effective_limit (options : RecOptions) : Z :=
  match option_map parseInt (limit options) with
  | Some (Some n) => if (n =? 0)%Z then 3%Z else n
  | _ => 3%Z
  end.

Definition recommendAwsServices (c : Characteristics) (options : RecOptions)
    : list (string * list Service) :=
  let recs := filled c (categoryFilter options) in
  let recs := filter (fun '(_, l) => negb (length l =? 0)) recs in
  let n := effective_limit options in
  map (fun '(k, l) => (k, slice0 n l)) recs.

(** The listing of [awsServicesCommand] (commands/aws-services.js): the
    categories it looks up in the recommendations object. *)
Definition shown_categories (options : RecOptions) (recs : list (string * list Service))
    : list string :=
  match category options with
  | Some c => if String.eqb c "" then map fst recs else [toLowerCase c]
  | None => map fst recs
  end.

(** [recommendations[category]]: an own property of the object. *)
Definition find_key (k : string) (recs : list (string * list Service)) : option (list Service) :=
  option_map snd (find (fun '(k', _) => String.eqb k' k) recs).

(** The categories the [forEach] prints, with their services:
    [recommendations[category] && recommendations[category].length > 0].
    A category naming a property of [Object.prototype] is outside the
    model ([None]). *)
Fixpoint listed_go (recs : list (string * list Service)) (cats : list string)
    : option (list (string * list Service)) :=
  match cats with
  | [] => Some []
  | cat :: cats' =>
      if existsb (String.eqb cat) StructureSummary.object_prototype_keys then None
      else
        match listed_go recs cats' with
        | None => None
        | Some rest =>
            match find_key cat recs with
            | Some l => if 0 <? length l then Some ((cat, l) :: rest) else Some rest
            | None => Some rest
            end
        end
  end.

Definition listed (options : RecOptions) (recs : list (string * list Service))
    : option (list (string * list Service)) :=
  listed_go recs (shown_categories options recs).

End AwsServices.

(* ================================================================= *)
(** ** [getAwsRecommendations] (services/aws-recommender.js) *)

Module AwsPipeline.
Import JsString JsExc Detectors AwsRecommender AwsServices.

(** [detectTechStack(projectPath, files)] of services/aws-recommender.js:
    [readPackageJson projectPath] is the parsed [package.json] found at
    [path.join(projectPath, 'package.json')], [None] ([packageJson = null])
    when reading or parsing it throws. *)
Definition detectTechStack_of (readPackageJson : string -> option Manifest)
    (projectPath : string) (files : list string) : Exc TechStack :=
  let packageJson := readPackageJson projectPath in
  let languages := TechDetector.detectLanguages files in
  let frameworks := Detectors.detectFrameworks files packageJson in
  let tools := Detectors.detectTools files packageJson in
  Ok (MkTechStack languages frameworks tools).

(** What [identifyProjectCharacteristics] reads of an analysis object:
    [analysis.techStack.frameworks] and [.tools] are arrays of entries. *)
Definition tech_names (ts : TechStack) : TechNames :=
  MkTechNames (Some (map e_name (frameworks ts))) (Some (map e_name (tools ts))).

Definition getAwsRecommendations (st : Stages) (host : Host) (projectPath : string)
    (options : RecOptions) : Exc (list (string * list Service)) :=
  let* analysis := AwsRecommender.analyzeProject st host (MkOptions None (Some (DepthNumber 3))) projectPath in
  let projectCharacteristics := identifyProjectCharacteristics (Some (tech_names (techStack analysis))) in
  let recommendations := recommendAwsServices projectCharacteristics options in
  Ok recommendations.

(** A manifest with Express and Mongoose. *)
Definition express_cdk_manifest : Manifest :=
  MkManifest [("express", "^4.18.2"); ("mongoose", "^7.0.0")] [].

(** Stages whose tech stack is the tech detector's, on a project holding
    [server.js] and [cdk.json]. *)
Definition detector_stages : Stages :=
  MkStages (fun url => Ok url) (fun _ _ => Ok ["server.js"; "cdk.json"]) (fun _ _ => Ok "")
    (detectTechStack_of (fun _ => Some express_cdk_manifest)) (fun _ _ _ => Ok []).

End AwsPipeline.

(* ================================================================= *)
(** ** The directory analyzer of services/aws-recommender.js *)

Module AwsAnalyzer.
Import JsString NodePath TechDetector Detectors.

(** [getLanguageNameFromExtension]: [extensionMap[extension] ||
    `Unknown (${extension})`]; the keys start with a dot, so none is
    inherited from [Object.prototype]. *)
Definition extensionMap : list (string * string) :=
  [(".js", "JavaScript"); (".jsx", "JavaScript (React)"); (".ts", "TypeScript");
   (".tsx", "TypeScript (React)"); (".html", "HTML"); (".css", "CSS");
   (".scss", "SCSS"); (".sass", "Sass"); (".less", "Less"); (".py", "Python");
   (".java", "Java"); (".rb", "Ruby"); (".php", "PHP"); (".go", "Go");
   (".rs", "Rust"); (".c", "C"); (".cpp", "C++"); (".cs", "C#");
   (".swift", "Swift"); (".kt", "Kotlin"); (".vue", "Vue"); (".json", "JSON");
   (".md", "Markdown"); (".graphql", "GraphQL"); (".yml", "YAML"); (".yaml", "YAML");
   (".toml", "TOML"); (".sql", "SQL"); (".sh", "Shell"); (".bat", "Batch");
   (".ps1", "PowerShell"); (".png", "Image (PNG)"); (".jpg", "Image (JPG)");
   (".jpeg", "Image (JPEG)"); (".gif", "Image (GIF)"); (".svg", "Image (SVG)");
   (".ico", "Image (ICO)"); (".cjs", "CommonJS")].

Definition getLanguageNameFromExtension (extension : string) : string :=
  match lookup extension extensionMap with
  | Some name => name
  | None => ("Unknown (" ++ extension ++ ")")%string
  end.

(** The [languageCounts] loop is [count_extensions]; [Object.entries]
    lists its keys (all starting with a dot) in insertion order, and the
    stable [sort((a, b) => b.count - a.count)] is [sort_by_count]. *)
Definition languages_of (files : list string) : list Language :=
  sort_by_count
    (map (fun '(extension, count) => MkLanguage (getLanguageNameFromExtension extension) count extension)
         (count_extensions files)).

Definition detectFrameworksFromFiles (files : list string) : list Entry :=
  (if existsb (fun file => endsWith file ".jsx" || endsWith file ".tsx") files
   then [MkEntry "React" (Some "detected from JSX files")] else []) ++
  (if existsb (fun file => endsWith file ".vue") files
   then [MkEntry "Vue.js" (Some "detected from Vue files")] else []) ++
  (if existsb (fun file => includes file "angular.json" || includes file "ng-app") files
   then [MkEntry "Angular" (Some "detected from configuration")] else []) ++
  (if existsb (fun file => includes file "next.config.js") files
   then [MkEntry "Next.js" (Some "detected from configuration")] else []) ++
  (if existsb (fun file => let lowerFile := toLowerCase file in
                           includes lowerFile "app.js" || includes lowerFile "server.js" ||
                           includes lowerFile "index.js") files
   then [MkEntry "Express" (Some "detected from server files")] else []).

(** [detectDatabaseTech(files, projectPath)]: [readFile file] is [fs]
    ([None] when it throws, which is skipped); the loop stops at the first
    file mentioning mongoose or mongodb. *)
Definition detectDatabaseTech (fs : CodeQuality.FileSystem) (files : list string) : list Entry :=
  let dbFiles := filter (fun file =>
                           let filename := toLowerCase (basename file) in
                           String.eqb filename "db.js" || includes filename "mongo" ||
                           includes filename "database" || includes filename "connection") files in
  if existsb (fun file => match fs file with
                          | Some content => includes content "mongoose" || includes content "mongodb"
                          | None => false
                          end) dbFiles
  then [MkEntry "MongoDB" (Some "detected from database files")] else [].

(** A plain object with string values: its own properties in creation
    order. *)
Definition Obj := list (string * string).

(** [o[k] = v]: in place for an existing property, else a new last one. *)
Fixpoint put (o : Obj) (k v : string) : Obj :=
  match o with
  | [] => [(k, v)]
  | (k', v') :: o' => if String.eqb k k' then (k', v) :: o' else (k', v') :: put o' k v
  end.

Fixpoint get (o : Obj) (k : string) : option string :=
  match o with
  | [] => None
  | (k', v) :: o' => if String.eqb k k' then Some v else get o' k
  end.

Definition is_decimal_digit (c : ascii) : bool :=
  let n := nat_of_ascii c in (48 <=? n) && (n <=? 57).

Definition index_value (k : string) : Z :=
  AwsServices.digits_value 10 (map AwsServices.digit_value (chars k)).

(** An array index: a canonical decimal numeral below [2^32 - 1]. *)
Definition is_array_index (k : string) : bool :=
  match chars k with
  | [] => false
  | c :: cs =>
      forallb is_decimal_digit (c :: cs) &&
      (negb (Ascii.eqb c "0") || match cs with [] => true | _ => false end) &&
      (index_value k <? 4294967295)%Z
  end.

Fixpoint insert_index (p : string * string) (l : Obj) : Obj :=
  match l with
  | [] => [p]
  | q :: l' => if (index_value (fst p) <=? index_value (fst q))%Z then p :: q :: l'
               else q :: insert_index p l'
  end.

(** [Object.entries(o)]: the array-index keys in ascending numeric order,
    then the other keys in creation order. *)
Definition entries (o : Obj) : Obj :=
  fold_right insert_index [] (filter (fun p => is_array_index (fst p)) o) ++
  filter (fun p => negb (is_array_index (fst p))) o.

(** [JSON.parse] of an object with string values, from its members in text
    order: a repeated key keeps its first position and its last value. *)
Definition parse_object (members : list (string * string)) : Obj :=
  fold_left (fun o '(k, v) => put o k v) members [].

(** [{...target, ...source}] read as [Object.assign] on a fresh object. *)
Definition spread (target source : Obj) : Obj :=
  fold_left (fun o '(k, v) => put o k v) (entries source) target.

(** [{...(packageJson.dependencies || {}), ...(packageJson.devDependencies || {})}],
    with the members of both objects as [package.json] writes them. *)
Definition allDependencies (m : Manifest) : Obj :=
  spread (spread [] (parse_object (dependencies m))) (parse_object (devDependencies m)).

(** [dependency === rule.pattern || dependency.includes(`/${rule.pattern}`)]. *)
Definition rule_matches (dependency : string) (rule : string * string) : bool :=
  String.eqb dependency (snd rule) || includes dependency ("/" ++ snd rule).

(** The [for ... of Object.entries(allDependencies)] loop with its inner
    [for ... of rules] and [break]. *)
Definition detect_by_rules (rules : list (string * string)) (m : Manifest) : list Entry :=
  flat_map (fun '(dependency, version) =>
              match find (rule_matches dependency) rules with
              | Some (name, _) => [MkEntry name (Some version)]
              | None => []
              end) (entries (allDependencies m)).

Definition frameworkRules : list (string * string) :=
  [("React", "react"); ("Vue.js", "vue"); ("Angular", "angular"); ("Express", "express");
   ("Next.js", "next"); ("Nuxt.js", "nuxt"); ("Gatsby", "gatsby"); ("Nest.js", "nest");
   ("Svelte", "svelte"); ("AWS CDK", "aws-cdk"); ("AWS Amplify", "aws-amplify");
   ("AWS SDK", "aws-sdk")].

Definition toolRules : list (string * string) :=
  [("Webpack", "webpack"); ("Babel", "babel"); ("ESLint", "eslint"); ("Jest", "jest");
   ("Mocha", "mocha"); ("TypeScript", "typescript"); ("Prettier", "prettier");
   ("Docker", "dockerode"); ("GraphQL", "graphql"); ("Axios", "axios");
   ("Lodash", "lodash"); ("Moment.js", "moment"); ("Commander.js", "commander");
   ("Chalk", "chalk"); ("dotenv", "dotenv"); ("Inquirer", "inquirer"); ("Yargs", "yargs")].

Definition detectFrameworks (m : Manifest) : list Entry := detect_by_rules frameworkRules m.
Definition detectTools (m : Manifest) : list Entry := detect_by_rules toolRules m.

(** [{type, message}]. *)
Record QualityInsight := MkQualityInsight { q_type : string; q_message : string }.

Definition analyzeCodeQuality (files : list string) : list QualityInsight :=
  let hasEslint := existsb (fun file => includes file ".eslintrc") files in
  let hasPrettier := existsb (fun file => includes file ".prettierrc") files in
  let hasEditorConfig := existsb (fun file => includes file ".editorconfig") files in
  let hasGitIgnore := existsb (fun file => includes file ".gitignore") files in
  let hasReadme := existsb (fun file => includes (toLowerCase file) "readme.md") files in
  let testFiles := filter (fun file => includes file "test" || includes file "spec" ||
                                       includes file "__tests__") files in
  (if hasEslint then [MkQualityInsight "positive" "Project uses ESLint for code quality enforcement"]
   else [MkQualityInsight "suggestion" "Consider adding ESLint for code quality enforcement"]) ++
  (if hasPrettier then [MkQualityInsight "positive" "Project uses Prettier for consistent code formatting"]
   else []) ++
  (if hasEditorConfig then [MkQualityInsight "positive" "Project uses EditorConfig for consistent editor settings"]
   else []) ++
  (if hasGitIgnore then [MkQualityInsight "positive" "Project has a .gitignore file for version control"]
   else []) ++
  (if hasReadme then [MkQualityInsight "positive" "Project has a README.md file for documentation"]
   else [MkQualityInsight "suggestion" "Consider adding a README.md file for project documentation"]) ++
  (if 0 <? length testFiles
   then [MkQualityInsight "positive" ("Project has " ++ CodeQuality.string_of_nat (length testFiles) ++ " test files")%string]
   else [MkQualityInsight "suggestion" "Consider adding tests to improve code reliability"]).

(** What [projectPath/package.json] gives: no file ([fs.existsSync] is
    false), a read or [JSON.parse] error, a parsed value whose
    [.dependencies] access throws ([null]), or a parsed object. *)
Inductive PackageJson :=
| PkgAbsent
| PkgThrows (message : string)
| PkgParsed (m : Manifest).

Record TechStack := MkTechStack {
  languages : list Language;
  frameworks : list Entry;
  tools : list Entry
}.

Record Analysis := MkAnalysis {
  fileCount : nat;
  directoryCount : nat;
  techStack : TechStack;
  codeQuality : list QualityInsight
}.

(** [[...acc, ...found.filter(f => !acc.some(existing => existing.name === f.name))]]. *)
Definition merge_new (acc found : list Entry) : list Entry :=
  acc ++ filter (fun f => negb (existsb (fun e => String.eqb (e_name e) (e_name f)) acc)) found.

(** [analyzeProject(projectPath)] after [countDirectories] (giving
    [directoryCount]) and [scanDirectory] (giving [files]), with [fs] the
    file reads of [detectDatabaseTech] and [packageJson] what the project's
    [package.json] gives.  The outer [try] never catches: every step below
    handles its own errors. *)
Definition analyzeProject (directoryCount : nat) (files : list string)
    (fs : CodeQuality.FileSystem) (packageJson : PackageJson) : Analysis :=
  let languages := languages_of files in
  let frameworks := merge_new [] (detectFrameworksFromFiles files) in
  let tools := merge_new [] (detectDatabaseTech fs files) in
  let '(frameworks, tools) :=
    match packageJson with
    | PkgParsed m => (detectFrameworks m, detectTools m)
    | _ => (frameworks, tools)
    end in
  MkAnalysis (length files) directoryCount (MkTechStack languages frameworks tools)
             (analyzeCodeQuality files).

End AwsAnalyzer.

(** Eleven JavaScript files of 400 lines each. *)
Definition content_400 : string :=
  String.concat (String newline "") (repeat "x" 400).

Definition eleven_js_files : list string :=
  map (fun n => ("f" ++ CodeQuality.string_of_nat n ++ ".js")%string) (seq 0 11).

(** The manifest of the spec's example: [{dependencies: {"react": "^18.0.0"}}]. *)
Definition react_manifest : Detectors.Manifest :=
  Detectors.MkManifest [("react", "^18.0.0")] [].

(** Characteristics with every flag set. *)
Definition every_characteristic : AwsServices.Characteristics :=
  AwsServices.MkCharacteristics true true true true true true true true true
                                true true true true true true true true.

(** A [package.json] repeating [react] in [dependencies] and again in
    [devDependencies]. *)
Definition with_duplicates : Detectors.Manifest :=
  Detectors.MkManifest [("react", "^17.0.0"); ("jest", "^28.0.0"); ("react", "^18.0.0")]
                       [("react", "^19.0.0"); ("@babel/core", "^7.0.0")].

(* ================================================================= *)
(** * Proofs *)

Module LanguagesProofs.
Import JsString NodePath TechDetector LanguagesSpec.

Lemma mem_In x l : mem x l = true <-> In x l.
Proof.
  unfold mem; rewrite existsb_exists; split.
  - intros [y [Hy Heq]]; apply String.eqb_eq in Heq; subst; auto.
  - intros H; exists x; split; auto; apply String.eqb_refl.
Qed.

Lemma mem_cons x y l : mem x (y :: l) = String.eqb x y || mem x l.
Proof. reflexivity. Qed.

Lemma first_occ_from_snoc seen l x :
  first_occ_from seen (l ++ [x]) =
  first_occ_from seen l ++
    (if String.eqb x "" || mem x seen || mem x (first_occ_from seen l) then [] else [x]).
Proof.
  revert seen; induction l as [|y l IH]; intros seen; simpl.
  - destruct (String.eqb x "" || mem x seen); reflexivity.
  - destruct (String.eqb y "" || mem y seen) eqn:Hy; [apply IH|].
    rewrite IH; simpl. f_equal. f_equal.
    rewrite !mem_cons.
    destruct (String.eqb x ""), (String.eqb x y), (mem x seen), (mem x (first_occ_from (y :: seen) l));
      reflexivity.
Qed.

Lemma first_occ_from_nonempty seen l x : In x (first_occ_from seen l) -> x <> "".
Proof.
  revert seen; induction l as [|y l IH]; intros seen; simpl; [tauto|].
  destruct (String.eqb y "" || mem y seen) eqn:Hy; [apply IH|].
  intros [<-|H]; [|eapply IH; eauto].
  intros ->; discriminate.
Qed.

Lemma first_occ_from_complete seen l x :
  In x l -> x <> "" -> In x seen \/ In x (first_occ_from seen l).
Proof.
  revert seen; induction l as [|y l IH]; intros seen Hin Hne; [destruct Hin|].
  simpl. destruct Hin as [->|Hin].
  - destruct (String.eqb x "") eqn:He; [apply String.eqb_eq in He; contradiction|].
    destruct (mem x seen) eqn:Hm; simpl.
    + left; apply mem_In; auto.
    + right; left; reflexivity.
  - destruct (String.eqb y "" || mem y seen); [apply IH; auto|].
    destruct (IH (y :: seen) Hin Hne) as [[<-|H]|H]; simpl; auto.
Qed.

Lemma first_occ_from_nodup seen l :
  NoDup (first_occ_from seen l) /\ forall x, In x (first_occ_from seen l) -> ~ In x seen.
Proof.
  revert seen; induction l as [|y l IH]; intros seen; simpl.
  - split; [constructor | tauto].
  - destruct (String.eqb y "" || mem y seen) eqn:Hy; [apply IH|].
    destruct (IH (y :: seen)) as [Hnd Hfresh].
    apply orb_false_iff in Hy as [_ Hm].
    split.
    + constructor; auto. intros Hin; apply (Hfresh y Hin); left; auto.
    + intros x [<-|Hin] Hs.
      * apply mem_In in Hs; congruence.
      * apply (Hfresh x Hin); right; auto.
Qed.

Lemma count_ext_snoc e P f :
  count_ext e (P ++ [f]) = count_ext e P + (if String.eqb (ext_of f) e then 1 else 0).
Proof.
  unfold count_ext; rewrite filter_app, length_app; simpl.
  destruct (String.eqb (ext_of f) e); reflexivity.
Qed.

Lemma bump_map e ks (c : string -> nat) :
  NoDup ks ->
  bump e (map (fun k => (k, c k)) ks) =
  if mem e ks then map (fun k => (k, if String.eqb k e then S (c k) else c k)) ks
  else map (fun k => (k, c k)) ks ++ [(e, 1)].
Proof.
  induction ks as [|k ks IH]; intros Hnd; [reflexivity|].
  inversion Hnd as [|? ? Hk Hnd']; subst.
  unfold mem; simpl. fold (mem e ks).
  destruct (String.eqb k e) eqn:Hke; simpl.
  - apply String.eqb_eq in Hke; subst k.
    rewrite String.eqb_refl; simpl. f_equal.
    apply map_ext_in; intros k Hin.
    destruct (String.eqb_spec k e) as [->|]; [contradiction|reflexivity].
  - rewrite String.eqb_sym, Hke, (IH Hnd'); simpl.
    destruct (mem e ks); reflexivity.
Qed.

Lemma first_occurrences_snoc P f :
  first_occurrences (P ++ [f]) =
  first_occurrences P ++
    (if String.eqb (ext_of f) "" || mem (ext_of f) (first_occurrences P) then [] else [ext_of f]).
Proof.
  unfold first_occurrences; rewrite map_app; simpl.
  rewrite first_occ_from_snoc.
  replace (mem (ext_of f) []) with false by reflexivity.
  rewrite orb_false_r. reflexivity.
Qed.

Lemma count_ext_absent e P :
  e <> "" -> ~ In e (first_occurrences P) -> count_ext e P = 0.
Proof.
  intros Hne Hnot. unfold count_ext.
  destruct (filter _ P) as [|f r] eqn:Hf; [reflexivity|exfalso].
  assert (Hin : In f (filter (fun f => String.eqb (ext_of f) e) P)) by (rewrite Hf; left; auto).
  apply filter_In in Hin as [HinP Heq]. apply String.eqb_eq in Heq.
  destruct (first_occ_from_complete [] (map ext_of P) e) as [[]|H]; auto.
  rewrite <- Heq; apply in_map; auto.
Qed.

(** The histogram after the [forEach] loop: one entry per distinct non-empty
    extension, in order of first occurrence, with its number of files. *)
Lemma count_step_invariant F P :
  fold_left count_step F (map (fun k => (k, count_ext k P)) (first_occurrences P)) =
  map (fun k => (k, count_ext k (P ++ F))) (first_occurrences (P ++ F)).
Proof.
  revert P; induction F as [|f F IH]; intros P; simpl.
  - rewrite app_nil_r; reflexivity.
  - replace (P ++ f :: F) with ((P ++ [f]) ++ F) by (rewrite <- app_assoc; reflexivity).
    rewrite <- IH. f_equal.
    unfold count_step. fold (ext_of f).
    rewrite first_occurrences_snoc.
    destruct (String.eqb (ext_of f) "") eqn:He; simpl.
    + rewrite app_nil_r. apply map_ext_in; intros k Hin.
      rewrite count_ext_snoc.
      apply String.eqb_eq in He. rewrite He.
      destruct (String.eqb_spec "" k) as [<-|]; [|rewrite Nat.add_0_r; reflexivity].
      exfalso; eapply first_occ_from_nonempty; eauto.
    + rewrite bump_map by apply (proj1 (first_occ_from_nodup [] _)).
      destruct (mem (ext_of f) (first_occurrences P)) eqn:Hm.
      * rewrite app_nil_r. apply map_ext; intros k.
        rewrite count_ext_snoc.
        case_eq (String.eqb k (ext_of f)); intros Hk.
        -- apply String.eqb_eq in Hk; rewrite Hk, String.eqb_refl; f_equal; lia.
        -- rewrite String.eqb_sym, Hk; f_equal; lia.
      * rewrite map_app; simpl. rewrite count_ext_snoc, String.eqb_refl.
        rewrite count_ext_absent.
        -- f_equal.
           ++ apply map_ext_in; intros k Hin. rewrite count_ext_snoc.
              destruct (String.eqb_spec (ext_of f) k) as [<-|];
                [apply mem_In in Hin; congruence | rewrite Nat.add_0_r; reflexivity].
        -- intros H; rewrite H in He; discriminate.
        -- intros Hin; apply mem_In in Hin; congruence.
Qed.

Lemma count_extensions_histogram F :
  count_extensions F = map (fun k => (k, count_ext k F)) (first_occurrences F).
Proof. apply (count_step_invariant F []). Qed.

Lemma first_occ_from_incl seen l x : In x (first_occ_from seen l) -> In x l.
Proof.
  revert seen; induction l as [|y l IH]; intros seen; simpl; [tauto|].
  destruct (String.eqb y "" || mem y seen); [intros H; right; eapply IH; eauto|].
  intros [->|H]; [left; auto | right; eapply IH; eauto].
Qed.

Lemma count_ext_pos e F : In e (first_occurrences F) -> 0 < count_ext e F.
Proof.
  intros H. apply first_occ_from_incl, in_map_iff in H as [f [Hf Hin]].
  unfold count_ext.
  assert (Hf' : In f (filter (fun f => String.eqb (ext_of f) e) F))
    by (apply filter_In; split; auto; apply String.eqb_eq; auto).
  destruct (filter _ F); [destruct Hf' | simpl; lia].
Qed.

(** The stable insertion sort. *)
Definition by_count_desc (a b : Language) : Prop := lang_count b <= lang_count a.

Lemma insert_by_count_perm x l : Permutation (insert_by_count x l) (x :: l).
Proof.
  induction l as [|y l IH]; simpl; [auto|].
  destruct (lang_count y <=? lang_count x); [auto|].
  rewrite IH. apply perm_swap.
Qed.

Lemma sort_by_count_perm l : Permutation (sort_by_count l) l.
Proof.
  induction l as [|x l IH]; simpl; [auto|].
  rewrite insert_by_count_perm, IH. reflexivity.
Qed.

Lemma insert_by_count_sorted x l :
  StronglySorted by_count_desc l -> StronglySorted by_count_desc (insert_by_count x l).
Proof.
  induction l as [|y l IH]; intros Hs; simpl.
  - repeat constructor.
  - inversion Hs as [|? ? Hs' Hall]; subst.
    destruct (lang_count y <=? lang_count x) eqn:Hxy.
    + apply Nat.leb_le in Hxy.
      constructor; [exact Hs|].
      constructor; [exact Hxy|].
      eapply Forall_impl; [|exact Hall]. unfold by_count_desc; intros; lia.
    + apply Nat.leb_gt in Hxy.
      constructor; [apply IH; exact Hs'|].
      apply Forall_forall; intros z Hz.
      apply (Permutation_in _ (insert_by_count_perm x l)) in Hz as [<-|Hz].
      * unfold by_count_desc; lia.
      * rewrite Forall_forall in Hall; auto.
Qed.

Lemma sort_by_count_sorted l : StronglySorted by_count_desc (sort_by_count l).
Proof.
  induction l; simpl; [constructor|]. apply insert_by_count_sorted; auto.
Qed.

Lemma insert_by_count_stable c x l :
  filter (fun e => lang_count e =? c) (insert_by_count x l) =
  if lang_count x =? c then x :: filter (fun e => lang_count e =? c) l
  else filter (fun e => lang_count e =? c) l.
Proof.
  induction l as [|y l IH]; simpl.
  - destruct (lang_count x =? c); reflexivity.
  - destruct (lang_count y <=? lang_count x) eqn:Hxy; simpl.
    + destruct (lang_count x =? c); reflexivity.
    + rewrite IH.
      apply Nat.leb_gt in Hxy.
      destruct (Nat.eqb_spec (lang_count x) c), (Nat.eqb_spec (lang_count y) c);
        try reflexivity; lia.
Qed.

Lemma sort_by_count_stable c l :
  filter (fun e => lang_count e =? c) (sort_by_count l) =
  filter (fun e => lang_count e =? c) l.
Proof.
  induction l as [|x l IH]; simpl; [reflexivity|].
  rewrite insert_by_count_stable, IH. reflexivity.
Qed.

(** [known_languages] over the histogram. *)
Section Known.
Variable F : list string.
Let hist (ks : list string) := map (fun k => (k, count_ext k F)) ks.

Lemma known_languages_In ks e :
  In e (known_languages (hist ks)) ->
  In (lang_extension e) ks /\ lookup (lang_extension e) extensionMap = Some (lang_name e) /\
  lang_count e = count_ext (lang_extension e) F.
Proof.
  intros H. unfold known_languages in H.
  apply in_flat_map in H as [[k n] [Hin He]].
  unfold hist in Hin. apply in_map_iff in Hin as [k' [Heq Hk']].
  inversion Heq; subst k' n.
  destruct (lookup k extensionMap) eqn:Hl; [|destruct He].
  destruct He as [<-|[]]; simpl; auto.
Qed.

Lemma known_languages_extensions ks :
  map lang_extension (known_languages (hist ks)) = filter known ks.
Proof.
  induction ks as [|k ks IH]; simpl; [reflexivity|].
  rewrite map_app, IH. unfold known.
  destruct (lookup k extensionMap); reflexivity.
Qed.

Lemma known_languages_ties ks c :
  map lang_extension (filter (fun e => lang_count e =? c) (known_languages (hist ks))) =
  filter (fun x => known x && (count_ext x F =? c)) ks.
Proof.
  induction ks as [|k ks IH]; simpl; [reflexivity|].
  rewrite filter_app, map_app, IH. unfold known.
  destruct (lookup k extensionMap); simpl; [|reflexivity].
  destruct (count_ext k F =? c); reflexivity.
Qed.

End Known.

Lemma nodup_filter_known F : NoDup (filter known (first_occurrences F)).
Proof. apply NoDup_filter, (proj1 (first_occ_from_nodup [] _)). Qed.

(** ** C1 (as the code does it) *)

(** C1, amended: [detectLanguages F] has one entry per distinct known
    (lower-cased) extension occurring in [F], named by the extension table and
    counting the files of [F] with that extension; it is sorted by descending
    count, and entries of equal count keep the order in which their
    extensions first occur in [F] (a stable sort by count alone, with no
    tie-break on the extension string).  For [a.js, b.js, c.css] the result
    is [JavaScript 2; CSS 1]. *)
Theorem detectLanguages_stable_count_sort F :
  let R := detectLanguages F in
  (forall e, In e R ->
     lookup (lang_extension e) extensionMap = Some (lang_name e) /\
     lang_count e = count_ext (lang_extension e) F /\ 0 < lang_count e) /\
  NoDup (map lang_extension R) /\
  Permutation (map lang_extension R) (filter known (first_occurrences F)) /\
  StronglySorted (fun a b => lang_count b <= lang_count a) R /\
  (forall c, map lang_extension (filter (fun e => lang_count e =? c) R) =
             filter (fun x => known x && (count_ext x F =? c)) (first_occurrences F)) /\
  detectLanguages ["a.js"; "b.js"; "c.css"] =
    [MkLanguage "JavaScript" 2 ".js"; MkLanguage "CSS" 1 ".css"].
Proof.
  intros R.
  assert (HR : R = sort_by_count (known_languages
                   (map (fun k => (k, count_ext k F)) (first_occurrences F))))
    by (unfold R, detectLanguages; rewrite count_extensions_histogram; reflexivity).
  assert (Hperm : Permutation (map lang_extension R) (filter known (first_occurrences F))).
  { rewrite HR, <- (known_languages_extensions F).
    apply Permutation_map, sort_by_count_perm. }
  split; [|split; [|split; [exact Hperm|split; [|split]]]].
  - intros e He. rewrite HR in He.
    apply (Permutation_in _ (sort_by_count_perm _)), known_languages_In in He
      as (Hin & Hname & Hcount).
    repeat split; auto. rewrite Hcount. apply count_ext_pos; auto.
  - eapply Permutation_NoDup; [symmetry; exact Hperm|apply nodup_filter_known].
  - rewrite HR. apply sort_by_count_sorted.
  - intros c. rewrite HR, sort_by_count_stable. apply known_languages_ties.
  - vm_compute. reflexivity.
Qed.

(** C1 as stated fails: two extensions with one file each come out in
    first-occurrence order ([.js] before [.css]), not by ascending
    extension string. *)
Lemma detectLanguages_tie_not_by_extension :
  ~ ordered_by_count_then_extension (detectLanguages ["a.js"; "b.css"]).
Proof.
  unfold ordered_by_count_then_extension; intros H.
  destruct (H 0 1 (MkLanguage "JavaScript" 1 ".js") (MkLanguage "CSS" 1 ".css"))
    as [_ Htie]; [lia | vm_compute; reflexivity | vm_compute; reflexivity |].
  specialize (Htie eq_refl). vm_compute in Htie. discriminate.
Qed.

End LanguagesProofs.

Module DetectorsProofs.
Import JsString TechDetector Detectors.

Definition has_name (name : string) (e : Entry) : bool := String.eqb (e_name e) name.

Lemma push_if_absent_nodup name acc :
  NoDup (map e_name acc) -> NoDup (map e_name (push_if_absent name acc)).
Proof.
  unfold push_if_absent. destruct (existsb _ acc) eqn:Hex; [auto|].
  intros Hnd. rewrite map_app. simpl.
  apply NoDup_app; auto; [repeat constructor; simpl; tauto|].
  intros x Hx [Hx'|[]]; subst x.
  apply in_map_iff in Hx as [e [He Hin]].
  assert (existsb (fun e => String.eqb (e_name e) name) acc = true)
    by (apply existsb_exists; exists e; split; auto; rewrite He; apply String.eqb_refl).
  congruence.
Qed.

Lemma push_if_absent_other name0 name acc :
  name <> name0 ->
  filter (has_name name0) (push_if_absent name acc) = filter (has_name name0) acc.
Proof.
  intros Hne. unfold push_if_absent. destruct (existsb _ acc); [reflexivity|].
  rewrite filter_app; simpl. unfold has_name; simpl.
  destruct (String.eqb_spec name name0); [contradiction|]. apply app_nil_r.
Qed.

(** A fold whose step keeps the names duplicate-free. *)
Lemma fold_nodup {A} (step : list Entry -> A -> list Entry) pats acc :
  (forall acc p, NoDup (map e_name acc) -> NoDup (map e_name (step acc p))) ->
  NoDup (map e_name acc) -> NoDup (map e_name (fold_left step pats acc)).
Proof.
  intros Hstep; revert acc; induction pats; simpl; auto.
Qed.

Lemma manifest_entries_nodup (f : string * list string -> list Entry) rules :
  (forall r, map e_name (f r) = [] \/ map e_name (f r) = [fst r]) ->
  NoDup (map fst rules) -> NoDup (map e_name (flat_map f rules)).
Proof.
  intros Hf. induction rules as [|r rules IH]; simpl; [constructor|].
  intros Hnd; inversion Hnd as [|? ? Hr Hnd']; subst.
  rewrite map_app.
  apply NoDup_app; auto.
  - destruct (Hf r) as [-> | ->]; repeat constructor; simpl; tauto.
  - intros x Hx Hin. destruct (Hf r) as [Hr' | Hr']; rewrite Hr' in Hx; [destruct Hx|].
    destruct Hx as [<-|[]].
    apply in_map_iff in Hin as [e [He Hin]].
    apply in_flat_map in Hin as [r' [Hr'in He']].
    apply Hr. apply in_map_iff. exists r'; split; auto.
    destruct (Hf r') as [Hf' | Hf'].
    + assert (In (e_name e) (map e_name (f r'))) by (apply in_map; auto).
      rewrite Hf' in H; destruct H.
    + assert (In (e_name e) (map e_name (f r'))) by (apply in_map; auto).
      rewrite Hf' in H; destruct H as [H|[]]; congruence.
Qed.

Lemma framework_from_manifest_names m r :
  map e_name (framework_from_manifest m r) = [] \/
  map e_name (framework_from_manifest m r) = [fst r].
Proof.
  destruct r as [name deps]; unfold framework_from_manifest.
  destruct (existsb _ deps); auto.
Qed.

Lemma tool_from_manifest_names m r :
  map e_name (tool_from_manifest m r) = [] \/
  map e_name (tool_from_manifest m r) = [fst r].
Proof.
  destruct r as [name deps]; unfold tool_from_manifest.
  destruct (find _ deps); auto.
Qed.

Lemma frameworkRules_nodup : NoDup (map fst frameworkRules).
Proof. cbn. repeat constructor; cbn; intuition discriminate. Qed.

Lemma toolRules_nodup : NoDup (map fst toolRules).
Proof. cbn. repeat constructor; cbn; intuition discriminate. Qed.

Lemma detectFrameworks_nodup files pkg : NoDup (map e_name (detectFrameworks files pkg)).
Proof.
  unfold detectFrameworks.
  assert (H1 : NoDup (map e_name (fold_left (framework_from_pattern files) frameworkFilePatterns
      (match pkg with Some m => flat_map (framework_from_manifest m) frameworkRules
                      | None => [] end)))).
  { apply fold_nodup.
    - intros acc [pattern name] Hnd; unfold framework_from_pattern.
      destruct (existsb _ files); auto using push_if_absent_nodup.
    - destruct pkg as [m|]; [|constructor].
      apply manifest_entries_nodup; auto using framework_from_manifest_names, frameworkRules_nodup. }
  destruct (existsb _ (fold_left _ _ _)) eqn:Hr; [exact H1|].
  destruct (existsb _ files); [|exact H1].
  apply (push_if_absent_nodup "React") in H1.
  unfold push_if_absent in H1. rewrite Hr in H1. exact H1.
Qed.

Lemma detectTools_nodup files pkg : NoDup (map e_name (detectTools files pkg)).
Proof.
  unfold detectTools. apply fold_nodup.
  - intros acc [pattern name] Hnd; unfold tool_from_pattern.
    destruct (existsb _ files); auto using push_if_absent_nodup.
  - destruct pkg as [m|]; [|constructor].
    apply manifest_entries_nodup; auto using tool_from_manifest_names, toolRules_nodup.
Qed.

Lemma nodup_no_versioned_duplicate (l : list Entry) n v :
  NoDup (map e_name l) -> In (MkEntry n (Some v)) l -> ~ In (MkEntry n None) l.
Proof.
  induction l as [|e l IH]; simpl; [tauto|].
  intros Hnd; inversion Hnd as [|? ? He Hnd']; subst.
  intros [->|H1] [H2|H2]; try discriminate.
  - apply He. apply (in_map e_name) in H2. exact H2.
  - subst e. apply He. apply (in_map e_name) in H1. exact H1.
  - eapply IH; eauto.
Qed.

Lemma framework_patterns_keep files name0 pats acc :
  ~ In name0 (map snd pats) ->
  filter (has_name name0) (fold_left (framework_from_pattern files) pats acc) =
  filter (has_name name0) acc.
Proof.
  revert acc; induction pats as [|[pattern name] pats IH]; intros acc Hnot; simpl; [reflexivity|].
  simpl in Hnot. rewrite IH by tauto.
  destruct (existsb _ files); [|reflexivity].
  apply push_if_absent_other; auto.
Qed.

(** C2: in the frameworks and in the tools, no display name appears twice,
    so an entry found from a file pattern (no version) is never added next to
    an entry of the same name from the manifest dependencies (with a version).
    With the manifest [{dependencies: {"react": "^18.0.0"}}], whatever the
    files, the frameworks contain exactly one React entry, the manifest's,
    with version ["^18.0.0"]. *)
Theorem pattern_entries_never_duplicate_manifest files pkg :
  (forall n v, In (MkEntry n (Some v)) (detectFrameworks files pkg) ->
               ~ In (MkEntry n None) (detectFrameworks files pkg)) /\
  (forall n v, In (MkEntry n (Some v)) (detectTools files pkg) ->
               ~ In (MkEntry n None) (detectTools files pkg)) /\
  NoDup (map e_name (detectFrameworks files pkg)) /\
  NoDup (map e_name (detectTools files pkg)) /\
  filter (fun e => String.eqb (e_name e) "React") (detectFrameworks files (Some react_manifest)) =
    [MkEntry "React" (Some "^18.0.0")].
Proof.
  split; [intros n v; apply nodup_no_versioned_duplicate, detectFrameworks_nodup|].
  split; [intros n v; apply nodup_no_versioned_duplicate, detectTools_nodup|].
  split; [apply detectFrameworks_nodup|].
  split; [apply detectTools_nodup|].
  assert (H0 : flat_map (framework_from_manifest react_manifest) frameworkRules =
               [MkEntry "React" (Some "^18.0.0")]) by (vm_compute; reflexivity).
  cbv beta iota zeta delta [detectFrameworks]. rewrite H0.
  set (fw1 := fold_left (framework_from_pattern files) frameworkFilePatterns
                [MkEntry "React" (Some "^18.0.0")]).
  assert (Hk : filter (has_name "React") fw1 = [MkEntry "React" (Some "^18.0.0")]).
  { unfold fw1. rewrite framework_patterns_keep; [reflexivity|].
    cbn. intuition discriminate. }
  assert (Hex : existsb (fun f => String.eqb (e_name f) "React") fw1 = true).
  { apply existsb_exists. exists (MkEntry "React" (Some "^18.0.0")). split; [|reflexivity].
    assert (Hin : In (MkEntry "React" (Some "^18.0.0")) (filter (has_name "React") fw1))
      by (rewrite Hk; left; reflexivity).
    apply filter_In in Hin; tauto. }
  rewrite Hex. exact Hk.
Qed.

End DetectorsProofs.

Module CodeQualityProofs.
Import JsString NodePath Detectors CodeQuality.

Definition is_medium (i : Insight) : bool := String.eqb (i_severity i) "medium".

(** What one file of the loop contributes. *)
Definition size_insights (fs : FileSystem) (file : string) : list Insight :=
  match fs file with
  | Some content =>
      if 300 <? line_count content then [large_file_insight file (line_count content)] else []
  | None => []
  end.

Lemma size_loop_spec fs todo :
  size_loop fs todo = (flat_map (size_insights fs) todo, todo).
Proof.
  induction todo as [|file rest IH]; simpl; [reflexivity|].
  rewrite IH. reflexivity.
Qed.

Lemma size_insights_medium fs l :
  filter is_medium (flat_map (size_insights fs) l) = flat_map (size_insights fs) l.
Proof.
  induction l as [|f l IH]; simpl; [reflexivity|].
  rewrite filter_app, IH. f_equal.
  unfold size_insights. destruct (fs f); [|reflexivity].
  destruct (300 <? line_count s); reflexivity.
Qed.

Lemma checkBestPractices_reads fs files tools :
  snd (checkBestPractices fs files tools) = firstn 10 (filter is_js_file files).
Proof.
  unfold checkBestPractices. rewrite size_loop_spec. reflexivity.
Qed.

Lemma checkBestPractices_medium fs files tools :
  filter is_medium (fst (checkBestPractices fs files tools)) =
  flat_map (size_insights fs) (snd (checkBestPractices fs files tools)).
Proof.
  unfold checkBestPractices. rewrite size_loop_spec. cbn [fst snd].
  rewrite !filter_app, size_insights_medium.
  match goal with
  | |- filter _ (if ?a then _ else _) ++ filter _ (if ?b then _ else _) ++ _ = _ =>
      destruct a, b; reflexivity
  end.
Qed.

Lemma nodup_app_disjoint {A} (l1 l2 : list A) x :
  NoDup (l1 ++ l2) -> In x l2 -> ~ In x l1.
Proof.
  induction l1 as [|y l1 IH]; simpl; [tauto|].
  intros Hnd Hx [<-|Hin]; inversion Hnd; subst.
  - apply H1, in_or_app; auto.
  - eapply IH; eauto.
Qed.

Lemma filter_all_true {A} (p : A -> bool) l :
  (forall x, In x l -> p x = true) -> filter p l = l.
Proof.
  induction l as [|x l IH]; intros H; simpl; [reflexivity|].
  rewrite (H x (or_introl eq_refl)), IH; auto. intros; apply H; right; auto.
Qed.

Lemma size_insights_each fs l :
  (forall f, In f l -> exists c, fs f = Some c /\ 300 < line_count c) ->
  length (flat_map (size_insights fs) l) = length l.
Proof.
  induction l as [|f l IH]; intros Hall; simpl; [reflexivity|].
  rewrite length_app, IH by (intros; apply Hall; right; auto).
  destruct (Hall f (or_introl eq_refl)) as [c [Hc Hl]].
  unfold size_insights. rewrite Hc. apply Nat.ltb_lt in Hl. rewrite Hl. reflexivity.
Qed.

(** C3: the size rule reads exactly the first 10 files whose extension is
    [.js] or [.jsx] (so at most 10), and its medium-severity insights are
    one per read file that could be read and has more than 300 lines,
    nothing for a file whose read fails; the other insights of
    [checkBestPractices] are low-severity.  For 11 distinct [.js] files of
    400 lines each, there are exactly 10 medium-severity insights and the
    11th file is never read. *)
Theorem size_rule_first_ten fs files tools :
  snd (checkBestPractices fs files tools) = firstn 10 (filter is_js_file files) /\
  length (snd (checkBestPractices fs files tools)) <= 10 /\
  filter is_medium (fst (checkBestPractices fs files tools)) =
    flat_map (size_insights fs) (snd (checkBestPractices fs files tools)) /\
  (length files = 11 -> NoDup files ->
   Forall (fun f => extname f = ".js") files ->
   (forall f, In f files -> exists c, fs f = Some c /\ line_count c = 400) ->
   length (filter is_medium (fst (checkBestPractices fs files tools))) = 10 /\
   ~ In (nth 10 files "") (snd (checkBestPractices fs files tools))).
Proof.
  rewrite checkBestPractices_medium, checkBestPractices_reads.
  split; [reflexivity|]. split; [rewrite length_firstn; lia|]. split; [reflexivity|].
  intros Hlen Hnd Hjs Hlines.
  assert (Hfilter : filter is_js_file files = files).
  { apply filter_all_true; intros f Hf. rewrite Forall_forall in Hjs.
    unfold is_js_file. rewrite (Hjs f Hf). reflexivity. }
  rewrite Hfilter.
  split.
  - rewrite size_insights_each, length_firstn, Hlen; [reflexivity|].
    intros f Hf.
    assert (Hin : In f files)
      by (rewrite <- (firstn_skipn 10 files); apply in_or_app; left; exact Hf).
    destruct (Hlines f Hin) as [c [Hc Hl]]. exists c; split; [exact Hc | lia].
  - assert (Hskip : length (skipn 10 files) = 1) by (rewrite length_skipn; lia).
    destruct (skipn 10 files) as [|x [|y rest]] eqn:Hs; simpl in Hskip; try lia.
    assert (Hnth : nth 10 files "" = x).
    { rewrite <- (firstn_skipn 10 files), app_nth2; rewrite length_firstn; [|lia].
      replace (10 - Init.Nat.min 10 (length files)) with 0 by lia.
      rewrite Hs. reflexivity. }
    rewrite Hnth.
    apply (nodup_app_disjoint (firstn 10 files) (skipn 10 files)).
    + rewrite firstn_skipn. exact Hnd.
    + rewrite Hs; left; reflexivity.
Qed.

Lemma size_rule_first_ten_witness :
  let fs := fun _ : string => Some content_400 in
  (length eleven_js_files = 11 /\ NoDup eleven_js_files /\
   Forall (fun f => extname f = ".js") eleven_js_files /\
   (forall f, In f eleven_js_files -> exists c, fs f = Some c /\ line_count c = 400)) /\
  length (filter is_medium (fst (checkBestPractices fs eleven_js_files []))) = 10 /\
  ~ In (nth 10 eleven_js_files "") (snd (checkBestPractices fs eleven_js_files [])).
Proof.
  intros fs.
  assert (Hlen : length eleven_js_files = 11) by reflexivity.
  assert (Hnd : NoDup eleven_js_files)
    by (vm_compute; repeat constructor; cbn; intuition discriminate).
  assert (Hjs : Forall (fun f => extname f = ".js") eleven_js_files).
  { apply Forall_forall; intros f Hf.
    assert (Hb : forallb (fun f => String.eqb (extname f) ".js") eleven_js_files = true)
      by (vm_compute; reflexivity).
    rewrite forallb_forall in Hb. apply String.eqb_eq, Hb, Hf. }
  assert (Hl : forall f, In f eleven_js_files -> exists c, fs f = Some c /\ line_count c = 400)
    by (intros f _; exists content_400; split; [reflexivity | vm_compute; reflexivity]).
  split; [repeat split; assumption|].
  exact (proj2 (proj2 (proj2 (size_rule_first_ten fs eleven_js_files []))) Hlen Hnd Hjs Hl).
Defined.

End CodeQualityProofs.

Module ScannerProofs.
Import JsString Scanner.

Definition not_skipped (d : string) : Prop := skipped d = false.

Lemma entries_loop_files call rel es f :
  In f (fst (entries_loop call rel es)) ->
  (exists e, In e es /\ d_isDir e = false /\ f = render rel (d_name e)) \/
  (exists e, In e es /\ d_isDir e = true /\ skipped (d_name e) = false /\
             In f (fst (call (d_name e)))).
Proof.
  induction es as [|e es IH]; simpl; [tauto|].
  destruct (entries_loop call rel es) as [rest r2]; simpl in IH.
  intros Hf.
  assert (Hf' : In f (fst (if d_isDir e then if skipped (d_name e) then ([], [])
                          else call (d_name e) else ([render rel (d_name e)], []))) \/ In f rest).
  { destruct (if d_isDir e then _ else _) as [here r1]; simpl in *.
    apply in_app_or; exact Hf. }
  clear Hf; destruct Hf' as [Hf|Hf].
  - destruct (d_isDir e) eqn:Hd; [destruct (skipped (d_name e)) eqn:Hs|].
    + destruct Hf.
    + right; exists e; auto.
    + destruct Hf as [<-|[]]. left; exists e; auto.
  - destruct (IH Hf) as [(e' & ? & ? & ?)|(e' & ? & ? & ? & ?)];
      [left | right]; exists e'; repeat split; auto.
Qed.

Lemma entries_loop_trace call rel es x :
  In x (snd (entries_loop call rel es)) ->
  exists e, In e es /\ d_isDir e = true /\ skipped (d_name e) = false /\
            In x (snd (call (d_name e))).
Proof.
  induction es as [|e es IH]; simpl; [tauto|].
  destruct (entries_loop call rel es) as [rest r2]; simpl in IH.
  intros Hx.
  assert (Hx' : In x (snd (if d_isDir e then if skipped (d_name e) then ([], [])
                          else call (d_name e) else ([render rel (d_name e)], []))) \/ In x r2).
  { destruct (if d_isDir e then _ else _) as [here r1]; simpl in *.
    apply in_app_or; exact Hx. }
  clear Hx; destruct Hx' as [Hx|Hx].
  - destruct (d_isDir e) eqn:Hd; [destruct (skipped (d_name e)) eqn:Hs|].
    + destruct Hx.
    + exists e; auto.
    + destruct Hx.
  - destruct (IH Hx) as (e' & ? & ? & ? & ?); exists e'; repeat split; auto.
Qed.

Lemma entries_loop_ext c1 c2 rel es :
  (forall n, c1 n = c2 n) -> entries_loop c1 rel es = entries_loop c2 rel es.
Proof.
  intros H; induction es as [|e es IH]; simpl; [reflexivity|].
  rewrite IH, H. reflexivity.
Qed.

Lemma entries_loop_no_calls call rel es :
  (forall n, call n = ([], [])) ->
  fst (entries_loop call rel es) =
  flat_map (fun e => if d_isDir e then [] else [render rel (d_name e)]) es.
Proof.
  intros H; induction es as [|e es IH]; simpl; [reflexivity|].
  destruct (entries_loop call rel es) as [rest r2]; simpl in *.
  rewrite <- IH.
  destruct (d_isDir e); [destruct (skipped (d_name e)); [|rewrite H]|]; reflexivity.
Qed.

Lemma scan_go_beyond fs m b cd rel : m < cd -> scan_go fs m b cd rel = ([], []).
Proof.
  intros H. destruct b; simpl; replace (m <? cd) with true by (symmetry; apply Nat.ltb_lt; lia);
  reflexivity.
Qed.

(** Every file found lies in a reachable directory whose path has no
    skipped name, at most [maxDepth - currentDepth] levels below [rel]. *)
Lemma scan_go_files fs m b cd rel f :
  reachable fs rel -> Forall not_skipped rel ->
  In f (fst (scan_go fs m b cd rel)) ->
  exists rel' name es,
    f = render rel' name /\ reachable fs rel' /\ fs rel' = Some es /\
    In (MkDirent name false) es /\ Forall not_skipped rel' /\
    cd <= m /\ length rel' <= length rel + (m - cd).
Proof.
  revert cd rel; induction b as [|b IH]; intros cd rel Hr Hs Hf; simpl in Hf.
  - destruct (m <? cd); destruct Hf.
  - destruct (m <? cd) eqn:Hm; [destruct Hf|].
    apply Nat.ltb_ge in Hm.
    destruct (fs rel) as [es|] eqn:Hfs; [|destruct Hf].
    destruct (entries_loop _ rel es) as [files reads] eqn:Hl; simpl in Hf.
    replace files with (fst (entries_loop (fun name => scan_go fs m b (S cd) (rel ++ [name])) rel es))
      in Hf by (rewrite Hl; reflexivity).
    apply entries_loop_files in Hf as [(e & He & Hd & ->)|(e & He & Hd & Hsk & Hf)].
    + exists rel, (d_name e), es. repeat split; auto; try lia.
      destruct e as [n d]; simpl in *; subst; auto.
    + assert (Hr' : reachable fs (rel ++ [d_name e])).
      { apply (reach_sub fs rel (d_name e) es); auto. destruct e as [n d]; simpl in *; subst; auto. }
      assert (Hs' : Forall not_skipped (rel ++ [d_name e]))
        by (apply Forall_app; split; auto).
      destruct (IH (S cd) _ Hr' Hs' Hf) as (rel' & name & es' & Hf' & Hr'' & Hfs' & Hin & Hs'' & Hle & Hlen).
      exists rel', name, es'. repeat split; auto; try lia.
      rewrite length_app in Hlen; simpl in Hlen; lia.
Qed.

(** Every [readdir] call is made at a depth between [currentDepth] and
    [maxDepth], on a directory that many levels below [rel]. *)
Lemma scan_go_trace fs m b cd rel r d :
  In (r, d) (snd (scan_go fs m b cd rel)) ->
  cd <= d <= m /\ length r = length rel + (d - cd).
Proof.
  revert cd rel; induction b as [|b IH]; intros cd rel Hx; simpl in Hx.
  - destruct (m <? cd); destruct Hx.
  - destruct (m <? cd) eqn:Hm; [destruct Hx|].
    apply Nat.ltb_ge in Hm.
    destruct (fs rel) as [es|]; simpl in Hx.
    + destruct (entries_loop _ rel es) as [files reads] eqn:Hl; simpl in Hx.
      destruct Hx as [Hx|Hx]; [inversion Hx; subst; split; [lia | lia]|].
      replace reads with (snd (entries_loop (fun name => scan_go fs m b (S cd) (rel ++ [name])) rel es))
        in Hx by (rewrite Hl; reflexivity).
      apply entries_loop_trace in Hx as (e & _ & _ & _ & Hx).
      destruct (IH _ _ Hx) as [Hd Hlen]. rewrite length_app in Hlen; simpl in Hlen.
      split; lia.
    + destruct Hx as [Hx|[]]; inversion Hx; subst; split; lia.
Qed.

(** The budget never cuts the recursion: past [maxDepth + 1 - currentDepth]
    it makes no difference. *)
Lemma scan_go_budget fs m b1 b2 cd rel :
  S m - cd <= b1 -> S m - cd <= b2 -> scan_go fs m b1 cd rel = scan_go fs m b2 cd rel.
Proof.
  revert b2 cd rel; induction b1 as [|b1 IH]; intros b2 cd rel H1 H2.
  - rewrite !scan_go_beyond by lia. reflexivity.
  - destruct (Nat.ltb_spec m cd) as [Hlt|Hle]; [rewrite !scan_go_beyond by lia; reflexivity|].
    destruct b2 as [|b2]; [lia|].
    simpl. replace (m <? cd) with false by (symmetry; apply Nat.ltb_ge; lia).
    destruct (fs rel) as [es|]; [|reflexivity].
    rewrite (entries_loop_ext (fun name => scan_go fs m b1 (S cd) (rel ++ [name]))
                              (fun name => scan_go fs m b2 (S cd) (rel ++ [name])));
      [reflexivity|].
    intros n. apply IH; lia.
Qed.

Lemma self_loop_count m b cd rel :
  S m - cd <= b -> length (fst (scan_go self_loop m b cd rel)) = S m - cd.
Proof.
  revert cd rel; induction b as [|b IH]; intros cd rel Hb.
  - rewrite scan_go_beyond by lia. cbn [fst length]. lia.
  - destruct (Nat.ltb_spec m cd) as [Hlt|Hle];
      [rewrite scan_go_beyond by lia; cbn [fst length]; lia|].
    cbn [scan_go]. replace (m <? cd) with false by (symmetry; apply Nat.ltb_ge; lia).
    unfold self_loop at 1. cbn [entries_loop d_isDir d_name skipped].
    destruct (scan_go self_loop m b (S cd) (rel ++ ["loop"])) as [sub r1] eqn:Hsub.
    remember (S m - cd) as k eqn:Hk.
    simpl. rewrite length_app. simpl.
    specialize (IH (S cd) (rel ++ ["loop"])).
    rewrite Hsub in IH. simpl in IH. rewrite IH; lia.
Qed.

Lemma scan_go_trace_not_skipped fs m b cd rel r d :
  Forall not_skipped rel -> In (r, d) (snd (scan_go fs m b cd rel)) ->
  Forall not_skipped r.
Proof.
  revert cd rel; induction b as [|b IH]; intros cd rel Hs Hx; simpl in Hx.
  - destruct (m <? cd); destruct Hx.
  - destruct (m <? cd) eqn:Hm; [destruct Hx|].
    destruct (fs rel) as [es|]; simpl in Hx.
    + destruct (entries_loop _ rel es) as [files reads] eqn:Hl; simpl in Hx.
      destruct Hx as [Hx|Hx]; [inversion Hx; subst; exact Hs|].
      replace reads with (snd (entries_loop (fun name => scan_go fs m b (S cd) (rel ++ [name])) rel es))
        in Hx by (rewrite Hl; reflexivity).
      apply entries_loop_trace in Hx as (e & _ & _ & Hsk & Hx).
      apply (IH _ _ (proj2 (Forall_app _ _ _) (conj Hs (Forall_cons _ Hsk (Forall_nil _)))) Hx).
    + destruct Hx as [Hx|[]]; inversion Hx; subst; exact Hs.
Qed.

(** C4. Skipped directories are pruned: every file returned by
    [scanDirectory] is a file entry of a directory reached through
    directories none of which is named [node_modules], [dist], [build] or
    [.git]; no such directory is ever read; and the scan never fails (it is
    a total function whose [readdir] errors become empty lists). *)
Theorem scan_prunes_skipped_dirs (fs : Tree) (maxDepth : nat) :
  (forall f, In f (fst (scanDirectory fs maxDepth)) ->
     exists rel name es,
       f = render rel name /\ reachable fs rel /\ fs rel = Some es /\
       In (MkDirent name false) es /\ Forall (fun d => skipped d = false) rel) /\
  (forall r d, In (r, d) (snd (scanDirectory fs maxDepth)) ->
     Forall (fun d => skipped d = false) r).
Proof.
  split.
  - intros f Hf. unfold scanDirectory in Hf.
    destruct (scan_go_files fs maxDepth (S maxDepth) 0 [] f (reach_root fs) (Forall_nil _) Hf)
      as (rel & name & es & H1 & H2 & H3 & H4 & H5 & _).
    exists rel, name, es; auto.
  - intros r d Hx. exact (scan_go_trace_not_skipped _ _ _ _ _ _ _ (Forall_nil _) Hx).
Qed.

Lemma scan_prunes_skipped_dirs_witness :
  fst (scanDirectory demo_tree 3) = ["src/b.js"; "a.js"] /\
  exists rel name es,
    "src/b.js" = render rel name /\ reachable demo_tree rel /\ demo_tree rel = Some es /\
    In (MkDirent name false) es /\ Forall (fun d => skipped d = false) rel.
Proof.
  split; [vm_compute; reflexivity|].
  apply (proj1 (scan_prunes_skipped_dirs demo_tree 3)).
  vm_compute. left; reflexivity.
Defined.

(** C5. With [maxDepth = 0] the scan returns exactly the files directly in
    the root, in [readdir] order, and nothing from any subdirectory: the
    calls on subdirectories run at depth 1 > 0 and return at once. *)
Theorem scan_depth0_root_files (fs : Tree) :
  fst (scanDirectory fs 0) =
  match fs [] with
  | Some es => flat_map (fun e => if d_isDir e then [] else [render [] (d_name e)]) es
  | None => []
  end.
Proof.
  unfold scanDirectory. cbn [scan_go Nat.ltb Nat.leb].
  destruct (fs []) as [es|]; [|reflexivity].
  destruct (entries_loop _ [] es) as [files reads] eqn:Hl. cbn [fst].
  replace files with (fst (entries_loop (fun _ => ([], [])) [] es))
    by (rewrite Hl; reflexivity).
  apply entries_loop_no_calls. reflexivity.
Qed.

(** C9. The recursion is bounded by [maxDepth] alone: a call past
    [maxDepth] returns at once; every [readdir] is made at a depth at most
    [maxDepth], on a directory exactly that many levels below the root; the
    structural budget plays no part (any budget of at least
    [maxDepth + 1] gives the same result); and no visited set is kept: on a
    directory that contains itself the scan reads it [maxDepth + 1] times
    and returns [maxDepth + 1] copies of its file. *)
Theorem scan_bounded_by_maxDepth (fs : Tree) (maxDepth : nat) :
  (forall b cd rel, maxDepth < cd -> scan_go fs maxDepth b cd rel = ([], [])) /\
  (forall r d, In (r, d) (snd (scanDirectory fs maxDepth)) -> d <= maxDepth /\ length r = d) /\
  (forall b, S maxDepth <= b -> scan_go fs maxDepth b 0 [] = scanDirectory fs maxDepth) /\
  length (fst (scanDirectory self_loop maxDepth)) = S maxDepth.
Proof.
  split; [|split; [|split]].
  - intros b cd rel H. apply scan_go_beyond; exact H.
  - intros r d Hx. destruct (scan_go_trace _ _ _ _ _ _ _ Hx) as [H1 H2].
    simpl in H2. split; lia.
  - intros b Hb. unfold scanDirectory. apply scan_go_budget; lia.
  - unfold scanDirectory. rewrite self_loop_count; lia.
Qed.

Lemma scan_bounded_by_maxDepth_witness :
  scan_go demo_tree 1 7 2 ["src"] = ([], []) /\
  scan_go demo_tree 1 9 0 [] = scanDirectory demo_tree 1.
Proof.
  destruct (scan_bounded_by_maxDepth demo_tree 1) as (H1 & _ & H3 & _).
  split; [apply H1; lia | apply H3; lia].
Defined.

End ScannerProofs.

Module ConvertPathProofs.
Import JsString AwsRecommender.

Lemma of_chars_chars s : of_chars (chars s) = s.
Proof. apply string_of_list_ascii_of_string. Qed.

Lemma includes_char s x :
  includes s (String x EmptyString) = existsb (fun c => Ascii.eqb x c) (chars s).
Proof.
  induction s as [|c r IH]; [reflexivity|].
  simpl. rewrite IH. replace (startsWith r "") with true by (destruct r; reflexivity).
  destruct (Ascii.eqb x c); reflexivity.
Qed.

Lemma replace_all_removes c d s :
  Ascii.eqb c d = false -> existsb (fun x => Ascii.eqb c x) (chars (replace_all c d s)) = false.
Proof.
  intros Hcd; induction s as [|x r IH]; [reflexivity|].
  change (Ascii.eqb c (if Ascii.eqb x c then d else x)
          || existsb (fun x => Ascii.eqb c x) (chars (replace_all c d r)) = false).
  rewrite IH, orb_false_r.
  destruct (Ascii.eqb x c) eqn:Hx; [exact Hcd|].
  rewrite Ascii.eqb_sym. exact Hx.
Qed.

Lemma letter_lower_not_backslash c :
  is_letter c = true -> Ascii.eqb backslash (lower_char c) = false.
Proof.
  revert c; intros [[] [] [] [] [] [] [] []]; vm_compute; intros H;
    first [reflexivity | discriminate H].
Qed.

Lemma lower_upper_not_slash c :
  is_lower c = true -> Ascii.eqb slash (upper_char c) = false.
Proof.
  revert c; intros [[] [] [] [] [] [] [] []]; vm_compute; intros H;
    first [reflexivity | discriminate H].
Qed.

Lemma drive_pattern_inv n :
  drive_pattern n = true ->
  exists c rest, n = String c (String ":" rest) /\ is_letter c = true.
Proof.
  destruct n as [|c [|k [|b r]]]; cbn [drive_pattern]; try discriminate.
  intros H. apply andb_true_iff in H as [H Hb]. apply andb_true_iff in H as [Hc Hk].
  apply Ascii.eqb_eq in Hk. subst k. exists c, (String b r). auto.
Qed.

Lemma mnt_pattern_inv n :
  mnt_pattern n = true ->
  exists c rest, n = ("/mnt/" ++ String c (String "/" rest))%string /\ is_lower c = true.
Proof.
  destruct n as [|a1 [|a2 [|a3 [|a4 [|a5 [|c [|a7 r]]]]]]]; cbn [mnt_pattern]; try discriminate.
  intros H. repeat (apply andb_true_iff in H as [H ?]).
  repeat match goal with
         | Hq : Ascii.eqb _ _ = true |- _ => apply Ascii.eqb_eq in Hq; subst
         end.
  exists c, r. auto.
Qed.

(** What the spec asks of the branch for a native Windows host, from the
    spec's words: [/mnt/<letter>/<path>] becomes the uppercased letter,
    [:\], and the path with every slash turned into a backslash. *)
Definition spec_windows_path (c : ascii) (rest : string) : string :=
  String (upper_char c) (String ":" (String backslash (replace_all slash backslash rest))).

(** The first character of a string, if any, is not [/]. *)
Definition head_not_slash (s : string) : Prop :=
  match s with
  | String c _ => Ascii.eqb c slash = false
  | EmptyString => True
  end.

Definition no_slash (s : string) : Prop := existsb (fun c => Ascii.eqb c slash) (chars s) = false.

Lemma split_seps_no_slash p : Forall no_slash (NodePathWin32.split_seps p).
Proof.
  induction p as [|c r IH]; cbn [NodePathWin32.split_seps].
  - repeat constructor.
  - destruct (NodePathWin32.isPathSeparator c) eqn:Hc.
    + constructor; [reflexivity | exact IH].
    + destruct (NodePathWin32.split_seps r) as [|w ws] eqn:E.
      * repeat constructor. unfold no_slash. cbn.
        unfold NodePathWin32.isPathSeparator in Hc. apply orb_false_iff in Hc as [Hc _].
        rewrite Hc. reflexivity.
      * inversion IH as [|? ? Hw Hws]; subst. constructor; [|exact Hws].
        unfold no_slash in *. cbn [chars list_ascii_of_string existsb] in *.
        unfold NodePathWin32.isPathSeparator in Hc. apply orb_false_iff in Hc as [Hc _].
        rewrite Hc. exact Hw.
Qed.

Lemma normalize_segments_no_slash a stack segs :
  Forall no_slash stack -> Forall no_slash segs ->
  Forall no_slash (NodePath.normalize_segments a stack segs).
Proof.
  revert stack. induction segs as [|seg segs IH]; intros stack Hst Hsegs; [exact Hst|].
  inversion Hsegs as [|? ? Hseg Hsegs']; subst. cbn [NodePath.normalize_segments].
  assert (Hdd : no_slash "..") by reflexivity.
  destruct (String.eqb seg "" || String.eqb seg "."); [apply IH; auto|].
  destruct (String.eqb seg "..").
  - destruct stack as [|top stack'].
    + destruct a; apply IH; auto.
    + inversion Hst; subst.
      destruct (negb (String.eqb top "..")); [apply IH; auto|].
      destruct a; apply IH; auto.
  - apply IH; auto.
Qed.

Lemma concat_head_not_slash l :
  Forall no_slash l -> head_not_slash (String.concat "\" l).
Proof.
  intros H. destruct l as [|x l]; [exact I|].
  inversion H as [|? ? Hx _]; subst.
  destruct x as [|c r].
  - destruct l; [exact I|]. reflexivity.
  - unfold no_slash in Hx. cbn [chars list_ascii_of_string existsb] in Hx.
    apply orb_false_iff in Hx as [Hc _].
    destruct l; exact Hc.
Qed.

Lemma normalizeString_head p a : head_not_slash (NodePathWin32.normalizeString p a).
Proof.
  unfold NodePathWin32.normalizeString. apply concat_head_not_slash.
  apply Forall_rev, normalize_segments_no_slash; [constructor | apply split_seps_no_slash].
Qed.

Lemma head_not_slash_app s t : s <> EmptyString -> head_not_slash s -> head_not_slash (s ++ t).
Proof. destruct s; [congruence|]. intros _ H. exact H. Qed.

(** [path.win32.normalize] never starts with [/]. *)
Lemma win32_normalize_head p : head_not_slash (NodePathWin32.normalize p).
Proof.
  unfold NodePathWin32.normalize.
  destruct (chars p) as [|c0 [|c1 cs']] eqn:Hcs.
  - reflexivity.
  - destruct (Ascii.eqb c0 slash) eqn:Hc; [reflexivity|].
    destruct p as [|x [|y r]]; try discriminate Hcs.
    cbn in Hcs. injection Hcs as <-. exact Hc.
  - assert (Hp : exists r, p = String c0 (String c1 r)).
    { destruct p as [|x [|y r]]; try discriminate Hcs. cbn in Hcs. injection Hcs as -> ->.
      exists r. reflexivity. }
    destruct Hp as [r ->].
    unfold NodePathWin32.match_root.
    destruct (NodePathWin32.isPathSeparator c0) eqn:H0.
    + destruct (NodePathWin32.isPathSeparator c1).
      * repeat match goal with
               | |- context [if ?b then _ else _] =>
                   lazymatch b with
                   | context [NodePathWin32.normalizeString] => fail
                   | context [String.eqb] => fail
                   | context [nth_error] => fail
                   | _ => destruct b
                   end
               end; try reflexivity;
        repeat match goal with
               | |- context [if ?b then _ else _] => destruct b
               end; reflexivity.
      * repeat match goal with
               | |- context [if ?b then _ else _] => destruct b
               end; reflexivity.
    + destruct (NodePathWin32.isWindowsDeviceRoot c0 && Ascii.eqb c1 ":") eqn:Hd.
      * apply andb_true_iff in Hd as [Hd _].
        assert (Hc0 : Ascii.eqb c0 slash = false).
        { unfold NodePathWin32.isPathSeparator in H0. apply orb_false_iff in H0 as [H0 _]. exact H0. }
        destruct cs' as [|c2 l]; [|destruct (NodePathWin32.isPathSeparator c2)];
          repeat match goal with
                 | |- context [if ?b then _ else _] => destruct b
                 end; exact Hc0.
      * assert (Hc0 : Ascii.eqb c0 slash = false).
        { unfold NodePathWin32.isPathSeparator in H0. apply orb_false_iff in H0 as [H0 _]. exact H0. }
        cbv zeta.
        set (len := length (c0 :: c1 :: cs')).
        destruct (0 <? len); cbn [negb andb].
        -- set (t := NodePathWin32.normalizeString _ _).
           assert (Ht : head_not_slash t) by apply normalizeString_head.
           destruct (String.eqb t "") eqn:Et; cbn [andb negb].
           ++ repeat match goal with
                     | |- context [if ?b then _ else _] => destruct b
                     end; reflexivity.
           ++ assert (Hne : t <> EmptyString) by (intros E; rewrite E in Et; discriminate).
              repeat match goal with
                     | |- context [if ?b then _ else _] => destruct b
                     end; first [exact Ht | apply head_not_slash_app; assumption].
        -- repeat match goal with
                  | |- context [if ?b then _ else _] => destruct b
                  end; reflexivity.
Qed.

Lemma mnt_pattern_head s : head_not_slash s -> mnt_pattern s = false.
Proof.
  destruct s as [|a1 [|a2 [|a3 [|a4 [|a5 [|c [|a7 r]]]]]]]; cbn [head_not_slash mnt_pattern];
    intros H; try reflexivity; unfold slash in H; rewrite H; reflexivity.
Qed.

(** C7 (code bug). On WSL (a Linux host, POSIX [path]), a normalized path
    [<letter>:\...] becomes [/mnt/<lowercased letter>/...] with its
    backslashes turned into slashes, as the spec asks.  The branch for a
    host that is not WSL does not do what the spec asks, on either host:
    on Linux, [substring(7)] drops the separator after the drive, so
    [/mnt/<a-z>/<rest>] becomes [<LETTER>:<rest>], never the spec's
    [<LETTER>:\<rest>]; on Windows, [path.win32.normalize] has already
    turned the slashes into backslashes, so [/^\/mnt\/[a-z]\//] never
    matches and every path comes back only normalized ([/mnt/c/foo] as
    [\mnt\c\foo]). *)
Theorem convertPath_mnt_branch_bug :
  (forall input c rest,
     NodePath.normalize input = String c (String ":" rest) -> is_letter c = true ->
     startsWith rest (String backslash EmptyString) = true ->
     convertPath Posix true input = ("/mnt/" ++ String (lower_char c) (replace_all backslash slash rest))%string /\
     includes (convertPath Posix true input) (String backslash EmptyString) = false) /\
  (forall input c rest,
     NodePath.normalize input = ("/mnt/" ++ String c (String "/" rest))%string -> is_lower c = true ->
     convertPath Posix false input = String (upper_char c) (String ":" (replace_all slash backslash rest)) /\
     convertPath Posix false input <> spec_windows_path c rest) /\
  (forall input, convertPath Win32 false input = NodePathWin32.normalize input) /\
  convertPath Win32 false "/mnt/c/foo" = "\mnt\c\foo".
Proof.
  split; [|split; [|split]].
  - intros input c rest Hn Hc Hr.
    destruct rest as [|b r]; [discriminate|].
    assert (Hb : b = backslash).
    { cbn [startsWith] in Hr. apply andb_true_iff in Hr as [Hr _]. apply Ascii.eqb_eq in Hr.
      congruence. }
    subst b.
    assert (Hd : drive_pattern (NodePath.normalize input) = true)
      by (rewrite Hn; cbn [drive_pattern]; rewrite Hc; reflexivity).
    assert (Hconv : convertPath Posix true input =
                    ("/mnt/" ++ String (lower_char c) (replace_all backslash slash (String backslash r)))%string).
    { unfold convertPath. cbn [path_normalize]. rewrite Hd. simpl andb. cbv zeta. rewrite Hn.
      unfold drop. cbn [chars list_ascii_of_string skipn]. change (of_chars (backslash :: list_ascii_of_string r)) with (String backslash (of_chars (chars r))).
      rewrite of_chars_chars. reflexivity. }
    split; [exact Hconv|].
    rewrite Hconv, includes_char.
    cbn [chars list_ascii_of_string String.append existsb].
    rewrite letter_lower_not_backslash by exact Hc.
    apply replace_all_removes. reflexivity.
  - intros input c rest Hn Hc.
    assert (Hconv : convertPath Posix false input =
                    String (upper_char c) (String ":" (replace_all slash backslash rest))).
    { unfold convertPath, path_normalize. rewrite Hn. cbv zeta.
      replace (false && _) with false by reflexivity.
      replace (negb false && mnt_pattern ("/mnt/" ++ String c (String "/" rest))) with true
        by (cbn; rewrite Hc; reflexivity).
      unfold drop. cbn [String.append chars list_ascii_of_string skipn]. rewrite of_chars_chars.
      reflexivity. }
    split; [exact Hconv|].
    rewrite Hconv. unfold spec_windows_path. intros H.
    injection H as H. apply (f_equal String.length) in H. cbn in H. lia.
  - intros input. unfold convertPath, path_normalize. cbv zeta.
    rewrite (mnt_pattern_head _ (win32_normalize_head input)). reflexivity.
  - vm_compute. reflexivity.
Qed.

Lemma convertPath_mnt_branch_bug_witness :
  convertPath Posix true "C:\Users\me" = "/mnt/c/Users/me" /\
  convertPath Posix false "/mnt/c/foo" = "C:foo" /\
  convertPath Posix false "/mnt/c/foo" <> spec_windows_path "c" "foo".
Proof.
  destruct convertPath_mnt_branch_bug as (H1 & H2 & _).
  split; [|apply (H2 "/mnt/c/foo" "c"%char "foo"); reflexivity].
  destruct (H1 "C:\Users\me" "C"%char "\Users\me") as [H _]; [reflexivity..|].
  rewrite H. vm_compute. reflexivity.
Defined.

End ConvertPathProofs.

Module AnalyzeProjectProofs.
Import JsExc AwsRecommender.

Lemma analyzeProject_local st host options p :
  github_given options = false ->
  analyzeProject st host options p = catch (try_body st host options p) (fun m => Ok (degraded m)).
Proof. intros H. unfold analyzeProject. rewrite H. reflexivity. Qed.

Lemma string_app_assoc (a b c : string) : ((a ++ b) ++ c = a ++ (b ++ c))%string.
Proof. induction a as [|x a IH]; simpl; [reflexivity|]. rewrite IH. reflexivity. Qed.

Lemma try_body_check st host options p m :
  checkDirectory host (convertPath (platform host) (checkIfWsl (release host)) p) = Throw m ->
  try_body st host options p = Throw m.
Proof. intros H. unfold try_body. cbv zeta. rewrite H. reflexivity. Qed.

(** C6 (amended). For a local invocation, a resolved path [p'] that does
    not exist or is not a directory does not make [analyzeProject] reject:
    it resolves to the degraded result whose error insight carries
    [p'].  A missing path adds the WSL path-format guidance on WSL and a
    generic existence/permission hint elsewhere; a non-directory gives
    [Error: Path is not a directory: p']; another [fs.stat] failure gives
    its message.  Whatever the options, [analyzeProject] rejects only when
    the GitHub clone rejects. *)
Theorem path_check_degrades (st : Stages) (host : Host) (options : Options) (p p' : string) :
  github_given options = false ->
  p' = convertPath (platform host) (checkIfWsl (release host)) p ->
  (forall m, stat host p' = StatError (Some "ENOENT") m ->
     analyzeProject st host options p =
     Ok (degraded ("Cannot access directory: " ++ p' ++ ". The directory does not exist." ++
                   (if checkIfWsl (release host) then wsl_help else generic_help)))) /\
  (stat host p' = StatNotDir ->
     analyzeProject st host options p =
     Ok (degraded ("Cannot access directory: " ++ p' ++ ". Error: Path is not a directory: " ++ p'))) /\
  (forall code m, stat host p' = StatError code m -> code <> Some "ENOENT" ->
     analyzeProject st host options p =
     Ok (degraded ("Cannot access directory: " ++ p' ++ ". Error: " ++ m))) /\
  (forall options' m, analyzeProject st host options' p = Throw m ->
     exists g, github options' = Some g /\ g <> "" /\ cloneRepository st g = Throw m).
Proof.
  intros Hg Hp. rewrite analyzeProject_local by exact Hg.
  split; [|split; [|split]].
  - intros m Hs. rewrite (try_body_check _ _ _ _ (("Cannot access directory: " ++ p' ++
      ". The directory does not exist." ++
      (if checkIfWsl (release host) then wsl_help else generic_help)))%string).
    + reflexivity.
    + rewrite <- Hp. unfold checkDirectory. rewrite Hs. unfold stat_handler.
      cbn [is_enoent String.eqb Ascii.eqb Bool.eqb]. cbv zeta. rewrite !string_app_assoc.
      reflexivity.
  - intros Hs. rewrite (try_body_check _ _ _ _ (("Cannot access directory: " ++ p' ++
      ". Error: Path is not a directory: " ++ p'))%string).
    + reflexivity.
    + rewrite <- Hp. unfold checkDirectory. rewrite Hs. reflexivity.
  - intros code m Hs Hc. rewrite (try_body_check _ _ _ _ (("Cannot access directory: " ++ p' ++
      ". Error: " ++ m))%string).
    + reflexivity.
    + rewrite <- Hp. unfold checkDirectory. rewrite Hs. unfold stat_handler.
      replace (is_enoent code) with false; [reflexivity|].
      destruct code as [c|]; [|reflexivity]. simpl. symmetry. apply String.eqb_neq.
      intros ->. apply Hc. reflexivity.
  - intros options' m. unfold analyzeProject, github_given.
    destruct (github options') as [g|]; simpl.
    + destruct (String.eqb g "") eqn:He; simpl.
      * destruct (try_body st host options' p); discriminate.
      * destruct (cloneRepository st g) as [q|e] eqn:Hcl; simpl.
        -- destruct (try_body st host options' q); discriminate.
        -- intros H. injection H as ->. exists g. repeat split; auto.
           apply String.eqb_neq. exact He.
    + destruct (try_body st host options' p); discriminate.
Qed.

Lemma path_check_degrades_witness :
  analyzeProject failing_scan_stages linux_empty_host local_options "/nope" =
  Ok (degraded ("Cannot access directory: " ++ "/nope" ++ ". The directory does not exist." ++
                (if checkIfWsl (release linux_empty_host) then wsl_help else generic_help))).
Proof.
  assert (H1 : github_given local_options = false) by reflexivity.
  assert (H2 : "/nope" = convertPath (platform linux_empty_host) (checkIfWsl (release linux_empty_host)) "/nope")
    by (vm_compute; reflexivity).
  apply (proj1 (path_check_degrades failing_scan_stages linux_empty_host local_options
                  "/nope" "/nope" H1 H2) "ENOENT: no such file or directory").
  reflexivity.
Defined.

(** Counterexample to C6 as stated: on a Linux host where the path does not
    exist, the local analysis resolves (to the degraded result) instead of
    failing. *)
Lemma missing_path_resolves :
  analyzeProject failing_scan_stages linux_empty_host local_options "/nope" =
  Ok (degraded ("Cannot access directory: /nope. The directory does not exist." ++ generic_help)).
Proof. vm_compute. reflexivity. Qed.

(** C10. A local invocation never rejects, whatever the stages do: if the
    body of the [try] throws [m] (path check or any later stage), the
    result is the degraded one, with the literal structure text, an empty
    tech stack and one high-severity error insight carrying [m]; otherwise
    it is the body's own result. *)
Theorem local_analysis_never_rejects (st : Stages) (host : Host) (options : Options) (p : string) :
  github_given options = false ->
  (forall m, analyzeProject st host options p <> Throw m) /\
  (forall m, try_body st host options p = Throw m ->
     analyzeProject st host options p =
     Ok (MkAnalysisResult "Error analyzing project structure." (MkTechStack [] [] [])
           [CodeQuality.MkInsight "error" "high" ("Error analyzing project: " ++ m)])) /\
  (forall r, try_body st host options p = Ok r -> analyzeProject st host options p = Ok r).
Proof.
  intros Hg. rewrite analyzeProject_local by exact Hg.
  split; [|split].
  - intros m. destruct (try_body st host options p); discriminate.
  - intros m H. rewrite H. reflexivity.
  - intros r H. rewrite H. reflexivity.
Qed.

Lemma local_analysis_never_rejects_witness :
  analyzeProject failing_scan_stages wsl_host local_options "C:\proj" =
  Ok (MkAnalysisResult "Error analyzing project structure." (MkTechStack [] [] [])
        [CodeQuality.MkInsight "error" "high" ("Error analyzing project: " ++ "EACCES: permission denied")]).
Proof.
  assert (H1 : github_given local_options = false) by reflexivity.
  apply (proj1 (proj2 (local_analysis_never_rejects failing_scan_stages wsl_host local_options
                         "C:\proj" H1))).
  vm_compute. reflexivity.
Defined.

End AnalyzeProjectProofs.

Module StructureSummaryProofs.
Import JsExc StructureSummary.

(** C8 (code bug). [analyzeStructure] groups files in a plain object [{}],
    so a directory named like a property of [Object.prototype] reads an
    inherited truthy value that has no [push], and the call throws instead
    of grouping the file; for other names the files are grouped and
    rendered as described. *)
Theorem analyzeStructure_prototype_dirs_throw :
  analyzeStructure ["constructor/index.js"] = Throw "directories[dir].push is not a function" /\
  Forall (fun k => analyzeStructure [(k ++ "/index.js")%string] =
                   Throw "directories[dir].push is not a function") object_prototype_keys /\
  analyzeStructure ["src/index.js"; "a.js"; "src/b.js"] =
  Ok (String.concat (String newline "")
        ["Root directory:"; "  - a.js"; ""; "src/:"; "  - b.js"; "  - index.js"; ""; ""]).
Proof.
  split; [vm_compute; reflexivity|split].
  - unfold object_prototype_keys. repeat constructor; vm_compute; reflexivity.
  - vm_compute. reflexivity.
Qed.

End StructureSummaryProofs.

Module StructureGroupingProofs.
Import JsString NodePath JsExc StructureSummary.

(** ** Grouping the files by directory *)

Lemma own_set_same d k v : own k (set d k v) = Some v.
Proof.
  induction d as [|[k' v'] d IH]; cbn.
  - rewrite String.eqb_refl. reflexivity.
  - destruct (String.eqb_spec k k') as [->|Hne]; cbn.
    + rewrite String.eqb_refl. reflexivity.
    + apply String.eqb_neq in Hne. rewrite Hne. exact IH.
Qed.

Lemma own_set_other d k k' v : k' <> k -> own k' (set d k v) = own k' d.
Proof.
  intros Hne. induction d as [|[k0 v0] d IH]; cbn.
  - apply String.eqb_neq in Hne. rewrite Hne. reflexivity.
  - destruct (String.eqb_spec k k0) as [->|Hk]; cbn.
    + apply String.eqb_neq in Hne. rewrite Hne. reflexivity.
    + rewrite IH. reflexivity.
Qed.

Lemma set_keys d k v : map fst (set d k v) =
  if existsb (String.eqb k) (map fst d) then map fst d else map fst d ++ [k].
Proof.
  induction d as [|[k0 v0] d IH]; cbn; [reflexivity|].
  destruct (String.eqb_spec k k0) as [->|]; cbn; [reflexivity|].
  rewrite IH. destruct (existsb _ _); reflexivity.
Qed.

Lemma set_nodup d k v : NoDup (map fst d) -> NoDup (map fst (set d k v)).
Proof.
  intros Hnd. rewrite set_keys. destruct (existsb (String.eqb k) (map fst d)) eqn:E; [exact Hnd|].
  apply Permutation.Permutation_NoDup with (k :: map fst d); [apply Permutation.Permutation_cons_append|].
  constructor; [|exact Hnd]. intros Hx. apply Bool.not_true_iff_false in E. apply E.
  apply existsb_exists. exists k. split; [exact Hx|apply String.eqb_refl].
Qed.

Lemma set_set d k v w : set (set d k v) k w = set d k w.
Proof.
  induction d as [|[k0 v0] d IH]; cbn.
  - rewrite String.eqb_refl. reflexivity.
  - destruct (String.eqb_spec k k0) as [->|Hne]; cbn.
    + rewrite String.eqb_refl. reflexivity.
    + apply String.eqb_neq in Hne. rewrite Hne, IH. reflexivity.
Qed.

Definition not_inherited (file : string) : Prop :=
  existsb (String.eqb (dirname file)) object_prototype_keys = false.

Lemma group_file_ok d file :
  not_inherited file ->
  group_file d file =
  Ok (set d (dirname file)
        (match own (dirname file) d with Some v => v | None => [] end ++ [basename file])).
Proof.
  unfold not_inherited, group_file, get. intros Hp.
  destruct (own (dirname file) d) as [v|] eqn:E.
  - rewrite E. reflexivity.
  - rewrite Hp, own_set_same, set_set. reflexivity.
Qed.

(** The files of [files] in directory [dir], by base name, in order. *)
Definition grouped (files : list string) (dir : string) : list string :=
  map basename (filter (fun f => String.eqb (dirname f) dir) files).

Lemma group_files_spec d0 files :
  NoDup (map fst d0) -> Forall not_inherited files ->
  exists d, group_files d0 files = Ok d /\ NoDup (map fst d) /\
    forall dir, own dir d =
      match own dir d0 with
      | Some v => Some (v ++ grouped files dir)
      | None => if existsb (String.eqb dir) (map dirname files) then Some (grouped files dir) else None
      end.
Proof.
  intros Hnd Hf. revert d0 Hnd. induction Hf as [|file files Hfile _ IH]; intros d0 Hnd.
  - exists d0. split; [reflexivity|split; [exact Hnd|]].
    intros dir. destruct (own dir d0); [rewrite app_nil_r|]; reflexivity.
  - set (D := dirname file).
    set (d1 := set d0 D (match own D d0 with Some v => v | None => [] end ++ [basename file])).
    destruct (IH d1 (set_nodup _ _ _ Hnd)) as (d & Hg & Hnd' & Hown).
    exists d. split; [|split; [exact Hnd'|]].
    + cbn [group_files]. rewrite group_file_ok by exact Hfile. exact Hg.
    + intros dir. rewrite Hown. unfold grouped. cbn [filter map existsb].
      fold D. destruct (String.eqb_spec dir D) as [->|Hne].
      * unfold d1. rewrite own_set_same, String.eqb_refl. cbn [map].
        destruct (own D d0); [rewrite <- app_assoc|]; reflexivity.
      * unfold d1. rewrite own_set_other by exact Hne.
        rewrite (proj2 (String.eqb_neq D dir)) by congruence.
        reflexivity.
Qed.

(** X1. When no file lies in a directory named like a property of
    [Object.prototype], [analyzeStructure] groups the files without
    throwing: one key per distinct [dirname], each holding the base names of
    that directory's files in input order, and the summary renders these
    groups in sorted key order. *)
Theorem analyzeStructure_groups files :
  Forall not_inherited files ->
  exists d, group_files [] files = Ok d /\ NoDup (map fst d) /\
    (forall dir, own dir d =
       if existsb (String.eqb dir) (map dirname files) then Some (grouped files dir) else None) /\
    analyzeStructure files =
    Ok (String.concat "" (map (render_group d) (sort_strings (map fst d)))).
Proof.
  intros Hf. destruct (group_files_spec [] files (NoDup_nil _) Hf) as (d & Hg & Hnd & Hown).
  exists d. split; [exact Hg|split; [exact Hnd|split]].
  - intros dir. exact (Hown dir).
  - unfold analyzeStructure. rewrite Hg. reflexivity.
Qed.

Lemma analyzeStructure_groups_witness :
  exists d, group_files [] ["src/a.js"; "b.js"; "src/c.js"] = Ok d /\
    own "src" d = Some ["a.js"; "c.js"] /\ own "." d = Some ["b.js"] /\ own "lib" d = None.
Proof.
  assert (Hf : Forall not_inherited ["src/a.js"; "b.js"; "src/c.js"])
    by (repeat constructor).
  destruct (analyzeStructure_groups _ Hf) as (d & Hg & _ & Hown & _).
  exists d. rewrite !Hown. split; [exact Hg|].
  vm_compute. split; [reflexivity|split; reflexivity].
Defined.

End StructureGroupingProofs.

Module AwsServicesProofs.
Import JsString AwsServices.

(** ** [parseInt] reads back the decimal rendering of a number *)











Lemma in_when (s : Service) b l : In s (when b l) -> b = true /\ In s l.
Proof. destruct b; simpl; tauto. Qed.

Lemma recommend_In c o k l :
  In (k, l) (recommendAwsServices c o) <->
  exists full, In (k, full) (filled c (categoryFilter o)) /\ full <> [] /\
               l = slice0 (effective_limit o) full.
Proof.
  unfold recommendAwsServices. rewrite in_map_iff. split.
  - intros [[k' full] [Heq Hin]]. injection Heq as <- <-.
    apply filter_In in Hin as [Hin Hne]. exists full. repeat split; auto.
    intros ->. discriminate.
  - intros (full & Hin & Hne & ->). exists (k, full). split; [reflexivity|].
    apply filter_In. split; auto. destruct full; [congruence|reflexivity].
Qed.

Lemma filled_keys c f : map fst (filled c f) =
  ["compute"; "storage"; "database"; "networking"; "devTools"; "security";
   "integration"; "analytics"; "aiml"; "iot"; "management"].
Proof. reflexivity. Qed.

Lemma filled_selected c f k full :
  In (k, full) (filled c (Some f)) -> full <> [] ->
  k <> "iot" /\ f = (if String.eqb k "devTools" then "devtools" else k).
Proof.
  intros Hin Hne. unfold filled in Hin.
  repeat (destruct Hin as [Hin|Hin]; [injection Hin as <- <-|]); try contradiction;
  split; try discriminate; cbn;
  revert Hne; cbn [selected];
  match goal with
  | |- context [String.eqb f ?n] =>
      destruct (String.eqb_spec f n) as [->|]; [reflexivity|cbn; congruence]
  end.
Qed.

Lemma slice0_pos {A} n (l : list A) : (0 < n)%Z -> slice0 n l = firstn (Z.to_nat n) l.
Proof.
  intros Hn. unfold slice0. rewrite (proj2 (Z.ltb_ge n 0)) by lia.
  rewrite Z2Nat.inj_min, Nat2Z.id.
  destruct (Nat.le_ge_cases (Z.to_nat n) (length l)).
  - rewrite Nat.min_l by exact H. reflexivity.
  - rewrite Nat.min_r by exact H. rewrite firstn_all, firstn_all2 by exact H. reflexivity.
Qed.

Lemma slice0_neg {A} n (l : list A) :
  (n < 0)%Z -> slice0 n l = firstn (length l - Z.to_nat (- n)) l.
Proof.
  intros Hn. unfold slice0. rewrite (proj2 (Z.ltb_lt n 0)) by exact Hn. f_equal. lia.
Qed.

Lemma slice0_incl {A} n (l : list A) x : In x (slice0 n l) -> In x l.
Proof.
  unfold slice0. intros H. rewrite <- (firstn_skipn (Z.to_nat (if (n <? 0)%Z then Z.max (Z.of_nat (length l) + n) 0
        else Z.min n (Z.of_nat (length l)))) l).
  apply in_or_app. left. exact H.
Qed.

(** X3. With a category filter [f], every category returned is the one
    asked for ([devTools] answering [devtools]), [iot] never comes back, and
    a filter naming none of the ten categories yields no recommendations. *)
Theorem recommend_category_filter c o f :
  categoryFilter o = Some f ->
  Forall (fun '(k, _) => k <> "iot" /\ f = (if String.eqb k "devTools" then "devtools" else k))
         (recommendAwsServices c o) /\
  (~ In f ["compute"; "storage"; "database"; "networking"; "devtools"; "security";
           "integration"; "analytics"; "aiml"; "management"] ->
   recommendAwsServices c o = []).
Proof.
  intros Hf.
  assert (Hall : forall k l, In (k, l) (recommendAwsServices c o) ->
                 k <> "iot" /\ f = (if String.eqb k "devTools" then "devtools" else k)).
  { intros k l H. apply recommend_In in H as (full & Hin & Hne & _).
    rewrite Hf in Hin. exact (filled_selected c f k full Hin Hne). }
  split.
  - apply Forall_forall. intros [k l] H. exact (Hall k l H).
  - intros Hnot. destruct (recommendAwsServices c o) as [|[k l] r] eqn:E; [reflexivity|].
    exfalso. destruct (Hall k l (or_introl eq_refl)) as [Hk Hfk].
    assert (Hin : In (k, l) (recommendAwsServices c o)) by (rewrite E; left; reflexivity).
    apply recommend_In in Hin as (full & Hin & _).
    assert (Hk11 : In k (map fst (filled c (categoryFilter o)))) by (apply (in_map fst) in Hin; exact Hin).
    rewrite filled_keys in Hk11. apply Hnot. subst f.
    repeat (destruct Hk11 as [<-|Hk11]; [simpl; tauto|]); contradiction.
Qed.

Lemma recommend_category_filter_witness :
  recommendAwsServices every_characteristic (MkRecOptions (Some "DevTools") None) =
    [("devTools", [codePipeline; codeBuild; cloudFormation])] /\
  recommendAwsServices every_characteristic (MkRecOptions (Some "iot") None) = [].
Proof.
  split; [vm_compute; reflexivity|].
  apply (proj2 (recommend_category_filter every_characteristic (MkRecOptions (Some "iot") None)
                  "iot" eq_refl)).
  simpl. intuition discriminate.
Defined.


(** X4. With a positive limit, every category returned is non-empty, holds
    at most [limit] services, and is the first [limit] services of its
    category. *)
Theorem recommend_limit_positive c o :
  (0 < effective_limit o)%Z ->
  Forall (fun '(k, l) =>
            l <> [] /\ length l <= Z.to_nat (effective_limit o) /\
            exists full, In (k, full) (filled c (categoryFilter o)) /\
                         l = firstn (Z.to_nat (effective_limit o)) full)
         (recommendAwsServices c o).
Proof.
  intros Hn. apply Forall_forall. intros [k l] H.
  apply recommend_In in H as (full & Hin & Hne & ->).
  rewrite slice0_pos by exact Hn.
  split; [|split].
  - destruct full as [|s full]; [congruence|].
    destruct (Z.to_nat (effective_limit o)) eqn:E; [lia|discriminate].
  - rewrite length_firstn. lia.
  - exists full. split; [exact Hin|reflexivity].
Qed.

Lemma recommend_limit_positive_witness :
  Forall (fun '(_, l) => l <> [] /\ length l <= 1)
         (recommendAwsServices every_characteristic (MkRecOptions None (Some "1"))).
Proof.
  assert (H : (0 < effective_limit (MkRecOptions None (Some "1")))%Z) by (vm_compute; reflexivity).
  eapply Forall_impl; [|exact (recommend_limit_positive every_characteristic _ H)].
  intros [k l] (Hne & Hlen & _). split; [exact Hne|exact Hlen].
Defined.


(** X5. With a negative limit [-m], [slice(0, -m)] drops the last [m]
    services of each non-empty category; the empty categories were deleted
    before the slice, so a category can still come back empty. *)
Theorem recommend_limit_negative c o :
  (effective_limit o < 0)%Z ->
  Forall (fun '(k, l) =>
            exists full, In (k, full) (filled c (categoryFilter o)) /\ full <> [] /\
                         l = firstn (length full - Z.to_nat (- effective_limit o)) full)
         (recommendAwsServices c o).
Proof.
  intros Hn. apply Forall_forall. intros [k l] H.
  apply recommend_In in H as (full & Hin & Hne & ->).
  exists full. rewrite slice0_neg by exact Hn. auto.
Qed.

Lemma recommend_limit_negative_witness :
  Forall (fun '(_, l) => exists full, full <> [] /\ l = firstn (length full - 1) full)
         (recommendAwsServices every_characteristic (MkRecOptions None (Some "-1"))) /\
  In ("management", []) (recommendAwsServices every_characteristic (MkRecOptions None (Some "-1"))).
Proof.
  assert (H : (effective_limit (MkRecOptions None (Some "-1")) < 0)%Z) by (vm_compute; reflexivity).
  split.
  - eapply Forall_impl; [|exact (recommend_limit_negative every_characteristic _ H)].
    intros [k l] (full & _ & Hne & Hl). exists full. split; [exact Hne|exact Hl].
  - vm_compute. right; right; right; right; right; right; right; right; right; left. reflexivity.
Defined.


Ltac services_in H :=
  repeat match type of H with
  | In _ (_ ++ _) => apply in_app_or in H as [H|H]
  | In _ (when _ _) => let Hb := fresh "Hb" in apply in_when in H as [Hb H]
  | In _ (_ :: _) => destruct H as [H|H]
  | In _ [] => destruct H
  end.

Lemma identify_never_data_media a :
  isDataProcessing (identifyProjectCharacteristics a) = false /\
  isMediaProcessing (identifyProjectCharacteristics a) = false.
Proof. destruct a; split; reflexivity. Qed.

(** X6. The recommendations computed from [identifyProjectCharacteristics]
    never contain an [analytics] or [iot] category, Amazon S3 Glacier or
    Amazon Athena: the characteristics behind them are always [false]. *)
Theorem recommend_never_analytics_iot a o :
  Forall (fun '(k, l) => k <> "analytics" /\ k <> "iot" /\
                         ~ In "Amazon S3 Glacier" (map s_name l) /\
                         ~ In "Amazon Athena" (map s_name l))
         (recommendAwsServices (identifyProjectCharacteristics a) o).
Proof.
  destruct (identify_never_data_media a) as [HD HM].
  generalize dependent (identifyProjectCharacteristics a). intros c HD HM.
  apply Forall_forall. intros [k l] H.
  apply recommend_In in H as (full & Hin & Hne & ->).
  assert (Hnames : forall s, In s full -> s_name s <> "Amazon S3 Glacier" /\ s_name s <> "Amazon Athena").
  { intros s Hs. unfold filled in Hin.
    repeat (destruct Hin as [Hin|Hin]; [injection Hin as <- <-|]); try contradiction;
    services_in Hs; subst; try congruence; split; discriminate. }
  assert (Hk : k <> "analytics" /\ k <> "iot").
  { unfold filled in Hin.
    repeat (destruct Hin as [Hin|Hin]; [injection Hin as <- <-|]); try contradiction;
    try (split; discriminate).
    all: exfalso; apply Hne; rewrite HD; destruct (selected _ _); reflexivity. }
  destruct Hk as [Hk1 Hk2]. repeat split; auto;
    intros Hn; apply in_map_iff in Hn as (s & Hs & Hsl); apply slice0_incl in Hsl;
    apply Hnames in Hsl; tauto.
Qed.

(** X7. When no framework or tool name is known (or no analysis at all),
    without a category filter and with a positive limit, the
    recommendations are exactly AWS IAM under [security] and AWS CloudWatch
    under [management]. *)
Theorem recommend_no_tech_detected a o :
  match a with
  | Some t => (frameworkNames t = None \/ frameworkNames t = Some []) /\
              (toolNames t = None \/ toolNames t = Some [])
  | None => True
  end ->
  categoryFilter o = None -> (0 < effective_limit o)%Z ->
  recommendAwsServices (identifyProjectCharacteristics a) o =
  [("security", [iam]); ("management", [cloudWatch])].
Proof.
  intros Ha Hf Hn.
  assert (Hid : identifyProjectCharacteristics a =
                MkCharacteristics false false false false false false false false false
                                  false false false false false false false false).
  { destruct a as [[fw tl]|]; [|reflexivity].
    destruct Ha as [[Hfw|Hfw] [Htl|Htl]]; cbn in Hfw, Htl; subst; reflexivity. }
  rewrite Hid. unfold recommendAwsServices. rewrite Hf. cbn.
  rewrite !slice0_pos by exact Hn.
  destruct (Z.to_nat (effective_limit o)) eqn:E; [lia|]. destruct n; reflexivity.
Qed.

Lemma recommend_no_tech_detected_witness :
  recommendAwsServices (identifyProjectCharacteristics (Some (MkTechNames (Some []) None)))
                       (MkRecOptions None (Some "5")) =
  [("security", [iam]); ("management", [cloudWatch])].
Proof.
  apply recommend_no_tech_detected.
  - split; [right; reflexivity|left; reflexivity].
  - reflexivity.
  - vm_compute. reflexivity.
Defined.


Lemma find_key_none k (recs : list (string * list Service)) :
  (forall k' l, In (k', l) recs -> k' <> k) -> find_key k recs = None.
Proof.
  unfold find_key. induction recs as [|[k' l] recs IH]; intros H; [reflexivity|].
  cbn [find]. destruct (String.eqb_spec k' k) as [->|Hne].
  - exfalso. exact (H k l (or_introl eq_refl) eq_refl).
  - apply IH. intros k0 l0 Hin. exact (H k0 l0 (or_intror Hin)).
Qed.

Lemma find_key_nodup k l (recs : list (string * list Service)) :
  NoDup (map fst recs) -> In (k, l) recs -> find_key k recs = Some l.
Proof.
  unfold find_key. induction recs as [|[k' l'] recs IH]; intros Hnd Hin; [destruct Hin|].
  inversion Hnd as [|? ? Hk Hnd']; subst. cbn [find].
  destruct Hin as [Heq|Hin].
  - injection Heq as -> ->. rewrite String.eqb_refl. reflexivity.
  - destruct (String.eqb_spec k' k) as [->|]; [|exact (IH Hnd' Hin)].
    exfalso. apply Hk. apply (in_map fst) in Hin. exact Hin.
Qed.

Definition not_proto (k : string) : Prop :=
  existsb (String.eqb k) StructureSummary.object_prototype_keys = false.

Lemma listed_go_keys recs ks :
  Forall not_proto ks ->
  listed_go recs ks =
  Some (flat_map (fun k => match find_key k recs with
                           | Some l => if 0 <? length l then [(k, l)] else []
                           | None => []
                           end) ks).
Proof.
  induction 1 as [|k ks Hk _ IH]; [reflexivity|].
  cbn [listed_go flat_map]. unfold not_proto in Hk. rewrite Hk, IH.
  destruct (find_key k recs) as [l|]; [destruct (0 <? length l)|]; reflexivity.
Qed.

Lemma flat_map_find_keys R rs :
  (forall k l, In (k, l) rs -> find_key k R = Some l) ->
  flat_map (fun k => match find_key k R with
                     | Some l => if 0 <? length l then [(k, l)] else []
                     | None => []
                     end) (map fst rs) =
  filter (fun '(_, l) => 0 <? length l) rs.
Proof.
  induction rs as [|[k l] rs IH]; intros H; [reflexivity|].
  cbn [map fst flat_map filter]. rewrite (H k l (or_introl eq_refl)).
  rewrite IH by (intros k0 l0 Hin; exact (H k0 l0 (or_intror Hin))).
  destruct (0 <? length l); reflexivity.
Qed.

Lemma NoDup_map_fst_filter {B} (p : string * B -> bool) l :
  NoDup (map fst l) -> NoDup (map fst (filter p l)).
Proof.
  induction l as [|[k v] l IH]; intros Hnd; [constructor|].
  inversion Hnd as [|? ? Hk Hnd']; subst. cbn [filter].
  destruct (p (k, v)); [|auto]. cbn [map fst]. constructor; auto.
  intros Hin. apply Hk. apply in_map_iff in Hin as ([k' v'] & <- & Hin).
  apply filter_In in Hin as [Hin _]. apply (in_map fst) in Hin. exact Hin.
Qed.

Lemma recommend_keys c o :
  map fst (recommendAwsServices c o) =
  map fst (filter (fun '(_, l) => negb (length l =? 0)) (filled c (categoryFilter o))).
Proof.
  unfold recommendAwsServices. rewrite map_map.
  apply map_ext. intros [k l]. reflexivity.
Qed.

Lemma recommend_nodup c o : NoDup (map fst (recommendAwsServices c o)).
Proof.
  rewrite recommend_keys. apply NoDup_map_fst_filter. rewrite filled_keys.
  repeat constructor; simpl; intuition discriminate.
Qed.

Lemma recommend_not_proto c o : Forall not_proto (map fst (recommendAwsServices c o)).
Proof.
  apply Forall_forall. intros k Hk. rewrite recommend_keys in Hk.
  apply in_map_iff in Hk as ([k' l] & <- & Hin). apply filter_In in Hin as [Hin _].
  apply (in_map fst) in Hin. rewrite filled_keys in Hin.
  repeat (destruct Hin as [<-|Hin]; [reflexivity|]). destruct Hin.
Qed.

Lemma categoryFilter_shown o recs :
  (categoryFilter o = None /\ shown_categories o recs = map fst recs) \/
  (exists f, categoryFilter o = Some f /\ shown_categories o recs = [f]).
Proof.
  unfold categoryFilter, shown_categories.
  destruct (category o) as [cat|]; [|left; auto].
  destruct (String.eqb cat ""); [left; auto|right; eauto].
Qed.

(** X8. The [aws] command with [--category devtools] lists nothing: it looks
    up the key [devtools], while the recommendations use [devTools]. *)
Theorem aws_command_devtools_lists_nothing c o :
  categoryFilter o = Some "devtools" ->
  listed o (recommendAwsServices c o) = Some [].
Proof.
  intros Hf. unfold listed.
  destruct (categoryFilter_shown o (recommendAwsServices c o)) as [[Hn _]|(f & Hf' & ->)];
    [congruence|].
  rewrite Hf in Hf'. injection Hf' as <-.
  rewrite listed_go_keys by (constructor; [reflexivity|constructor]).
  cbn [flat_map]. rewrite find_key_none; [reflexivity|].
  intros k l Hin. apply (in_map fst) in Hin. cbn [fst] in Hin.
  rewrite recommend_keys in Hin. apply in_map_iff in Hin as ([k' l'] & <- & Hin).
  apply filter_In in Hin as [Hin _]. apply (in_map fst) in Hin. rewrite filled_keys in Hin.
  repeat (destruct Hin as [<-|Hin]; [discriminate|]). destruct Hin.
Qed.

Lemma aws_command_devtools_lists_nothing_witness :
  listed (MkRecOptions (Some "devtools") None)
         (recommendAwsServices every_characteristic (MkRecOptions (Some "devtools") None)) = Some [] /\
  recommendAwsServices every_characteristic (MkRecOptions (Some "devtools") None) <> [].
Proof.
  split; [apply aws_command_devtools_lists_nothing; reflexivity|].
  vm_compute. discriminate.
Defined.


(** X9. For any other category filter that is not a property of
    [Object.prototype], and without a filter, the [aws] command lists
    exactly the non-empty categories of the recommendations, in order. *)
Theorem aws_command_lists_recommendations c o :
  (forall f, categoryFilter o = Some f ->
             f <> "devtools" /\ ~ In f StructureSummary.object_prototype_keys) ->
  listed o (recommendAwsServices c o) =
  Some (filter (fun '(_, l) => 0 <? length l) (recommendAwsServices c o)).
Proof.
  intros Hf. unfold listed.
  pose proof (recommend_nodup c o) as Hnd.
  destruct (categoryFilter_shown o (recommendAwsServices c o)) as [[_ ->]|(f & Hf' & ->)].
  - rewrite listed_go_keys by apply recommend_not_proto.
    rewrite flat_map_find_keys; [reflexivity|].
    intros k l Hin. exact (find_key_nodup k l _ Hnd Hin).
  - destruct (Hf f Hf') as [Hdev Hproto].
    assert (Hnp : not_proto f).
    { unfold not_proto. apply not_true_iff_false. intros H.
      apply existsb_exists in H as (x & Hx & Heq). apply String.eqb_eq in Heq. subst. auto. }
    rewrite listed_go_keys by (constructor; [exact Hnp|constructor]).
    destruct (recommend_category_filter c o f Hf') as [Hall _].
    assert (Hkeys : forall k l, In (k, l) (recommendAwsServices c o) -> k = f).
    { intros k l Hin. rewrite Forall_forall in Hall. specialize (Hall (k, l) Hin).
      cbn in Hall. destruct Hall as [_ Hk].
      destruct (String.eqb_spec k "devTools"); congruence. }
    destruct (recommendAwsServices c o) as [|[k l] [|[k' l'] r]] eqn:E.
    + reflexivity.
    + rewrite (Hkeys k l (or_introl eq_refl)) in *. cbn.
      unfold find_key. cbn [find option_map]. rewrite String.eqb_refl. cbn.
      destruct (length l); reflexivity.
    + exfalso. rewrite (Hkeys k l (or_introl eq_refl)), (Hkeys k' l' (or_intror (or_introl eq_refl))) in Hnd.
      inversion Hnd as [|? ? Hk _]. apply Hk. left. reflexivity.
Qed.

Lemma aws_command_lists_recommendations_witness :
  listed (MkRecOptions (Some "Compute") None)
         (recommendAwsServices every_characteristic (MkRecOptions (Some "Compute") None)) =
  Some [("compute", [lambda; ecs; eks])].
Proof.
  rewrite aws_command_lists_recommendations.
  - vm_compute. reflexivity.
  - intros f Hf. vm_compute in Hf. injection Hf as <-.
    split; [discriminate|simpl; intuition discriminate].
Defined.


End AwsServicesProofs.

Module AwsPipelineProofs.
Import JsString JsExc Detectors AwsRecommender AwsServices AwsPipeline.

Definition framework_names : list string :=
  ["React"; "Angular"; "Vue.js"; "Express"; "Next.js"; "Gatsby"; "NestJS"; "Svelte";
   "Electron"; "AWS CDK"].

Definition tool_names : list string :=
  ["Webpack"; "Babel"; "ESLint"; "Jest"; "Mocha"; "Chai"; "TypeScript"; "Prettier";
   "Sass"; "Lodash"; "Axios"; "Redux"; "GraphQL"; "Sequelize"; "Mongoose";
   "Commander.js"; "dotenv"].

Lemma push_if_absent_names (P : string -> Prop) name acc :
  Forall P (map e_name acc) -> P name -> Forall P (map e_name (push_if_absent name acc)).
Proof.
  intros Hacc Hn. unfold push_if_absent. destruct (existsb _ acc); [exact Hacc|].
  rewrite map_app. apply Forall_app. split; [exact Hacc|constructor; [exact Hn|constructor]].
Qed.

Lemma fold_pattern_names (P : string -> Prop) (step : list Entry -> string * string -> list Entry)
    pats acc :
  (forall acc p, In p pats -> Forall P (map e_name acc) -> Forall P (map e_name (step acc p))) ->
  Forall P (map e_name acc) -> Forall P (map e_name (fold_left step pats acc)).
Proof.
  revert acc. induction pats as [|p pats IH]; intros acc Hstep Hacc; [exact Hacc|].
  cbn [fold_left]. apply IH.
  - intros acc' p' Hp'. apply Hstep. right. exact Hp'.
  - apply Hstep; [left; reflexivity|exact Hacc].
Qed.

Lemma detectTools_names files pj :
  Forall (fun n => In n tool_names) (map e_name (detectTools files pj)).
Proof.
  unfold detectTools. apply fold_pattern_names.
  - intros acc [pat name] Hp Hacc. unfold tool_from_pattern.
    destruct (existsb _ files); [|exact Hacc].
    apply push_if_absent_names; [exact Hacc|].
    unfold toolFilePatterns in Hp.
    repeat (destruct Hp as [Hp|Hp]; [injection Hp as <- <-; simpl; tauto|]). destruct Hp.
  - destruct pj as [m|]; [|constructor].
    apply Forall_forall. intros n Hn. apply in_map_iff in Hn as (e & <- & He).
    apply in_flat_map in He as ([name deps] & Hr & He).
    unfold tool_from_manifest in He. destruct (find _ deps); [|destruct He].
    destruct He as [<-|[]]. cbn [e_name].
    unfold toolRules in Hr.
    repeat (destruct Hr as [Hr|Hr]; [injection Hr as <- <-; simpl; tauto|]). destruct Hr.
Qed.

Lemma detectFrameworks_names files pj :
  Forall (fun n => In n framework_names) (map e_name (detectFrameworks files pj)).
Proof.
  unfold detectFrameworks.
  assert (H1 : Forall (fun n => In n framework_names)
                 (map e_name (fold_left (framework_from_pattern files) frameworkFilePatterns
                   (match pj with Some m => flat_map (framework_from_manifest m) frameworkRules
                                | None => [] end)))).
  { apply fold_pattern_names.
    - intros acc [pat name] Hp Hacc. unfold framework_from_pattern.
      destruct (existsb _ files); [|exact Hacc].
      apply push_if_absent_names; [exact Hacc|].
      unfold frameworkFilePatterns in Hp.
      repeat (destruct Hp as [Hp|Hp]; [injection Hp as <- <-; simpl; tauto|]). destruct Hp.
    - destruct pj as [m|]; [|constructor].
      apply Forall_forall. intros n Hn. apply in_map_iff in Hn as (e & <- & He).
      apply in_flat_map in He as ([name deps] & Hr & He).
      unfold framework_from_manifest in He. destruct (existsb _ deps); [|destruct He].
      destruct He as [<-|[]]. cbn [e_name].
      unfold frameworkRules in Hr.
      repeat (destruct Hr as [Hr|Hr]; [injection Hr as <- <-; simpl; tauto|]). destruct Hr. }
  destruct (existsb _ _); [exact H1|].
  destruct (existsb _ files); [|exact H1].
  rewrite map_app. apply Forall_app. split; [exact H1|constructor; [simpl; tauto|constructor]].
Qed.

Lemma existsb_lower_false (q : string -> bool) U names :
  Forall (fun n => In n U) names ->
  forallb (fun u => negb (q (toLowerCase u))) U = true ->
  existsb q (map toLowerCase names) = false.
Proof.
  intros Hn HU. apply not_true_iff_false. intros H.
  apply existsb_exists in H as (x & Hx & Hq).
  apply in_map_iff in Hx as (n & <- & Hin).
  rewrite Forall_forall in Hn. specialize (Hn n Hin).
  rewrite forallb_forall in HU. specialize (HU n Hn). rewrite Hq in HU. discriminate.
Qed.

(** The characteristics the tech detector can never produce. *)
Lemma identify_detected fw tl :
  Forall (fun n => In n framework_names) fw -> Forall (fun n => In n tool_names) tl ->
  let c := identifyProjectCharacteristics (Some (MkTechNames (Some fw) (Some tl))) in
  isServerless c = false /\ isContainerized c = false /\ hasCICD c = false /\
  isDataProcessing c = false /\ isAI c = false /\ isAuthentication c = false /\
  isFileStorage c = false /\ isMediaProcessing c = false.
Proof.
  intros Hfw Htl. cbn [identifyProjectCharacteristics isServerless isContainerized hasCICD
    isDataProcessing isAI isAuthentication isFileStorage isMediaProcessing frameworkNames toolNames].
  unfold check, some_in.
  repeat split; try reflexivity; apply (existsb_lower_false _ tool_names); auto; vm_compute; reflexivity.
Qed.


Lemma analyzeProject_techStack st host p a :
  AwsRecommender.analyzeProject st host (MkOptions None (Some (DepthNumber 3))) p = Ok a ->
  techStack a = MkTechStack [] [] [] \/
  exists p' files, AwsRecommender.detectTechStack st p' files = Ok (techStack a).
Proof.
  unfold AwsRecommender.analyzeProject. cbn [github_given github bind].
  destruct (try_body st host (MkOptions None (Some (DepthNumber 3))) p) as [a'|e] eqn:E; cbn [catch].
  - intros H. injection H as ->. right. unfold try_body in E.
    destruct (checkDirectory _ _); [|discriminate]. cbn [bind] in E.
    destruct (AwsRecommender.scanDirectory _ _ _) as [files|]; [|discriminate]. cbn [bind] in E.
    destruct (AwsRecommender.analyzeStructure _ _ _); [|discriminate]. cbn [bind] in E.
    destruct (AwsRecommender.detectTechStack _ _ _) as [ts|] eqn:Ets; [|discriminate]. cbn [bind] in E.
    destruct (AwsRecommender.analyzeCodeQuality _ _ _ _); [|discriminate]. cbn [bind] in E.
    injection E as <-. cbn [techStack]. eauto.
  - intros H. injection H as <-. left. reflexivity.
Qed.

Definition detector_services : list Service :=
  [beanstalk; amplify; rds; dynamodb; apiGateway; cloudFront; cloudFormation; iam; cloudWatch].

Definition detector_categories : list string :=
  ["compute"; "database"; "networking"; "devTools"; "security"; "management"].

Lemma recommend_bounded c o :
  isServerless c = false -> isContainerized c = false -> hasCICD c = false ->
  isDataProcessing c = false -> isAI c = false -> isAuthentication c = false ->
  isFileStorage c = false -> isMediaProcessing c = false ->
  Forall (fun '(k, l) => In k detector_categories /\ Forall (fun s => In s detector_services) l)
         (recommendAwsServices c o).
Proof.
  intros H1 H2 H3 H4 H5 H6 H7 H8. apply Forall_forall. intros [k l] H.
  apply AwsServicesProofs.recommend_In in H as (full & Hin & Hne & ->). split.
  - unfold filled in Hin.
    repeat (destruct Hin as [Hin|Hin]; [injection Hin as <- <-|]); try contradiction;
      try (unfold detector_categories; simpl; tauto);
      exfalso; apply Hne; rewrite ?H1, ?H4, ?H5, ?H7, ?H8; destruct (selected _ _); reflexivity.
  - apply Forall_forall. intros s Hs. apply AwsServicesProofs.slice0_incl in Hs.
    unfold filled in Hin.
    repeat (destruct Hin as [Hin|Hin]; [injection Hin as <- <-|]); try contradiction;
    AwsServicesProofs.services_in Hs; subst; try congruence; unfold detector_services; simpl; tauto.
Qed.

(** X10. [getAwsRecommendations] on an analysis whose tech stack comes from
    the tech detector ([detectFrameworks], [detectTools]) never recommends a
    service outside Elastic Beanstalk, Amplify Hosting, RDS, DynamoDB, API
    Gateway, CloudFront, CloudFormation, IAM and CloudWatch, nor a category
    outside compute, database, networking, devTools, security and
    management: no detected framework or tool name makes a project
    serverless, containerised, CI/CD, AI, authentication or file-storage. *)
Theorem getAwsRecommendations_detector_bound st readPackageJson host projectPath o R :
  AwsRecommender.detectTechStack st = detectTechStack_of readPackageJson ->
  getAwsRecommendations st host projectPath o = Ok R ->
  Forall (fun '(k, l) => In k detector_categories /\ Forall (fun s => In s detector_services) l) R.
Proof.
  intros Hst H. unfold getAwsRecommendations in H.
  destruct (AwsRecommender.analyzeProject _ _ _ _) as [a|] eqn:Ea; [|discriminate].
  cbn [bind] in H. injection H as <-.
  assert (Hn : Forall (fun n => In n framework_names) (map e_name (frameworks (techStack a))) /\
               Forall (fun n => In n tool_names) (map e_name (tools (techStack a)))).
  { destruct (analyzeProject_techStack _ _ _ _ Ea) as [->|(p' & files & Ed)].
    - split; constructor.
    - rewrite Hst in Ed. unfold detectTechStack_of in Ed. injection Ed as <-.
      split; [apply detectFrameworks_names|apply detectTools_names]. }
  destruct Hn as [Hfw Htl].
  destruct (identify_detected _ _ Hfw Htl) as (H1 & H2 & H3 & H4 & H5 & H6 & H7 & H8).
  apply recommend_bounded; assumption.
Qed.

Lemma getAwsRecommendations_detector_bound_witness :
  getAwsRecommendations detector_stages wsl_host "/proj" (MkRecOptions None None) =
    Ok [("compute", [beanstalk]); ("database", [rds; dynamodb]);
        ("networking", [apiGateway; cloudFront]); ("devTools", [cloudFormation]);
        ("security", [iam]); ("management", [cloudWatch])] /\
  Forall (fun '(k, l) => In k detector_categories /\ Forall (fun s => In s detector_services) l)
    [("compute", [beanstalk]); ("database", [rds; dynamodb]);
     ("networking", [apiGateway; cloudFront]); ("devTools", [cloudFormation]);
     ("security", [iam]); ("management", [cloudWatch])].
Proof.
  assert (H : getAwsRecommendations detector_stages wsl_host "/proj" (MkRecOptions None None) =
    Ok [("compute", [beanstalk]); ("database", [rds; dynamodb]);
        ("networking", [apiGateway; cloudFront]); ("devTools", [cloudFormation]);
        ("security", [iam]); ("management", [cloudWatch])]) by (vm_compute; reflexivity).
  split; [exact H|].
  exact (getAwsRecommendations_detector_bound detector_stages _ wsl_host "/proj" _ _ eq_refl H).
Defined.

End AwsPipelineProofs.

Module CodeQualityExtraProofs.
Import JsString NodePath Detectors CodeQuality.

Lemma size_insights_shape fs l :
  length (flat_map (CodeQualityProofs.size_insights fs) l) <= length l /\
  Forall (fun i => exists file n, i = large_file_insight file n) (flat_map (CodeQualityProofs.size_insights fs) l).
Proof.
  induction l as [|f l [IHl IHf]]; cbn [flat_map]; [split; [simpl; lia|constructor]|].
  rewrite length_app. cbn [length].
  assert (Hf : length (CodeQualityProofs.size_insights fs f) <= 1 /\
               Forall (fun i => exists file n, i = large_file_insight file n) (CodeQualityProofs.size_insights fs f)).
  { unfold CodeQualityProofs.size_insights. destruct (fs f) as [content|]; [|split; [simpl; lia|constructor]].
    destruct (300 <? line_count content); [|split; [simpl; lia|constructor]].
    split; [simpl; lia|]. constructor; [eauto|constructor]. }
  destruct Hf as [Hf1 Hf2]. split; [lia|]. apply Forall_app. split; assumption.
Qed.

Lemma analyzeCodeQuality_parts fs files tools :
  analyzeCodeQuality fs files tools =
  checkProjectStructure files ++ checkCodeIssues files tools ++
  (if negb (existsb (fun f => String.eqb (basename f) "package-lock.json" ||
                              String.eqb (basename f) "yarn.lock") files) &&
      existsb (fun f => String.eqb (basename f) "package.json") files
   then [MkInsight "best-practice" "low" "No lock file (package-lock.json or yarn.lock) found. Lock files help ensure consistent installations."]
   else []) ++
  (if has_tool tools ["dotenv"] &&
      negb (existsb (fun f => String.eqb (basename f) ".env" ||
                              String.eqb (basename f) ".env.example") files)
   then [MkInsight "best-practice" "low" "You're using dotenv but no .env or .env.example file was found. Consider adding an example file for documentation."]
   else []) ++
  flat_map (CodeQualityProofs.size_insights fs) (firstn 10 (filter is_js_file files)).
Proof.
  unfold analyzeCodeQuality, checkBestPractices. rewrite CodeQualityProofs.size_loop_spec.
  cbn [fst]. rewrite !app_assoc. reflexivity.
Qed.

(** X11. [analyzeCodeQuality] (utils/code-quality.js) never reports a
    [high] severity: every insight is [medium] or [low], of type
    [structure], [quality] or [best-practice], and there are at most 18 of
    them (3 structure, 3 quality, 2 best-practice and at most one per file of
    the first ten script files). *)
Theorem analyzeCodeQuality_bounds fs files tools :
  Forall (fun i => (i_severity i = "medium" \/ i_severity i = "low") /\
                   In (i_type i) ["structure"; "quality"; "best-practice"])
         (analyzeCodeQuality fs files tools) /\
  length (analyzeCodeQuality fs files tools) <= 18.
Proof.
  rewrite analyzeCodeQuality_parts.
  destruct (size_insights_shape fs (firstn 10 (filter is_js_file files))) as [Hlen Hshape].
  assert (H10 : length (firstn 10 (filter is_js_file files)) <= 10)
    by (rewrite length_firstn; lia).
  unfold checkProjectStructure, checkCodeIssues.
  split.
  - repeat rewrite Forall_app.
    repeat split;
      try (match goal with |- Forall _ (if ?b then _ else _) => destruct b end;
           repeat constructor; simpl; tauto).
    eapply Forall_impl; [|exact Hshape]. intros i (file & n & ->). simpl. tauto.
  - repeat rewrite length_app.
    repeat match goal with |- context [if ?b then _ else _] => destruct b end;
      cbn [length]; lia.
Qed.

Lemma push_if_absent_keeps name acc n :
  In n (map e_name acc) -> In n (map e_name (push_if_absent name acc)).
Proof.
  unfold push_if_absent. destruct (existsb _ acc); [auto|].
  rewrite map_app. intros H. apply in_or_app. left. exact H.
Qed.

Lemma push_if_absent_adds name acc : In name (map e_name (push_if_absent name acc)).
Proof.
  unfold push_if_absent. destruct (existsb _ acc) eqn:E.
  - apply existsb_exists in E as (e & He & Heq). apply String.eqb_eq in Heq.
    rewrite <- Heq. apply in_map. exact He.
  - rewrite map_app. apply in_or_app. right. left. reflexivity.
Qed.

Lemma tool_patterns_keep files pats acc n :
  In n (map e_name acc) -> In n (map e_name (fold_left (tool_from_pattern files) pats acc)).
Proof.
  revert acc. induction pats as [|[p name] pats IH]; intros acc H; [exact H|].
  cbn [fold_left]. apply IH. unfold tool_from_pattern.
  destruct (existsb _ files); [apply push_if_absent_keeps|]; exact H.
Qed.

Lemma tool_patterns_add files pats acc p name :
  In (p, name) pats -> existsb (fun file => includes file p) files = true ->
  In name (map e_name (fold_left (tool_from_pattern files) pats acc)).
Proof.
  revert acc. induction pats as [|[p' name'] pats IH]; intros acc Hin Hf; [destruct Hin|].
  cbn [fold_left]. destruct Hin as [Heq|Hin]; [|apply IH; assumption].
  injection Heq as -> ->. apply tool_patterns_keep. unfold tool_from_pattern.
  rewrite Hf. apply push_if_absent_adds.
Qed.

Lemma detectTools_file_pattern files pj p name :
  In (p, name) toolFilePatterns -> existsb (fun file => includes file p) files = true ->
  In name (map e_name (detectTools files pj)).
Proof. intros Hp Hf. unfold detectTools. eapply tool_patterns_add; eauto. Qed.

Lemma has_tool_in tools n names :
  In n (map e_name tools) -> In n names -> has_tool tools names = true.
Proof.
  intros Ht Hn. apply in_map_iff in Ht as (t & <- & Ht). unfold has_tool.
  apply existsb_exists. exists t. split; [exact Ht|].
  apply existsb_exists. exists (e_name t). split; [exact Hn|apply String.eqb_refl].
Qed.

Definition linter_message : string :=
  "Consider adding a linter like ESLint to enforce code quality standards.".
Definition test_framework_message : string :=
  "No testing framework detected. Consider adding tests with Jest, Mocha, or another testing library.".
Definition dotenv_message : string :=
  "You're using dotenv but no .env or .env.example file was found. Consider adding an example file for documentation.".

(** The messages [analyzeCodeQuality] may produce, apart from the one of
    [checkCodeIssues] named [m]. *)
Lemma message_only_from_code_issues fs files tools m :
  (m = linter_message \/ m = test_framework_message) ->
  In m (map i_message (analyzeCodeQuality fs files tools)) ->
  In m (map i_message (checkCodeIssues files tools)).
Proof.
  intros Hm H. rewrite analyzeCodeQuality_parts in H.
  destruct (size_insights_shape fs (firstn 10 (filter is_js_file files))) as [_ Hshape].
  rewrite !map_app in H.
  repeat (apply in_app_or in H as [H|H]); try exact H; exfalso.
  - unfold checkProjectStructure in H. rewrite !map_app in H.
    repeat (apply in_app_or in H as [H|H]);
      repeat match type of H with context [if ?b then _ else _] => destruct b end;
      simpl in H; destruct Hm as [->| ->]; intuition discriminate.
  - destruct (_ && _); simpl in H; destruct Hm as [->| ->]; intuition discriminate.
  - destruct (_ && _); simpl in H; destruct Hm as [->| ->]; intuition discriminate.
  - apply in_map_iff in H as (i & Hi & Hin). rewrite Forall_forall in Hshape.
    destruct (Hshape i Hin) as (file & n & ->). cbn in Hi.
    destruct Hm as [->| ->]; discriminate.
Qed.

(** X12. With the tools found by [detectTools], a file whose path contains
    [.eslintrc] silences the linter suggestion of [analyzeCodeQuality], and
    one whose path contains [jest.config.js] silences the missing testing
    framework suggestion, whatever [package.json] says. *)
Theorem config_files_silence_insights fs files pj :
  (existsb (fun file => includes file ".eslintrc") files = true ->
   ~ In linter_message (map i_message (analyzeCodeQuality fs files (detectTools files pj)))) /\
  (existsb (fun file => includes file "jest.config.js") files = true ->
   ~ In test_framework_message (map i_message (analyzeCodeQuality fs files (detectTools files pj)))).
Proof.
  split; intros Hf H.
  - apply message_only_from_code_issues in H; [|left; reflexivity].
    assert (Ht : has_tool (detectTools files pj) ["ESLint"; "TSLint"] = true).
    { apply (has_tool_in _ "ESLint"); [|left; reflexivity].
      apply (detectTools_file_pattern _ _ ".eslintrc"); [left; reflexivity|exact Hf]. }
    unfold checkCodeIssues in H. rewrite Ht in H. rewrite !map_app in H.
    repeat (apply in_app_or in H as [H|H]);
      repeat match type of H with context [if ?b then _ else _] => destruct b end;
      simpl in H; intuition discriminate.
  - apply message_only_from_code_issues in H; [|right; reflexivity].
    assert (Ht : has_tool (detectTools files pj) ["Jest"; "Mocha"; "Jasmine"] = true).
    { apply (has_tool_in _ "Jest"); [|left; reflexivity].
      apply (detectTools_file_pattern _ _ "jest.config.js"); [simpl; tauto|exact Hf]. }
    unfold checkCodeIssues in H. rewrite Ht in H. rewrite !map_app in H.
    repeat (apply in_app_or in H as [H|H]);
      repeat match type of H with context [if ?b then _ else _] => destruct b end;
      simpl in H; intuition discriminate.
Qed.

Lemma config_files_silence_insights_witness :
  ~ In linter_message (map i_message (analyzeCodeQuality (fun _ => None)
       [".eslintrc.json"; "jest.config.js"; "src/a.js"]
       (detectTools [".eslintrc.json"; "jest.config.js"; "src/a.js"] None))) /\
  ~ In test_framework_message (map i_message (analyzeCodeQuality (fun _ => None)
       [".eslintrc.json"; "jest.config.js"; "src/a.js"]
       (detectTools [".eslintrc.json"; "jest.config.js"; "src/a.js"] None))).
Proof.
  destruct (config_files_silence_insights (fun _ => None)
              [".eslintrc.json"; "jest.config.js"; "src/a.js"] None) as [H1 H2].
  split; [apply H1|apply H2]; vm_compute; reflexivity.
Defined.


(** X13. [detectTools] reports dotenv for any path containing [.env] (such
    as [.env.local] or [app.environment.js]), while [checkBestPractices]
    only accepts a file named exactly [.env] or [.env.example]; so a project
    with such a path and neither of those files is told it uses dotenv
    without a [.env] file, even with no dotenv dependency. *)
Theorem env_named_file_triggers_dotenv_warning fs files pj :
  existsb (fun file => includes file ".env") files = true ->
  existsb (fun file => String.eqb (basename file) ".env" ||
                       String.eqb (basename file) ".env.example") files = false ->
  In dotenv_message (map i_message (analyzeCodeQuality fs files (detectTools files pj))).
Proof.
  intros Hf Hb.
  assert (Ht : has_tool (detectTools files pj) ["dotenv"] = true).
  { apply (has_tool_in _ "dotenv"); [|left; reflexivity].
    apply (detectTools_file_pattern _ _ ".env"); [simpl; tauto|exact Hf]. }
  rewrite analyzeCodeQuality_parts, Ht, Hb. cbn [andb negb].
  rewrite !map_app. apply in_or_app. right. apply in_or_app. right.
  apply in_or_app. right. apply in_or_app. left. left. reflexivity.
Qed.

Lemma env_named_file_triggers_dotenv_warning_witness :
  In dotenv_message (map i_message (analyzeCodeQuality (fun _ => None)
       [".env.local"; "src/index.js"] (detectTools [".env.local"; "src/index.js"] None))).
Proof.
  apply env_named_file_triggers_dotenv_warning; vm_compute; reflexivity.
Defined.

End CodeQualityExtraProofs.

Module AwsAnalyzerProofs.
Import JsString NodePath TechDetector LanguagesSpec Detectors AwsAnalyzer.

Lemma bump_sum e acc : list_sum (map snd (bump e acc)) = S (list_sum (map snd acc)).
Proof.
  unfold list_sum.
  induction acc as [|[k n] acc IH]; cbn [bump]; [reflexivity|].
  destruct (String.eqb k e); simpl; [lia|].
  rewrite IH. lia.
Qed.

Lemma count_fold_sum files acc :
  list_sum (map snd (fold_left count_step files acc)) =
  list_sum (map snd acc) + length (filter (fun f => negb (String.eqb (ext_of f) "")) files).
Proof.
  revert acc. induction files as [|f files IH]; intros acc; cbn [fold_left filter length]; [lia|].
  rewrite IH. unfold count_step. fold (ext_of f).
  destruct (String.eqb (ext_of f) ""); cbn [negb length]; [lia|].
  rewrite bump_sum. lia.
Qed.

Definition language_of (files : list string) (e : string) : Language :=
  MkLanguage (getLanguageNameFromExtension e) (count_ext e files) e.

(** X14. [languages] of the second [analyzeProject]: one entry per distinct
    non-empty extension, in first-occurrence order up to the stable sort by
    descending count, named by [getLanguageNameFromExtension] (unknown
    extensions included), and the counts add up to the number of files that
    have an extension. *)
Theorem languages_of_histogram files :
  Permutation (languages_of files) (map (language_of files) (first_occurrences files)) /\
  StronglySorted LanguagesProofs.by_count_desc (languages_of files) /\
  (forall c, filter (fun l => lang_count l =? c) (languages_of files) =
             filter (fun l => lang_count l =? c) (map (language_of files) (first_occurrences files))) /\
  list_sum (map lang_count (languages_of files)) =
  length (filter (fun f => negb (String.eqb (ext_of f) "")) files).
Proof.
  assert (Hmap : map (fun '(extension, count) =>
                        MkLanguage (getLanguageNameFromExtension extension) count extension)
                     (count_extensions files) =
                 map (language_of files) (first_occurrences files)).
  { rewrite LanguagesProofs.count_extensions_histogram, map_map. reflexivity. }
  unfold languages_of. rewrite Hmap.
  split; [apply LanguagesProofs.sort_by_count_perm|].
  split; [apply LanguagesProofs.sort_by_count_sorted|].
  split; [intros c; apply LanguagesProofs.sort_by_count_stable|].
  rewrite (Permutation_list_sum (Permutation_map lang_count (LanguagesProofs.sort_by_count_perm _))).
  rewrite <- Hmap, map_map.
  transitivity (list_sum (map snd (count_extensions files))).
  - f_equal. apply map_ext. intros [e n]. reflexivity.
  - unfold count_extensions. rewrite count_fold_sum. reflexivity.
Qed.

(** The value [JSON.parse] keeps for [k]: that of its last member. *)
Definition last_value (members : list (string * string)) (k : string) : option string :=
  fold_left (fun acc '(k', v) => if String.eqb k' k then Some v else acc) members None.

Lemma get_put o k v k' : get (put o k v) k' = if String.eqb k' k then Some v else get o k'.
Proof.
  induction o as [|[k0 v0] o IH]; cbn [put get].
  - destruct (String.eqb k' k); reflexivity.
  - destruct (String.eqb_spec k k0) as [<-|Hne]; cbn [get].
    + destruct (String.eqb k' k); reflexivity.
    + rewrite IH. destruct (String.eqb_spec k' k0) as [->|]; [|reflexivity].
      destruct (String.eqb_spec k0 k); [congruence|reflexivity].
Qed.

Lemma keys_put o k v : map fst (put o k v) = if existsb (String.eqb k) (map fst o) then map fst o else map fst o ++ [k].
Proof.
  induction o as [|[k0 v0] o IH]; cbn [put map existsb fst]; [reflexivity|].
  destruct (String.eqb k k0); cbn [map fst orb]; [reflexivity|].
  rewrite IH. destruct (existsb _ _); reflexivity.
Qed.

Lemma nodup_put o k v : NoDup (map fst o) -> NoDup (map fst (put o k v)).
Proof.
  intros H. rewrite keys_put. destruct (existsb (String.eqb k) (map fst o)) eqn:E; [exact H|].
  apply NoDup_app; [exact H | repeat constructor; intros [] |].
  intros x Hx [<-|[]]. assert (existsb (String.eqb k) (map fst o) = true)
      by (apply existsb_exists; exists k; split; auto; apply String.eqb_refl). congruence.
Qed.

Definition lv_step (k : string) (acc : option string) (p : string * string) : option string :=
  let '(k', v) := p in if String.eqb k' k then Some v else acc.

Lemma last_value_fold ms k : last_value ms k = fold_left (lv_step k) ms None.
Proof. reflexivity. Qed.

Lemma lv_fold_acc ms k a :
  fold_left (lv_step k) ms a = match fold_left (lv_step k) ms None with Some v => Some v | None => a end.
Proof.
  revert a. induction ms as [|[k' v] ms IH]; intros a; cbn [fold_left]; [reflexivity|].
  cbn [lv_step]. destruct (String.eqb k' k); [|exact (IH a)].
  rewrite (IH (Some v)). destruct (fold_left _ ms None); reflexivity.
Qed.

Definition put_step (o : Obj) (p : string * string) : Obj := let '(k, v) := p in put o k v.

Lemma get_fold_put L t k :
  get (fold_left put_step L t) k = fold_left (lv_step k) L (get t k).
Proof.
  revert t. induction L as [|[k' v] L IH]; intros t; cbn [fold_left]; [reflexivity|].
  rewrite IH. f_equal. cbn [put_step lv_step]. rewrite get_put.
  destruct (String.eqb_spec k k'), (String.eqb_spec k' k); subst; congruence.
Qed.

Lemma nodup_fold_put L t : NoDup (map fst t) -> NoDup (map fst (fold_left put_step L t)).
Proof.
  revert t. induction L as [|[k v] L IH]; intros t H; cbn [fold_left]; [exact H|].
  apply IH, nodup_put, H.
Qed.

Lemma get_parse_object ms k : get (parse_object ms) k = last_value ms k.
Proof.
  unfold parse_object. change (fun o '(k, v) => put o k v) with put_step.
  rewrite get_fold_put. reflexivity.
Qed.

Lemma nodup_parse_object ms : NoDup (map fst (parse_object ms)).
Proof.
  unfold parse_object. change (fun o '(k, v) => put o k v) with put_step.
  apply nodup_fold_put. constructor.
Qed.

Lemma insert_index_perm p l : Permutation (insert_index p l) (p :: l).
Proof.
  induction l as [|q l IH]; cbn [insert_index]; [reflexivity|].
  destruct (_ <=? _)%Z; [reflexivity|].
  rewrite IH. apply perm_swap.
Qed.

Lemma filter_split_perm {A} (f : A -> bool) l :
  Permutation (filter f l ++ filter (fun x => negb (f x)) l) l.
Proof.
  induction l as [|x l IH]; cbn [filter]; [reflexivity|].
  destruct (f x); cbn [negb app].
  - constructor. exact IH.
  - rewrite <- Permutation_middle. constructor. exact IH.
Qed.

Lemma entries_perm o : Permutation (entries o) o.
Proof.
  unfold entries. rewrite <- (filter_split_perm (fun p => is_array_index (fst p)) o) at 3.
  apply Permutation_app_tail.
  induction (filter _ o) as [|p l IH]; cbn [fold_right]; [reflexivity|].
  rewrite insert_index_perm. constructor. exact IH.
Qed.

Lemma get_In o k v : NoDup (map fst o) -> get o k = Some v <-> In (k, v) o.
Proof.
  induction o as [|[k' v'] o IH]; intros Hnd; cbn [get In]; [split; [discriminate|tauto]|].
  inversion Hnd as [|? ? Hk Hnd']; subst.
  destruct (String.eqb_spec k k') as [->|Hne].
  - split.
    + intros H; injection H as <-; left; reflexivity.
    + intros [H|H]; [injection H as <-; reflexivity|].
      exfalso; apply Hk, (in_map fst _ _ H).
  - rewrite IH by exact Hnd'. split; [auto|].
    intros [H|H]; [injection H as <- <-; congruence|exact H].
Qed.

Lemma get_perm o o' k :
  NoDup (map fst o) -> NoDup (map fst o') -> Permutation o o' -> get o k = get o' k.
Proof.
  intros H H' Hp.
  destruct (get o k) as [v|] eqn:E.
  - symmetry. apply get_In; [exact H'|]. apply (Permutation_in _ Hp), get_In; assumption.
  - destruct (get o' k) as [v|] eqn:E'; [|reflexivity].
    apply get_In in E'; [|exact H']. apply (Permutation_in _ (Permutation_sym Hp)) in E'.
    apply get_In in E'; [congruence|exact H].
Qed.

Lemma lv_nodup L k : NoDup (map fst L) -> fold_left (lv_step k) L None = get L k.
Proof.
  induction L as [|[k' v] L IH]; intros Hnd; cbn [fold_left get]; [reflexivity|].
  inversion Hnd as [|? ? Hk Hnd']; subst.
  rewrite lv_fold_acc, IH by exact Hnd'. cbn [lv_step].
  destruct (String.eqb_spec k' k) as [->|Hne].
  - rewrite String.eqb_refl.
    destruct (get L k) eqn:E; [|reflexivity].
    exfalso; apply Hk. apply get_In in E; [|exact Hnd']. apply (in_map fst _ _ E).
  - destruct (String.eqb_spec k k'); [congruence|].
    destruct (get L k); reflexivity.
Qed.

Lemma get_spread t s k :
  NoDup (map fst s) ->
  get (spread t s) k = match get s k with Some v => Some v | None => get t k end.
Proof.
  intros Hnd. unfold spread. change (fun o '(k, v) => put o k v) with put_step.
  rewrite get_fold_put, lv_fold_acc.
  assert (Hnd' : NoDup (map fst (entries s))).
  { apply (Permutation_NoDup (Permutation_map fst (Permutation_sym (entries_perm s)))), Hnd. }
  rewrite (lv_nodup _ _ Hnd'), (get_perm _ s _ Hnd' Hnd (entries_perm s)).
  reflexivity.
Qed.

(** [allDependencies]: a dependency's value is the last one [package.json]
    gives it under [devDependencies], else the last under [dependencies]. *)
Lemma get_allDependencies m dep :
  get (allDependencies m) dep =
  match last_value (devDependencies m) dep with
  | Some v => Some v
  | None => last_value (dependencies m) dep
  end.
Proof.
  unfold allDependencies.
  rewrite get_spread by apply nodup_parse_object.
  rewrite get_parse_object, get_spread by apply nodup_parse_object.
  rewrite get_parse_object. cbn [get].
  destruct (last_value _ _); [reflexivity|]. destruct (last_value _ _); reflexivity.
Qed.

Lemma nodup_allDependencies m : NoDup (map fst (allDependencies m)).
Proof.
  unfold allDependencies, spread. change (fun o '(k, v) => put o k v) with put_step.
  apply nodup_fold_put, nodup_fold_put. constructor.
Qed.

(** X15. [detectFrameworks]/[detectTools] loop: each entry comes from one
    dependency, is named by the first rule it matches, and carries the
    last value [package.json] gives that dependency under
    [devDependencies], or else the last under [dependencies]. *)
Theorem detect_by_rules_entry rules m e :
  In e (detect_by_rules rules m) ->
  exists dep rule,
    find (rule_matches dep) rules = Some rule /\ In rule rules /\
    e_name e = fst rule /\
    e_version e = get (allDependencies m) dep /\
    e_version e = match last_value (devDependencies m) dep with
                  | Some v => Some v
                  | None => last_value (dependencies m) dep
                  end /\
    e_version e <> None.
Proof.
  unfold detect_by_rules. intros H.
  apply in_flat_map in H as [[dep ver] [Hin He]].
  destruct (find (rule_matches dep) rules) as [[name pat]|] eqn:Hf; [|destruct He].
  destruct He as [<-|[]].
  assert (Hg : get (allDependencies m) dep = Some ver).
  { apply get_In; [apply nodup_allDependencies|].
    apply (Permutation_in _ (entries_perm _)), Hin. }
  exists dep, (name, pat). cbn [e_name e_version fst].
  rewrite <- get_allDependencies, Hg.
  repeat split; auto; [apply (find_some _ _ Hf) | discriminate].
Qed.

Lemma detect_by_rules_names rules m e :
  In e (detect_by_rules rules m) -> In (e_name e) (map fst rules).
Proof.
  unfold detect_by_rules. intros H.
  apply in_flat_map in H as [[dep ver] [_ He]].
  destruct (find (rule_matches dep) rules) as [[name pat]|] eqn:Hf; [|destruct He].
  destruct He as [<-|[]]. apply (in_map fst _ _ (proj1 (find_some _ _ Hf))).
Qed.

Lemma detect_by_rules_entry_witness :
  In (MkEntry "React" (Some "^19.0.0")) (detectFrameworks with_duplicates) /\
  exists dep rule,
    find (rule_matches dep) frameworkRules = Some rule /\ In rule frameworkRules /\
    e_name (MkEntry "React" (Some "^19.0.0")) = fst rule /\
    e_version (MkEntry "React" (Some "^19.0.0")) = get (allDependencies with_duplicates) dep /\
    e_version (MkEntry "React" (Some "^19.0.0")) =
      match last_value (devDependencies with_duplicates) dep with
      | Some v => Some v
      | None => last_value (dependencies with_duplicates) dep
      end /\
    e_version (MkEntry "React" (Some "^19.0.0")) <> None.
Proof.
  assert (H : In (MkEntry "React" (Some "^19.0.0")) (detectFrameworks with_duplicates))
    by (vm_compute; left; reflexivity).
  split; [exact H | apply (detect_by_rules_entry frameworkRules with_duplicates _ H)].
Defined.

Definition qi_eqb (a b : QualityInsight) : bool :=
  String.eqb (q_type a) (q_type b) && String.eqb (q_message a) (q_message b).

Lemma in_qi q r : In q r <-> existsb (qi_eqb q) r = true.
Proof.
  rewrite existsb_exists. split.
  - intros H. exists q. split; [exact H|]. unfold qi_eqb. rewrite !String.eqb_refl. reflexivity.
  - intros [x [Hx Heq]]. unfold qi_eqb in Heq. apply andb_prop in Heq as [H1 H2].
    apply String.eqb_eq in H1, H2. destruct q, x; cbn in *; subst; exact Hx.
Qed.

(** X16. [analyzeCodeQuality] of the second analyzer gives three to six
    insights, each a positive one or a suggestion; it suggests ESLint exactly
    when no path contains [.eslintrc], and tests exactly when no path contains
    [test], [spec] or [__tests__]. *)
Theorem aws_analyzeCodeQuality_bounds files :
  let r := analyzeCodeQuality files in
  3 <= length r <= 6 /\
  Forall (fun q => q_type q = "positive" \/ q_type q = "suggestion") r /\
  (In (MkQualityInsight "suggestion" "Consider adding ESLint for code quality enforcement") r <->
   existsb (fun file => includes file ".eslintrc") files = false) /\
  (In (MkQualityInsight "suggestion" "Consider adding tests to improve code reliability") r <->
   forall file, In file files ->
     includes file "test" = false /\ includes file "spec" = false /\ includes file "__tests__" = false).
Proof.
  cbv zeta. unfold analyzeCodeQuality.
  set (tf := filter _ files).
  assert (Htf : tf = [] <-> forall file, In file files ->
     includes file "test" = false /\ includes file "spec" = false /\ includes file "__tests__" = false).
  { unfold tf. split.
    - intros H file Hin.
      destruct (includes file "test" || includes file "spec" || includes file "__tests__") eqn:E.
      + assert (Hf : In file (filter (fun file => includes file "test" || includes file "spec" ||
                                      includes file "__tests__") files))
          by (apply filter_In; auto).
        rewrite H in Hf. destruct Hf.
      + apply orb_false_iff in E as [E E3]. apply orb_false_iff in E as [E1 E2]. auto.
    - intros H. destruct (filter _ files) as [|f r] eqn:E; [reflexivity|].
      assert (Hf : In f (f :: r)) by (left; reflexivity). rewrite <- E in Hf.
      apply filter_In in Hf as [Hin Hb]. destruct (H f Hin) as [E1 [E2 E3]].
      rewrite E1, E2, E3 in Hb. discriminate. }
  assert (Hlt : (0 <? length tf) = false <-> tf = []).
  { destruct tf; cbn; split; congruence. }
  rewrite <- Htf, <- Hlt, !in_qi.
  generalize (existsb (fun file => includes file ".eslintrc") files) as b1.
  generalize (existsb (fun file => includes file ".prettierrc") files) as b2.
  generalize (existsb (fun file => includes file ".editorconfig") files) as b3.
  generalize (existsb (fun file => includes file ".gitignore") files) as b4.
  generalize (existsb (fun file => includes (toLowerCase file) "readme.md") files) as b5.
  generalize (0 <? length tf) as b6.
  generalize ("Project has " ++ CodeQuality.string_of_nat (length tf) ++ " test files")%string as msg.
  clear Htf Hlt. clearbody tf. clear tf files.
  intros msg [] [] [] [] [] [];
    cbn [app length existsb qi_eqb q_type q_message];
    (split; [lia|]);
    (split; [repeat apply Forall_cons; try apply Forall_nil; cbn [q_type];
             first [left; reflexivity | right; reflexivity] |]);
    split; (split; [intros H; vm_compute in H; first [reflexivity|discriminate]
                   | intros H; first [discriminate | vm_compute; reflexivity]]).
Qed.

Lemma merge_new_nil l : merge_new [] l = l.
Proof. unfold merge_new. cbn. induction l; cbn; congruence. Qed.

(** X17. The second [analyzeProject]: with a parsed [package.json] the
    frameworks and tools come from its dependencies only, named by the rules
    (so MongoDB is never among the tools); otherwise they are what the file
    names and database files show. *)
Theorem aws_analyzeProject_packageJson d files fs pj :
  let a := analyzeProject d files fs pj in
  fileCount a = length files /\ directoryCount a = d /\
  languages (techStack a) = languages_of files /\ codeQuality a = analyzeCodeQuality files /\
  match pj with
  | PkgParsed m =>
      frameworks (techStack a) = AwsAnalyzer.detectFrameworks m /\
      tools (techStack a) = AwsAnalyzer.detectTools m /\
      Forall (fun e => In (e_name e) (map fst frameworkRules)) (frameworks (techStack a)) /\
      Forall (fun e => e_name e <> "MongoDB" /\ In (e_name e) (map fst toolRules)) (tools (techStack a))
  | _ =>
      frameworks (techStack a) = detectFrameworksFromFiles files /\
      tools (techStack a) = detectDatabaseTech fs files
  end.
Proof.
  cbv zeta. unfold analyzeProject.
  destruct pj as [| |m]; cbn [fileCount directoryCount languages codeQuality techStack frameworks tools];
    rewrite ?merge_new_nil; repeat split; try reflexivity.
  - apply Forall_forall. intros e He. apply detect_by_rules_names in He. exact He.
  - apply Forall_forall. intros e He. apply detect_by_rules_names in He.
    split; [|exact He]. intros Hm. rewrite Hm in He. vm_compute in He.
    repeat destruct He as [He|He]; try discriminate; contradiction.
Qed.

End AwsAnalyzerProofs.
